(** * Comment analysis pipeline: a shallow embedding and its properties

    The pipeline of the repository (fetch, preprocess, classify, summarize,
    respond) is embedded function by function.  Python values are modelled
    as follows:

    - [str] is a list of Unicode code points, so that [len] counts code
      points as Python does;
    - a comment record ([dict]) is a finite map from field names to values;
    - a [float] is an IEEE 754 binary64 number ([spec_float] with the
      operations of [SpecFloat] at precision 53);
    - a call that may raise returns an [option], [None] being the raise;
    - external providers (the YouTube API, the comment downloader, the
      Groq client, the sentiment model, NLTK) are parameters. *)

From Stdlib Require Import ZArith NArith List Ascii Bool Lia DecimalString.
From Stdlib Require Import SpecFloat Sorted.
From stdpp Require Import gmap strings list.

Local Open Scope N_scope.

(** ** Python strings *)

Module PyStr.

Definition char := N.
Definition str := list char.

(** An ASCII literal of the source, as a [str]. *)
Definition lit (s : string) : str :=
  List.map N_of_ascii (String.list_ascii_of_string s).

Definition len (s : str) : nat := length s.

Definition eqb (s t : str) : bool := bool_decide (s = t).

(** [str.isspace] on one code point, which is also what [\s] matches in a
    [str] pattern: the code points CPython lists as whitespace. *)
Definition isspace (c : char) : bool :=
  ((9 <=? c) && (c <=? 13)) || ((28 <=? c) && (c <=? 32))
  || (c =? 133) || (c =? 160) || (c =? 5760)
  || ((8192 <=? c) && (c <=? 8202))
  || (c =? 8232) || (c =? 8233) || (c =? 8239) || (c =? 8287)
  || (c =? 12288).

Definition space : char := 32.

Fixpoint lstrip (s : str) : str :=
  match s with
  | [] => []
  | c :: r => if isspace c then lstrip r else s
  end.

Fixpoint rstrip (s : str) : str :=
  match s with
  | [] => []
  | c :: r =>
      match rstrip r with
      | [] => if isspace c then [] else [c]
      | r' => c :: r'
      end
  end.

(** [s.strip()] *)
Definition strip (s : str) : str := rstrip (lstrip s).

(** [sep.join(parts)] *)
Fixpoint join (sep : str) (parts : list str) : str :=
  match parts with
  | [] => []
  | [p] => p
  | p :: ps => p ++ sep ++ join sep ps
  end.

(** [s.split()]: the maximal runs of non-whitespace code points.  [cur] is
    the word being read, most recent code point first. *)
Fixpoint split_aux (cur : str) (s : str) : list str :=
  match s with
  | [] => match cur with [] => [] | _ => [rev cur] end
  | c :: r =>
      if isspace c
      then match cur with
           | [] => split_aux [] r
           | _ => rev cur :: split_aux [] r
           end
      else split_aux (c :: cur) r
  end.

Definition split (s : str) : list str := split_aux [] s.

Fixpoint startswith (p s : str) : bool :=
  match p, s with
  | [], _ => true
  | _ :: _, [] => false
  | a :: p', b :: s' => (a =? b) && startswith p' s'
  end.

(** [p in s] for two strings *)
Fixpoint contains (p s : str) : bool :=
  startswith p s ||
  match s with
  | [] => false
  | _ :: r => contains p r
  end.

(** [s[:n]] *)
Definition slice_to (n : nat) (s : str) : str := firstn n s.

(** [str.lower] restricted to the ASCII letters; it agrees with Python on
    ASCII text and is the instance used in the worked examples. *)
Definition ascii_lower_char (c : char) : char :=
  if (65 <=? c) && (c <=? 90) then c + 32 else c.

Definition ascii_lower (s : str) : str := List.map ascii_lower_char s.

End PyStr.

Import PyStr.

(** ** Python values and comment records *)

(** The [scores] mapping of a classified comment: the two keys
    ['positive'] and ['negative']. *)
Module Scores.
Record t := { positive : spec_float; negative : spec_float }.
End Scores.

Module Py.

Abbreviation scores := Scores.t.

Inductive value :=
  | VNone
  | VStr (s : str)
  | VInt (n : Z)
  | VFloat (x : spec_float)
  | VScores (sc : scores).

(** Truth value of an object in a condition. *)
Definition truthy (v : value) : bool :=
  match v with
  | VNone => false
  | VStr s => negb (bool_decide (s = []))
  | VInt n => negb (n =? 0)%Z
  | VFloat x => negb (SFeqb x (S754_zero false))
  | VScores _ => true
  end.

(** A comment record is a [dict] with string keys. *)
Abbreviation dict := (gmap string value).

(** [d.get(key, dflt)] *)
Definition get (d : dict) (key : string) (dflt : value) : value :=
  default dflt (d !! key).

(** [v == s] for a string [s] *)
Definition equals_str (v : value) (s : str) : bool :=
  match v with
  | VStr t => PyStr.eqb t s
  | _ => false
  end.

(** [len(v)]; [None] is the [TypeError]. *)
Definition len_value (v : value) : option nat :=
  match v with
  | VStr s => Some (len s)
  | VScores _ => Some 2%nat
  | _ => None
  end.

(** [d.get(key)] *)
Definition get_or_none (d : dict) (key : string) : value := get d key VNone.

End Py.

Import Py.

(** ** Text preprocessing ([preprocess.py]) *)

Module Preprocess.

(** [pattern.sub('', text)] for a pattern whose matches are never empty:
    [match_length s] is the length of the match that starts at the head of
    [s], or [0] when there is none; [skip] counts the code points of the
    current match still to be dropped. *)
Fixpoint delete_matches (match_length : str -> nat) (skip : nat) (text : str)
  : str :=
  match text with
  | [] => []
  | c :: r =>
      match skip with
      | S k => delete_matches match_length k r
      | O =>
          match match_length text with
          | O => c :: delete_matches match_length 0 r
          | S k => delete_matches match_length k r
          end
      end
  end.

Fixpoint run_length (p : char -> bool) (s : str) : nat :=
  match s with
  | [] => 0
  | c :: r => if p c then S (run_length p r) else 0
  end.

(** One code point of the repeated group of the URL pattern: a letter, a
    digit, the range [$-_] with [@.&+], or one of [!*$,]; the escape
    [%XX] adds nothing, [%] and the hexadecimal digits being in the
    former classes. *)
Definition url_body (c : char) : bool :=
  ((97 <=? c) && (c <=? 122)) || ((65 <=? c) && (c <=? 90))
  || ((48 <=? c) && (c <=? 57))
  || ((36 <=? c) && (c <=? 95)) || (c =? 64) || (c =? 46) || (c =? 38)
  || (c =? 43)
  || (c =? 33) || (c =? 42) || (c =? 36) || (c =? 44).

Definition url_after (scheme : str) (s : str) : nat :=
  if startswith scheme s
  then match run_length url_body (skipn (length scheme) s) with
       | O => 0
       | S n => length scheme + S n
       end
  else 0%nat.

(** Length of the match of [http[s]?://(...)+] at the head of [s]. *)
Definition url_match_length (s : str) : nat :=
  match url_after (lit "https://") s with
  | O => url_after (lit "http://") s
  | n => n
  end.

Definition remove_urls (text : str) : str :=
  delete_matches url_match_length 0 text.

(** Number of code points up to and including the first [>], when it comes
    before any newline ([.] does not match a newline). *)
Fixpoint tag_rest (s : str) : option nat :=
  match s with
  | [] => None
  | c :: r =>
      if c =? 62 then Some 1%nat
      else if c =? 10 then None
      else option_map S (tag_rest r)
  end.

(** Length of the match of [<.*?>] at the head of [s]. *)
Definition tag_match_length (s : str) : nat :=
  match s with
  | [] => 0
  | c :: r =>
      if c =? 60 then match tag_rest r with Some n => S n | None => 0 end
      else 0%nat
  end.

Definition remove_html_tags (text : str) : str :=
  delete_matches tag_match_length 0 text.

(** The character class of [emoji_pattern]. *)
Definition is_emoji (c : char) : bool :=
  ((0x1F600 <=? c) && (c <=? 0x1F64F))
  || ((0x1F300 <=? c) && (c <=? 0x1F5FF))
  || ((0x1F680 <=? c) && (c <=? 0x1F6FF))
  || ((0x1F1E0 <=? c) && (c <=? 0x1F1FF))
  || ((0x2702 <=? c) && (c <=? 0x27B0))
  || ((0x24C2 <=? c) && (c <=? 0x1F251)).

Definition remove_emojis (text : str) : str :=
  List.filter (fun c => negb (is_emoji c)) text.

Section Normalizer.

(** What [\w] matches in a [str] pattern (the Unicode alphanumerics and
    the underscore); the table lives in the [re] module. *)
Variable isword : char -> bool.

(** [str.lower] *)
Variable lower : str -> str.

(** [stopwords.words(lang)] of NLTK; [None] when it raises. *)
Variable stopwords_words : string -> option (list str).

(** [WordNetLemmatizer().lemmatize(word)]; [None] when it raises. *)
Variable lemmatize : str -> option str.

(** The complement of the class [[^\w\s.,!?-]]. *)
Definition kept (c : char) : bool :=
  isword c || isspace c
  || (c =? 46) || (c =? 44) || (c =? 33) || (c =? 63) || (c =? 45).

(** [re.sub(r'[^\w\s.,!?-]', '', text)] *)
Definition drop_special (text : str) : str := List.filter kept text.

(** [re.sub(r'\s+', ' ', text)]: every maximal run of whitespace becomes
    one space.  [in_run] tells that the previous code point was
    whitespace. *)
Fixpoint collapse_ws (in_run : bool) (text : str) : str :=
  match text with
  | [] => []
  | c :: r =>
      if isspace c
      then if in_run then collapse_ws true r
           else space :: collapse_ws true r
      else c :: collapse_ws false r
  end.

Definition remove_special_characters (text : str) : str :=
  let text := drop_special text in
  let text := collapse_ws false text in
  strip text.

(** The set built by the loop over [languages]: a language whose list
    cannot be read is skipped. *)
Fixpoint collect_stopwords (languages : list string) : list str :=
  match languages with
  | [] => []
  | lang :: rest =>
      match stopwords_words lang with
      | Some ws => ws ++ collect_stopwords rest
      | None => collect_stopwords rest
      end
  end.

Definition default_languages : list string := ["english"; "french"]%string.

Definition remove_stopwords_text (text : str) (languages : list string)
  : str :=
  let stop_words := collect_stopwords languages in
  let words := split text in
  let filtered_words :=
    List.filter (fun word => negb (existsb (PyStr.eqb (lower word)) stop_words))
                words in
  join [space] filtered_words.

(** The list comprehension of [lemmatize_text]; it stops at the first
    word on which the lemmatizer raises. *)
Fixpoint lemmatize_words (words : list str) : option (list str) :=
  match words with
  | [] => Some []
  | w :: ws =>
      match lemmatize (lower w) with
      | None => None
      | Some w' =>
          match lemmatize_words ws with
          | None => None
          | Some ws' => Some (w' :: ws')
          end
      end
  end.

Definition lemmatize_text (text : str) : str :=
  match lemmatize_words (split text) with
  | Some lemmatized_words => join [space] lemmatized_words
  | None => lower text
  end.

Definition preprocess_comment (text : value) (apply_lemmatization : bool)
  : str :=
  match text with
  | VStr text =>
      if bool_decide (text = []) then []
      else
        let text := remove_urls text in
        let text := remove_html_tags text in
        let text := remove_emojis text in
        let text := remove_special_characters text in
        let text := lower text in
        let text := remove_stopwords_text text default_languages in
        let text := if apply_lemmatization then lemmatize_text text else text in
        strip text
  | _ => []
  end.

(** The body of the loop of [preprocess_comments] up to the test: the
    copy of the record with the two text fields set. *)
Definition processed (comment : dict) (apply_lemmatization : bool)
  : dict :=
  let processed_comment := comment in
  let original_text := get comment "text" (VStr []) in
  let processed_text := preprocess_comment original_text apply_lemmatization in
  let processed_comment := <["original_text" := original_text]> processed_comment in
  <["processed_text" := VStr processed_text]> processed_comment.

Fixpoint preprocess_comments (comments : list dict)
                             (apply_lemmatization : bool) : list dict :=
  match comments with
  | [] => []
  | comment :: rest =>
      let original_text := get comment "text" (VStr []) in
      let processed_text := preprocess_comment original_text apply_lemmatization in
      if (3 <? len (strip processed_text))%nat
      then processed comment apply_lemmatization
             :: preprocess_comments rest apply_lemmatization
      else preprocess_comments rest apply_lemmatization
  end.

End Normalizer.

(** One of the two tests of [truncate_long_comments]: the field [key] of
    the copy is cut to [max_length] code points and an ellipsis when the
    field of [comment] is longer; [None] when [len] or the slice
    raises. *)
Definition truncate_field (key : string) (max_length : nat)
                          (comment truncated_comment : dict) : option dict :=
  match len_value (get comment key (VStr [])) with
  | None => None
  | Some n =>
      if (max_length <? n)%nat then
        match comment !! key with
        | Some (VStr text) =>
            Some (<[key := VStr (slice_to max_length text ++ lit "...")]>
                    truncated_comment)
        | _ => None
        end
      else Some truncated_comment
  end.

(** [truncate_long_comments] for a limit that is not negative. *)
Fixpoint truncate_long_comments (comments : list dict) (max_length : nat)
  : option (list dict) :=
  match comments with
  | [] => Some []
  | comment :: rest =>
      match truncate_field "original_text" max_length comment comment with
      | None => None
      | Some truncated_comment =>
          match truncate_field "processed_text" max_length comment
                  truncated_comment with
          | None => None
          | Some truncated_comment =>
              match truncate_long_comments rest max_length with
              | None => None
              | Some truncated_comments =>
                  Some (truncated_comment :: truncated_comments)
              end
          end
      end
  end.

End Preprocess.

(** ** Sentiment classification ([sentiment_analysis.py]) *)

Module Sentiment.

(** Python floats are binary64. *)
Definition float := spec_float.
Definition fadd : float -> float -> float := SFadd 53 1024.
Definition fsub : float -> float -> float := SFsub 53 1024.
(** [x > y] *)
Definition fgt (x y : float) : bool := SFltb y x.
(** [x == y] *)
Definition feq (x y : float) : bool := SFeqb x y.
Definition fle (x y : float) : bool := SFleb x y.

(** The literals of the source: [1] (converted to [1.0] by the
    subtraction), [0.5], [0.6], [0.4] and [0.0]. *)
Definition f1_0 : float := S754_finite false 4503599627370496 (-52).
Definition f0_5 : float := S754_finite false 4503599627370496 (-53).
Definition f0_6 : float := S754_finite false 5404319552844595 (-53).
Definition f0_4 : float := S754_finite false 7205759403792794 (-54).
Definition f0_0 : float := S754_zero false.

(** [float(z)] and the division, used to state what the literals
    denote. *)
Definition float_of_Z (z : Z) : float := binary_normalize 53 1024 z 0 false.
Definition fdiv : float -> float -> float := SFdiv 53 1024.

(** A float object holds a binary64 value. *)
Definition is_binary64 (x : float) : bool := valid_binary 53 1024 x.

Definition map_sentiment_label (label : str) (score : float) : scores :=
  if PyStr.eqb label (lit "POSITIVE") then
    {| Scores.positive := score; Scores.negative := fsub f1_0 score |}
  else if PyStr.eqb label (lit "NEGATIVE") then
    {| Scores.positive := fsub f1_0 score; Scores.negative := score |}
  else
    {| Scores.positive := f0_6; Scores.negative := f0_4 |}.

(** One prediction of the model: [{'label': ..., 'score': ...}]. *)
Record prediction := { label : str; score : float }.

(** One element of the list built by [classify_sentiment_batch]. *)
Record result := {
  sentiment : str;
  confidence : float;
  result_scores : scores
}.

(** The model: a call on a batch of texts returns its predictions, or
    raises ([None]). *)
Definition pipeline := list str -> option (list prediction).

(** The body of the loop over [batch_predictions]. *)
Definition result_of_prediction (p : prediction) : result :=
  let sentiment_scores := map_sentiment_label (label p) (score p) in
  let final_sentiment :=
    if fgt (Scores.positive sentiment_scores)
          (Scores.negative sentiment_scores)
    then lit "positive" else lit "negative" in
  {| sentiment := final_sentiment;
     confidence := score p;
     result_scores := sentiment_scores |}.

(** The result given to every text of a failed batch, and to a comment
    without result. *)
Definition default_result : result :=
  {| sentiment := lit "positive";
     confidence := f0_5;
     result_scores := {| Scores.positive := f0_5; Scores.negative := f0_5 |} |}.

Definition batch_size : nat := 32.

(** The body of the loop over the batches, for the batch that starts at
    index [i]. *)
Definition classify_one_batch (sentiment_pipeline : pipeline)
                              (texts : list str) (i : nat) : list result :=
  let batch_texts := firstn batch_size (skipn i texts) in
  match sentiment_pipeline batch_texts with
  | Some batch_predictions => List.map result_of_prediction batch_predictions
  | None => List.map (fun _ => default_result) batch_texts
  end.

(** [range(0, n, step)] *)
Definition range_step (n step : nat) : list nat :=
  List.map (fun k => k * step)%nat (seq 0 (Nat.div (n + step - 1) step)).

Definition classify_sentiment_batch (texts : list str)
                                    (sentiment_pipeline : option pipeline)
  : list result :=
  match sentiment_pipeline with
  | None => []
  | Some sentiment_pipeline =>
      flat_map (classify_one_batch sentiment_pipeline texts)
               (range_step (length texts) batch_size)
  end.

Definition max_attempts : nat := 3.

(** The loop of [load_sentiment_model] over the attempts still to make;
    [construct attempt] is the outcome of building the model at that
    attempt, [None] when it raises.  The messages and the sleep between
    two attempts are left out. *)
Fixpoint load_attempts (construct : nat -> option pipeline)
                       (attempts : list nat) : option pipeline :=
  match attempts with
  | [] => None
  | attempt :: rest =>
      match construct attempt with
      | Some sentiment_pipeline => Some sentiment_pipeline
      | None =>
          if (attempt <? max_attempts)%nat
          then load_attempts construct rest
          else None
      end
  end.

Definition load_sentiment_model (construct : nat -> option pipeline)
  : option pipeline :=
  load_attempts construct (seq 1 max_attempts).

(** The text of one comment given to the model; [None] when the field
    holds an object without [strip] or [len]. *)
Definition text_to_analyze (comment : dict) : option str :=
  let text := get comment "processed_text"
                  (get comment "original_text" (VStr [])) in
  match text with
  | VStr text =>
      if negb (bool_decide (text = [])) && (0 <? len (strip text))%nat
      then Some (if (512 <? len text)%nat then slice_to 512 text else text)
      else Some (lit "okay comment")
  | VNone => Some (lit "okay comment")
  | VInt n => if (n =? 0)%Z then Some (lit "okay comment") else None
  | VFloat x => if truthy (VFloat x) then None else Some (lit "okay comment")
  | VScores _ => None
  end.

Fixpoint texts_to_analyze (comments : list dict) : option (list str) :=
  match comments with
  | [] => Some []
  | comment :: rest =>
      match text_to_analyze comment with
      | None => None
      | Some text =>
          match texts_to_analyze rest with
          | None => None
          | Some texts => Some (text :: texts)
          end
      end
  end.

(** [analyzed_comment.update(r)] *)
Definition update_result (comment : dict) (r : result) : dict :=
  <["scores" := VScores (result_scores r)]>
    (<["confidence" := VFloat (confidence r)]>
       (<["sentiment" := VStr (sentiment r)]> comment)).

(** The loop that combines the results with the comments, from index [i]. *)
Fixpoint combine_results (sentiment_results : list result) (i : nat)
                         (comments : list dict) : list dict :=
  match comments with
  | [] => []
  | comment :: rest =>
      let analyzed_comment :=
        match nth_error sentiment_results i with
        | Some r => update_result comment r
        | None => update_result comment default_result
        end in
      analyzed_comment :: combine_results sentiment_results (S i) rest
  end.

(** [analyze_sentiment]; [None] when an exception reaches the caller. *)
Definition analyze_sentiment (construct : nat -> option pipeline)
                             (comments : list dict) : option (list dict) :=
  match comments with
  | [] => Some []
  | _ =>
      match load_sentiment_model construct with
      | None => Some comments
      | Some sentiment_pipeline =>
          match texts_to_analyze comments with
          | None => None
          | Some texts =>
              let sentiment_results :=
                classify_sentiment_batch texts (Some sentiment_pipeline) in
              Some (combine_results sentiment_results 0 comments)
          end
      end
  end.

End Sentiment.

(** ** Narrative summary ([summarizer.py]) *)

Module Summarizer.

(** [str(n)] for a non-negative integer. *)
Definition str_of_nat (n : nat) : str :=
  lit (NilZero.string_of_uint (Nat.to_uint n)).

(** A request to [client.chat.completions.create]. *)
Record chat_request := {
  api_key : str;
  model : str;
  prompt : str;
  max_tokens : nat;
  temperature : spec_float
}.

(** [0.3] *)
Definition f0_3 : spec_float := S754_finite false 5404319552844595 (-54).

Definition newline : char := 10.

Section Summary.

(** [str.lower] *)
Variable lower : str -> str.

(** [Groq(api_key=key)]: [false] when building the client raises. *)
Variable groq_client : str -> bool.

(** [client.chat.completions.create(...)] and the reading of
    [choices[0].message.content] as one step, which gives the content or
    raises ([None]). *)
Variable groq_chat : chat_request -> option str.

(** [f"{(count / total) * 100:.1f}"], the formatting of a float. *)
Variable format_percentage : nat -> nat -> str.

(** The text of one comment for the prompt; [None] when the field holds
    an object without [strip]. *)
Definition meaningful_text (comment : dict) : option (option str) :=
  let text := get comment "original_text" (get comment "text" (VStr [])) in
  match text with
  | VStr text =>
      if negb (bool_decide (text = [])) && (10 <? len (strip text))%nat
      then Some (Some (lit "- " ++ slice_to 200 text))
      else Some None
  | v => if truthy v then None else Some None
  end.

Fixpoint collect_comments_text (comments : list dict) : option (list str) :=
  match comments with
  | [] => Some []
  | comment :: rest =>
      match meaningful_text comment with
      | None => None
      | Some line =>
          match collect_comments_text rest with
          | None => None
          | Some lines =>
              Some (match line with Some l => l :: lines | None => lines end)
          end
      end
  end.

Definition indent : str := lit "        ".

Definition summary_prompt (comments_text : list str) : str :=
  [newline]
  ++ indent ++ lit "Please analyze the following YouTube comments and provide a concise summary of the main points, themes, and opinions expressed by viewers. Focus on the most common topics and sentiments."
  ++ [newline; newline]
  ++ indent ++ lit "Comments:" ++ [newline]
  ++ indent ++ join [newline] (firstn 30 comments_text)
  ++ lit "  # Limit to avoid token limits" ++ [newline; newline]
  ++ indent ++ lit "Please provide a summary in 3-4 sentences covering:" ++ [newline]
  ++ indent ++ lit "1. Main topics discussed" ++ [newline]
  ++ indent ++ lit "2. Overall sentiment/tone" ++ [newline]
  ++ indent ++ lit "3. Key concerns or praise mentioned" ++ [newline]
  ++ indent ++ lit "4. Any notable patterns or trends" ++ [newline; newline]
  ++ indent ++ lit "Summary:" ++ [newline]
  ++ indent.

Definition summary_request (key : str) (comments_text : list str)
  : chat_request :=
  {| api_key := key;
     model := lit "llama-3.1-8b-instant";
     prompt := summary_prompt comments_text;
     max_tokens := 300;
     temperature := f0_3 |}.

(** [summarize_with_groq]: [None] is the [None] it returns from its
    handler. *)
Definition summarize_with_groq (comments : list dict) (key : str)
  : option str :=
  if groq_client key then
    match collect_comments_text (firstn 50 comments) with
    | None => None
    | Some [] => Some (lit "No meaningful comments found to summarize.")
    | Some comments_text =>
        match groq_chat (summary_request key comments_text) with
        | None => None
        | Some content => Some (strip content)
        end
    end
  else None.

(** Building the client raises; or the call to the provider is made
    (there are lines for the prompt) and it raises, or the content it
    returns is empty once stripped. *)
Definition provider_call_fails (comments : list dict) (key : str) : Prop :=
  groq_client key = false
  \/ (groq_client key = true
      /\ exists comments_text,
           collect_comments_text (firstn 50 comments) = Some comments_text
           /\ comments_text <> []
           /\ (groq_chat (summary_request key comments_text) = None
               \/ exists content,
                    groq_chat (summary_request key comments_text)
                    = Some content
                    /\ strip content = [])).

(** [sentiment_counts], a dictionary with the three keys ['positive'],
    ['negative'] and ['neutral'], in this order. *)
Record sentiment_counts := {
  n_positive : nat;
  n_negative : nat;
  n_neutral : nat
}.

(** [sentiment_counts[sentiment] += 1]; [None] is the [KeyError]. *)
Definition count_sentiment (counts : sentiment_counts) (sentiment : value)
  : option sentiment_counts :=
  match sentiment with
  | VStr s =>
      if PyStr.eqb s (lit "positive") then
        Some {| n_positive := S (n_positive counts);
                n_negative := n_negative counts;
                n_neutral := n_neutral counts |}
      else if PyStr.eqb s (lit "negative") then
        Some {| n_positive := n_positive counts;
                n_negative := S (n_negative counts);
                n_neutral := n_neutral counts |}
      else if PyStr.eqb s (lit "neutral") then
        Some {| n_positive := n_positive counts;
                n_negative := n_negative counts;
                n_neutral := S (n_neutral counts) |}
      else None
  | _ => None
  end.

Fixpoint count_sentiments (counts : sentiment_counts) (comments : list dict)
  : option sentiment_counts :=
  match comments with
  | [] => Some counts
  | comment :: rest =>
      match count_sentiment counts
              (get comment "sentiment" (VStr (lit "neutral"))) with
      | None => None
      | Some counts' => count_sentiments counts' rest
      end
  end.

(** The texts joined into [all_text]; [None] when one is not a string. *)
Fixpoint texts_for_topics (comments : list dict) : option (list str) :=
  match comments with
  | [] => Some []
  | comment :: rest =>
      match get comment "processed_text"
                (get comment "original_text" (VStr [])) with
      | VStr text =>
          match texts_for_topics rest with
          | None => None
          | Some texts => Some (text :: texts)
          end
      | _ => None
      end
  end.

(** [word_freq[word] = word_freq.get(word, 0) + 1] on a dictionary that
    keeps the order of insertion. *)
Fixpoint bump (word : str) (word_freq : list (str * nat))
  : list (str * nat) :=
  match word_freq with
  | [] => [(word, 1%nat)]
  | (w, n) :: rest =>
      if PyStr.eqb w word then (w, S n) :: rest
      else (w, n) :: bump word rest
  end.

Definition count_words (words : list str) : list (str * nat) :=
  fold_left (fun word_freq word =>
               if (3 <? len word)%nat then bump word word_freq else word_freq)
            words [].

(** [sorted(items, key=lambda x: x[1], reverse=True)]: a stable sort by
    decreasing count. *)
Fixpoint insert_desc (x : str * nat) (sorted : list (str * nat))
  : list (str * nat) :=
  match sorted with
  | [] => [x]
  | y :: rest =>
      if (snd y <=? snd x)%nat then x :: sorted
      else y :: insert_desc x rest
  end.

Definition sort_desc (items : list (str * nat)) : list (str * nat) :=
  fold_right insert_desc [] items.

(** [max(sentiment_counts.items(), key=lambda x: x[1])[0]]: the first
    key of greatest count. *)
Definition dominant (counts : sentiment_counts) : str * nat :=
  let best := (lit "positive", n_positive counts) in
  let best := if (snd best <? n_negative counts)%nat
              then (lit "negative", n_negative counts) else best in
  if (snd best <? n_neutral counts)%nat
  then (lit "neutral", n_neutral counts) else best.

(** The three steps that build the text of the local summary. *)
Definition render_summary (total_comments : nat) (dominant_sentiment : str)
                          (sentiment_percentage : str)
                          (common_topics : list str)
                          (counts : sentiment_counts) : str :=
  let summary :=
    lit "Analysis of " ++ str_of_nat total_comments
    ++ lit " comments shows a predominantly " ++ dominant_sentiment
    ++ lit " sentiment (" ++ sentiment_percentage ++ lit "%). " in
  let summary :=
    match common_topics with
    | [] => summary
    | _ => summary ++ lit "Common topics discussed include: "
           ++ join (lit ", ") (firstn 5 common_topics)
           ++ lit ". "
    end in
  summary ++ lit "The comments contain "
  ++ str_of_nat (n_positive counts) ++ lit " positive, "
  ++ str_of_nat (n_negative counts) ++ lit " negative, and "
  ++ str_of_nat (n_neutral counts)
  ++ lit " neutral responses.".

(** The body of the [try] of [summarize_locally]; [None] when it
    raises. *)
Definition summarize_locally_body (comments : list dict) : option str :=
  match comments with
  | [] => Some (lit "No comments available for summarization.")
  | _ =>
      let total_comments := length comments in
      match count_sentiments {| n_positive := 0; n_negative := 0;
                                n_neutral := 0 |} comments with
      | None => None
      | Some counts =>
          match texts_for_topics (firstn 30 comments) with
          | None => None
          | Some texts =>
              let all_text := join [space] texts in
              let words := split (lower all_text) in
              let word_freq := count_words words in
              let top_words := firstn 10 (sort_desc word_freq) in
              let common_topics :=
                List.map fst
                  (List.filter (fun wc => (2 <? snd wc)%nat) top_words) in
              let dominant_sentiment := fst (dominant counts) in
              let sentiment_percentage :=
                format_percentage (snd (dominant counts)) total_comments in
              Some (render_summary total_comments dominant_sentiment
                      sentiment_percentage common_topics counts)
          end
      end
  end.

Definition summarize_locally (comments : list dict) : str :=
  match summarize_locally_body comments with
  | Some summary => summary
  | None => lit "Unable to generate summary due to processing error."
  end.

(** [generate_summary]; the key is [None] or a string. *)
Definition generate_summary (comments : list dict)
                            (groq_api_key : option str) : str :=
  match comments with
  | [] => lit "No comments available for summarization."
  | _ =>
      let local := summarize_locally comments in
      match groq_api_key with
      | Some key =>
          if negb (bool_decide (key = []))
             && negb (bool_decide (strip key = []))
          then match summarize_with_groq comments (strip key) with
               | Some groq_summary =>
                   if negb (bool_decide (groq_summary = []))
                   then groq_summary
                   else local
               | None => local
               end
          else local
      | None => local
      end
  end.

End Summary.

End Summarizer.

(** ** Replies to comments ([comment_responder.py]) *)

Module Responder.

Import Summarizer.

(** [0.7] *)
Definition f0_7 : spec_float := S754_finite false 6305039478318694 (-53).

(** The emoji of the templates. *)
Definition smiling_face : str := [0x1F60A].
Definition red_heart : str := [0x2764; 0xFE0F].
Definition folded_hands : str := [0x1F64F].
Definition raising_hands : str := [0x1F64C].

(** The six lists of templates of [_generate_fallback_response] and the
    list of the neutral case, as functions of the author. *)
Definition gratitude_templates (author : str) : list str :=
  [ lit "Thank you so much " ++ author ++ lit "! " ++ smiling_face;
    lit "Really appreciate it " ++ author ++ lit "! " ++ red_heart;
    lit "Thanks " ++ author ++ lit ", that means a lot!";
    lit "So glad you enjoyed it " ++ author ++ lit "! " ++ folded_hands ].

Definition praise_templates (author : str) : list str :=
  [ lit "Thank you " ++ author ++ lit "! " ++ raising_hands;
    lit "Appreciate the kind words " ++ author ++ lit "!";
    lit "Thanks for watching " ++ author ++ lit "! " ++ smiling_face ].

Definition positive_templates (author : str) : list str :=
  [ lit "Thanks " ++ author ++ lit "! " ++ smiling_face;
    lit "Appreciate you " ++ author ++ lit "! " ++ red_heart;
    lit "Thank you for the support " ++ author ++ lit "!" ].

Definition criticism_templates (author : str) : list str :=
  [ lit "Sorry to hear that " ++ author ++ lit ". I'll work on improving! "
      ++ folded_hands;
    lit "Thanks for the feedback " ++ author
      ++ lit ", I appreciate your honesty.";
    lit "I understand " ++ author ++ lit ", I'll keep working to do better!" ].

Definition clarity_templates (author : str) : list str :=
  [ lit "Thanks for pointing that out " ++ author
      ++ lit "! I'll try to explain better next time.";
    lit "Good feedback " ++ author ++ lit ", I'll work on making it clearer!";
    lit "Appreciate the input " ++ author ++ lit ", clarity is important!" ].

Definition negative_templates (author : str) : list str :=
  [ lit "Thanks for the feedback " ++ author ++ lit "! " ++ folded_hands;
    lit "I appreciate your perspective " ++ author ++ lit ".";
    lit "Thank you for sharing your thoughts " ++ author ++ lit "!" ].

Definition neutral_templates (author : str) : list str :=
  [ lit "Thanks for watching " ++ author ++ lit "! " ++ smiling_face;
    lit "Appreciate the comment " ++ author ++ lit "!";
    lit "Thanks for being here " ++ author ++ lit "! " ++ folded_hands;
    lit "Great to see you " ++ author ++ lit "!" ].

(** [any(word in text for word in words)] *)
Definition any_in (words : list string) (text : str) : bool :=
  existsb (fun word => contains (lit word) text) words.

(** [random.choice(seq)] when the generator draws the index
    [pick mod len(seq)]; [None] is the [IndexError] on an empty
    sequence. *)
Definition random_choice {A : Type} (pick : nat) (seq : list A) : option A :=
  match seq with
  | [] => None
  | _ => nth_error seq (pick mod length seq)
  end.

Section Responses.

(** [str.lower] *)
Variable lower : str -> str.

(** [str(v)] for a value that is not a string. *)
Variable str_of_object : value -> str.

(** The Groq client: building it, the call and the reading of
    [choices[0].message.content] as one step, which gives the content or
    raises ([None]); every raise ends in the same handler. *)
Variable groq_chat : chat_request -> option str.

(** The formatting of a value in an f-string. *)
Definition format_value (v : value) : str :=
  match v with
  | VStr s => s
  | _ => str_of_object v
  end.

(** The list [responses] chosen by the branches. *)
Definition responses_for (author : str) (sentiment : value)
                         (original_text : str) : list str :=
  if equals_str sentiment (lit "positive") then
    if any_in ["thank"; "thanks"; "great"; "awesome"; "love"; "amazing"]%string
              original_text
    then gratitude_templates author
    else if any_in ["good"; "nice"; "well done"; "excellent"]%string
                   original_text
    then praise_templates author
    else positive_templates author
  else if equals_str sentiment (lit "negative") then
    if any_in ["bad"; "terrible"; "hate"; "worst"]%string original_text
    then criticism_templates author
    else if any_in ["confusing"; "unclear"; "hard"]%string original_text
    then clarity_templates author
    else negative_templates author
  else neutral_templates author.

(** [_generate_fallback_response]; [pick] is the draw of the random
    generator, [None] the exception raised when [original_text] is not a
    string. *)
Definition _generate_fallback_response (pick : nat) (comment : dict)
  : option str :=
  let author := format_value (get comment "author" (VStr (lit "there"))) in
  let sentiment := get comment "sentiment" (VStr (lit "neutral")) in
  match get comment "original_text" (VStr []) with
  | VStr original_text =>
      random_choice pick (responses_for author sentiment (lower original_text))
  | _ => None
  end.

Definition response_prompt (author original_text sentiment : str) : str :=
  [newline]
  ++ indent ++ lit "You are a friendly content creator responding to YouTube comments. " ++ [newline]
  ++ indent ++ lit "Generate a brief, personalized response (max 20 words) to this comment:" ++ [newline]
  ++ indent ++ [newline]
  ++ indent ++ lit "Author: " ++ author ++ [newline]
  ++ indent ++ lit "Comment: " ++ [34] ++ original_text ++ [34] ++ [newline]
  ++ indent ++ lit "Sentiment: " ++ sentiment ++ [newline]
  ++ indent ++ [newline]
  ++ indent ++ lit "Guidelines:" ++ [newline]
  ++ indent ++ lit "- Be warm and engaging" ++ [newline]
  ++ indent ++ lit "- Address the commenter by name when appropriate" ++ [newline]
  ++ indent ++ lit "- Match the tone of the comment" ++ [newline]
  ++ indent ++ lit "- Keep it conversational and authentic" ++ [newline]
  ++ indent ++ lit "- For positive comments: show appreciation" ++ [newline]
  ++ indent ++ lit "- For negative comments: be understanding and constructive" ++ [newline]
  ++ indent ++ [newline]
  ++ indent ++ lit "Response:" ++ [newline]
  ++ indent.

Definition response_request (key : str) (comment : dict) : chat_request :=
  let author := format_value (get comment "author" (VStr (lit "there"))) in
  let original_text := format_value (get comment "original_text" (VStr [])) in
  let sentiment :=
    format_value (get comment "sentiment" (VStr (lit "neutral"))) in
  {| api_key := key;
     model := lit "llama-3.1-8b-instant";
     prompt := response_prompt author original_text sentiment;
     max_tokens := 50;
     temperature := f0_7 |}.

Definition _generate_ai_response (pick : nat) (comment : dict) (key : str)
  : option str :=
  match groq_chat (response_request key comment) with
  | Some content => Some (strip content)
  | None => _generate_fallback_response pick comment
  end.

(** The body of the loop of [generate_comment_responses]: the record
    with its response set, or [None] when the handler raises as well. *)
Definition respond_to (groq_api_key : option str) (pick : nat)
                      (comment : dict) : option dict :=
  let attempt :=
    match groq_api_key with
    | Some key =>
        if negb (bool_decide (key = []))
        then _generate_ai_response pick comment key
        else _generate_fallback_response pick comment
    | None => _generate_fallback_response pick comment
    end in
  match attempt with
  | Some response => Some (<["response" := VStr response]> comment)
  | None =>
      match _generate_fallback_response pick comment with
      | Some response => Some (<["response" := VStr response]> comment)
      | None => None
      end
  end.

(** The loop, from the comment of index [i]; [picks i] is the draw made
    for that comment. *)
Fixpoint respond_from (groq_api_key : option str) (picks : nat -> nat)
                      (i : nat) (comments : list dict) : option (list dict) :=
  match comments with
  | [] => Some []
  | comment :: rest =>
      match respond_to groq_api_key (picks i) comment with
      | None => None
      | Some comment' =>
          match respond_from groq_api_key picks (S i) rest with
          | None => None
          | Some rest' => Some (comment' :: rest')
          end
      end
  end.

(** [generate_comment_responses], on the values of the records (the
    sharing of the records with the caller is the matter of [Store]
    below). *)
Definition generate_comment_responses (picks : nat -> nat)
                                      (comments : list dict)
                                      (groq_api_key : option str)
  : option (list dict) :=
  respond_from groq_api_key picks 0 comments.

End Responses.

(** The filter of the first comprehension of [get_response_summary]. *)
Definition has_response (c : dict) : bool := truthy (get_or_none c "response").

(** The filter of the second one; [None] when [len] raises. *)
Definition looks_generated (c : dict) : option bool :=
  if truthy (get_or_none c "response")
  then match len_value (get c "response" (VStr [])) with
       | Some n => Some (30 <? n)%nat
       | None => None
       end
  else Some false.

Fixpoint count_generated (comments : list dict) : option nat :=
  match comments with
  | [] => Some 0%nat
  | c :: rest =>
      match looks_generated c with
      | None => None
      | Some b =>
          match count_generated rest with
          | None => None
          | Some n => Some (if b then S n else n)
          end
      end
  end.

(** [get_response_summary]: the report is a dictionary, empty for an
    empty sequence; [None] when an exception is raised. *)
Definition get_response_summary (comments : list dict)
  : option (gmap string nat) :=
  match comments with
  | [] => Some ∅
  | _ =>
      let total_responses := length (List.filter has_response comments) in
      match count_generated comments with
      | None => None
      | Some ai_responses =>
          let template_responses := (total_responses - ai_responses)%nat in
          Some (<["total_responses" := total_responses]>
                 (<["ai_responses" := ai_responses]>
                   (<["template_responses" := template_responses]> ∅)))
      end
  end.

End Responder.

(** ** Fetching the comments ([fetch_comments.py]) *)

Module Fetcher.

(** The arguments of [youtube.commentThreads().list(...)] together with
    the key given to [build]. *)
Record api_request := {
  developerKey : str;
  part : str;
  videoId : str;
  maxResults : Z;
  pageToken : option str;
  order : str
}.

(** [item['snippet']['topLevelComment']['snippet']] *)
Record snippet := {
  textDisplay : value;
  authorDisplayName : value;
  likeCount : value;
  publishedAt : value
}.

Record api_response := {
  items : list snippet;
  nextPageToken : option str
}.

(** What a pull on the generator of the downloader gives. *)
Inductive pull :=
  | Item (comment : dict)
  | Stop
  | Raise.

Definition record_of_snippet (comment : snippet) : dict :=
  <["text" := textDisplay comment]>
    (<["author" := authorDisplayName comment]>
      (<["likes" := likeCount comment]>
        (<["published" := publishedAt comment]> ∅))).

Definition record_of_item (comment : dict) : dict :=
  <["text" := get comment "text" (VStr [])]>
    (<["author" := get comment "author" (VStr (lit "Unknown"))]>
      (<["likes" := get comment "votes" (VInt 0)]>
        (<["published" := get comment "time" (VStr [])]> ∅))).

Section Providers.

(** [extract_video_id]; the search of the patterns is left to [re]. *)
Variable extract_video_id : str -> option str.

(** [request.execute()]: building the client, the call and the reading
    of the response; [None] when any of them raises. *)
Variable execute : api_request -> option api_response.

(** [downloader.get_comments_from_url(url)]: the pull of index [i] on
    the generator. *)
Variable get_comments_from_url : str -> nat -> pull.

Definition list_request (video_id key : str) (page_size : Z)
                        (token : option str) : api_request :=
  {| developerKey := key;
     part := lit "snippet";
     videoId := video_id;
     maxResults := page_size;
     pageToken := token;
     order := lit "relevance" |}.

(** The [while] loop of [fetch_comments_api]; [fuel] bounds the number
    of pages, [None] tells that it was too small.  An exception ends in
    the handler, which returns the empty list. *)
Fixpoint api_pages (fuel : nat) (video_id key : str) (max_results : Z)
                   (request : api_request) (comments : list dict)
  : option (list dict) :=
  match fuel with
  | O => None
  | S fuel' =>
      if (Z.of_nat (length comments) <? max_results)%Z then
        match execute request with
        | None => Some []
        | Some response =>
            let comments :=
              comments ++ List.map record_of_snippet (items response) in
            match nextPageToken response with
            | Some token =>
                if (Z.of_nat (length comments) <? max_results)%Z then
                  api_pages fuel' video_id key max_results
                    (list_request video_id key
                       (Z.min (max_results - Z.of_nat (length comments)) 100)
                       (Some token))
                    comments
                else Some comments
            | None => Some comments
            end
        end
      else Some comments
  end.

Definition fetch_comments_api (fuel : nat) (video_id key : str)
                              (max_results : Z) : option (list dict) :=
  api_pages fuel video_id key max_results
    (list_request video_id key (Z.min max_results 100) None) [].

(** The [for] loop of [fetch_comments_downloader], at the pull of index
    [i]. *)
Fixpoint downloader_items (fuel : nat) (stream : nat -> pull)
                          (max_results : Z) (i : nat) (comments : list dict)
  : option (list dict) :=
  match fuel with
  | O => None
  | S fuel' =>
      match stream i with
      | Raise => Some []
      | Stop => Some comments
      | Item comment =>
          if (max_results <=? Z.of_nat (length comments))%Z
          then Some comments
          else downloader_items fuel' stream max_results (S i)
                 (comments ++ [record_of_item comment])
      end
  end.

Definition fetch_comments_downloader (fuel : nat) (video_id : str)
                                     (max_results : Z) : option (list dict) :=
  downloader_items fuel
    (get_comments_from_url (lit "https://www.youtube.com/watch?v=" ++ video_id))
    max_results 0 [].

Definition fetch_comments (fuel : nat) (video_url : str)
                          (key : option str) (max_results : Z)
  : option (list dict) :=
  match extract_video_id video_url with
  | None => Some []
  | Some video_id =>
      let fallback := fetch_comments_downloader fuel video_id max_results in
      match key with
      | Some key =>
          if negb (bool_decide (key = []))
             && negb (bool_decide (strip key = []))
          then match fetch_comments_api fuel video_id (strip key)
                       max_results with
               | None => None
               | Some [] => fallback
               | Some comments => Some comments
               end
          else fallback
      | None => fallback
      end
  end.

End Providers.

End Fetcher.

(** ** The records as shared objects *)

(** The stages receive and return lists of references to records.  A
    store maps each reference to the record it denotes; [copy] allocates
    a fresh record, an assignment to a field updates the record in
    place. *)

Module Store.

Definition loc := positive.

Abbreviation store := (gmap loc dict).

(** The records a list of references denotes. *)
Definition deref (σ : gmap loc dict) (refs : list loc) : list dict :=
  List.map (fun l => σ !!! l) refs.

(** A new record. *)
Definition alloc (σ : gmap loc dict) (d : dict) : gmap loc dict * loc :=
  let l := fresh (dom σ) in (<[l := d]> σ, l).

Fixpoint alloc_all (σ : gmap loc dict) (ds : list dict)
  : gmap loc dict * list loc :=
  match ds with
  | [] => (σ, [])
  | d :: rest =>
      let '(σ1, l) := alloc σ d in
      let '(σ2, ls) := alloc_all σ1 rest in
      (σ2, l :: ls)
  end.

Section Stages.

Variable isword : char -> bool.
Variable lower : str -> str.
Variable stopwords_words : string -> option (list str).
Variable lemmatize : str -> option str.
Variable str_of_object : value -> str.
Variable groq_chat : Summarizer.chat_request -> option str.

(** [preprocess_comments]: every record it returns is the copy made by
    [comment.copy()], with the two text fields set. *)
Definition preprocess_comments (σ : gmap loc dict) (comments : list loc)
                               (apply_lemmatization : bool)
  : gmap loc dict * list loc :=
  alloc_all σ
    (Preprocess.preprocess_comments isword lower stopwords_words lemmatize
       (deref σ comments) apply_lemmatization).

(** [truncate_long_comments]: copies as well. *)
Definition truncate_long_comments (σ : gmap loc dict) (comments : list loc)
                                  (max_length : nat)
  : option (gmap loc dict * list loc) :=
  match Preprocess.truncate_long_comments (deref σ comments) max_length with
  | None => None
  | Some truncated_comments => Some (alloc_all σ truncated_comments)
  end.

(** [analyze_sentiment]: copies as well, except that the list it was
    given is returned when the model cannot be loaded. *)
Definition analyze_sentiment (construct : nat -> option Sentiment.pipeline)
                             (σ : gmap loc dict) (comments : list loc)
  : option (gmap loc dict * list loc) :=
  match comments with
  | [] => Some (σ, [])
  | _ =>
      match Sentiment.load_sentiment_model construct with
      | None => Some (σ, comments)
      | Some sentiment_pipeline =>
          match Sentiment.texts_to_analyze (deref σ comments) with
          | None => None
          | Some texts =>
              let sentiment_results :=
                Sentiment.classify_sentiment_batch texts
                  (Some sentiment_pipeline) in
              Some (alloc_all σ
                      (Sentiment.combine_results sentiment_results 0
                         (deref σ comments)))
          end
      end
  end.

(** The loop of [generate_comment_responses]: [comment['response'] = ...]
    writes into the record the reference denotes.  The second component
    tells whether the loop ended without exception. *)
Fixpoint respond_in_place (groq_api_key : option str) (picks : nat -> nat)
                          (i : nat) (σ : gmap loc dict) (comments : list loc)
  : gmap loc dict * bool :=
  match comments with
  | [] => (σ, true)
  | l :: rest =>
      match Responder.respond_to lower str_of_object groq_chat
              groq_api_key (picks i) (σ !!! l) with
      | None => (σ, false)
      | Some comment' =>
          respond_in_place groq_api_key picks (S i) (<[l := comment']> σ) rest
      end
  end.

(** [generate_comment_responses]: it returns the list it was given. *)
Definition generate_comment_responses (picks : nat -> nat)
                                      (σ : gmap loc dict)
                                      (comments : list loc)
                                      (groq_api_key : option str)
  : gmap loc dict * option (list loc) :=
  match comments with
  | [] => (σ, Some [])
  | _ =>
      let '(σ', finished) := respond_in_place groq_api_key picks 0 σ comments in
      (σ', if finished then Some comments else None)
  end.

End Stages.

End Store.

(** ** Inputs of the worked examples *)

Module Examples.

(** A model that cannot be built. *)
Definition unavailable : nat -> option Sentiment.pipeline := fun _ => None.

Definition two_comments : list dict :=
  [ <["processed_text" := VStr (lit "great video")]> ∅;
    <["processed_text" := VStr (lit "awful sound")]> ∅ ].

(** A comment of negative sentiment with a word of strong criticism. *)
Definition critical (author : string) : dict :=
  <["author" := VStr (lit author)]>
    (<["original_text" := VStr (lit "This is bad")]>
      (<["sentiment" := VStr (lit "negative")]> ∅)).

Definition three_critical : list dict :=
  [critical "Al"; critical "Bo"; critical "Cy"].

(** A comment of positive sentiment that thanks. *)
Definition grateful : dict :=
  <["author" := VStr (lit "Ana")]>
    (<["original_text" := VStr (lit "Thank you for this!")]>
      (<["sentiment" := VStr (lit "positive")]> ∅)).

(** A store with that comment as its only record. *)
Definition one_record : gmap Store.loc dict := {[ 1%positive := grateful ]}.

(** A conversion of the objects that are not strings. *)
Definition no_object (v : value) : str := lit "?".

(** A client that is built for every key. *)
Definition any_client (key : str) : bool := true.

(** A provider whose calls raise. *)
Definition failing_chat (r : Summarizer.chat_request) : option str := None.

(** A formatting of the percentage. *)
Definition any_percentage (count total : nat) : str := lit "100.0".

(** A provider of comment threads with two pages of two threads. *)
Definition thread (text : string) : Fetcher.snippet :=
  {| Fetcher.textDisplay := VStr (lit text);
     Fetcher.authorDisplayName := VStr (lit "Ana");
     Fetcher.likeCount := VInt 1;
     Fetcher.publishedAt := VStr (lit "2024-01-01T00:00:00Z") |}.

Definition two_pages (request : Fetcher.api_request)
  : option Fetcher.api_response :=
  match Fetcher.pageToken request with
  | None =>
      Some {| Fetcher.items :=
                firstn (Z.to_nat (Fetcher.maxResults request))
                       [thread "first"; thread "second"];
              Fetcher.nextPageToken :=
                if (0 <? Fetcher.maxResults request)%Z
                then Some (lit "page2") else None |}
  | Some _ =>
      Some {| Fetcher.items :=
                firstn (Z.to_nat (Fetcher.maxResults request))
                       [thread "third"; thread "fourth"];
              Fetcher.nextPageToken := None |}
  end.

(** A stream of the downloader with five comments. *)
Definition five_items (url : str) (i : nat) : Fetcher.pull :=
  if (i <? 5)%nat
  then Fetcher.Item (<["text" := VStr (lit "nice")]> ∅)
  else Fetcher.Stop.

Definition any_video (url : str) : option str := Some (lit "ABC123").

End Examples.

(** ** Predicates used in the statements and proofs *)

Module Shape.

(** Every whitespace of [s] is a single space followed by something else
    than whitespace. *)
Fixpoint ws_normal (s : str) : Prop :=
  match s with
  | [] => True
  | c :: r =>
      (isspace c = true ->
       c = space /\ match r with [] => True | d :: _ => isspace d = false end)
      /\ ws_normal r
  end.

(** The provider of the structured API returns at most [maxResults]
    threads in a page. *)
Definition honours_page_size
    (execute : Fetcher.api_request -> option Fetcher.api_response) : Prop :=
  forall request response,
    execute request = Some response ->
    (Z.of_nat (length (Fetcher.items response))
     <= Z.max 0 (Fetcher.maxResults request))%Z.

(** A page that announces a next page holds at least one thread. *)
Definition pages_progress
    (execute : Fetcher.api_request -> option Fetcher.api_response) : Prop :=
  forall request response token,
    execute request = Some response ->
    Fetcher.nextPageToken response = Some token ->
    Fetcher.items response <> [].

(** [s] does not start with whitespace. *)
Definition no_leading_ws (s : str) : Prop :=
  match s with
  | [] => True
  | c :: _ => isspace c = false
  end.

End Shape.

(** ** Conditions of the further properties *)

Module Conditions.

(** The key is absent or empty. *)
Definition no_key (groq_api_key : option str) : Prop :=
  groq_api_key = None \/ groq_api_key = Some [].

(** The original text of a comment that holds a string there. *)
Definition text_of (comment : dict) : str :=
  match get comment "original_text" (VStr []) with
  | VStr text => text
  | _ => []
  end.

End Conditions.

(** ** Further inputs of worked examples *)

Module More_examples.

Import Examples.

(** The first gratitude template for the author "Ana". *)
Definition first_gratitude_reply : str :=
  lit "Thank you so much " ++ lit "Ana" ++ lit "! " ++ Responder.smiling_face.

(** A record whose original text is a number. *)
Definition numbered : dict := <["original_text" := VInt 7]> ∅.

(** A provider that answers every request with whitespace. *)
Definition blank_answer (comment : dict) : str := lit "   ".
Definition blank_chat (r : Summarizer.chat_request) : option str :=
  Some (lit "   ").

(** Two records, one with a reply, and their report. *)
Definition answered : list dict :=
  [ <["response" := VStr (lit "Thanks!")]> ∅; ∅ ].
Definition answered_report : gmap string nat :=
  <["total_responses" := 1%nat]>
    (<["ai_responses" := 0%nat]> (<["template_responses" := 1%nat]> ∅)).

End More_examples.

(** ** Conditions on the records of a summary *)

Module Summary_conditions.

(** The sentiment of the record is one of the three keys of
    [sentiment_counts]; a record without sentiment counts as neutral. *)
Definition known_sentiment (comment : dict) : Prop :=
  get comment "sentiment" (VStr (lit "neutral")) = VStr (lit "positive")
  \/ get comment "sentiment" (VStr (lit "neutral")) = VStr (lit "negative")
  \/ get comment "sentiment" (VStr (lit "neutral")) = VStr (lit "neutral").

(** The number of records whose sentiment is [tag]. *)
Definition tally (tag : str) (comments : list dict) : nat :=
  length (List.filter
            (fun c => equals_str (get c "sentiment" (VStr (lit "neutral")))
                                 tag)
            comments).

(** The text of the record used for the topics is a string. *)
Definition topic_text_is_string (comment : dict) : Prop :=
  exists text,
    get comment "processed_text" (get comment "original_text" (VStr []))
    = VStr text.

(** The number of occurrences of a word in a list of words. *)
Definition occurrences (word : str) (words : list str) : nat :=
  length (List.filter (PyStr.eqb word) words).

(** The text of the record used for the prompt is a string of at most
    10 code points once stripped, or a falsy object. *)
Definition not_meaningful (comment : dict) : Prop :=
  Summarizer.meaningful_text comment = Some None.

(** The list [common_topics] of [summarize_locally], from the texts of
    the first 30 comments. *)
Definition common_topics (lower : str -> str) (texts : list str)
  : list str :=
  let all_text := join [space] texts in
  let words := split (lower all_text) in
  let word_freq := Summarizer.count_words words in
  let top_words := firstn 10 (Summarizer.sort_desc word_freq) in
  List.map fst (List.filter (fun wc => (2 <? snd wc)%nat) top_words).

(** [word_freq.get(word, 0)] *)
Definition freq_of (word : str) (word_freq : list (str * nat)) : nat :=
  match List.find (fun wn => PyStr.eqb (fst wn) word) word_freq with
  | Some wn => snd wn
  | None => 0
  end.

(** What the loop over the comments leaves in [sentiment_counts] when
    no key is missing. *)
Definition tallies (comments : list dict) : Summarizer.sentiment_counts :=
  {| Summarizer.n_positive := tally (lit "positive") comments;
     Summarizer.n_negative := tally (lit "negative") comments;
     Summarizer.n_neutral := tally (lit "neutral") comments |}.

End Summary_conditions.

(** ** The statistics and the ranking ([get_sentiment_summary],
    [get_top_comments_by_sentiment]) *)

Module Report.

Import Sentiment.

Definition fmul : float -> float -> float := SFmul 53 1024.

(** [0.7] and [0.3] *)
Definition f0_7 : float := Responder.f0_7.
Definition f0_3 : float := Summarizer.f0_3.

(** The dictionary returned by [get_sentiment_summary]. *)
Record sentiment_summary := {
  total_comments : nat;
  positive_count : nat;
  negative_count : nat;
  positive_percentage : float;
  negative_percentage : float
}.

(** [sum(1 for comment in comments if comment.get('sentiment') == tag)] *)
Definition count_tag (tag : str) (comments : list dict) : nat :=
  length (List.filter
            (fun comment => equals_str (get_or_none comment "sentiment") tag)
            comments).

(** [(count / total) * 100]; the two integers are lengths of lists,
    which [float] holds exactly. *)
Definition percentage (count total : nat) : float :=
  fmul (fdiv (float_of_Z (Z.of_nat count)) (float_of_Z (Z.of_nat total)))
       (float_of_Z 100).

Definition get_sentiment_summary (analyzed_comments : list dict)
  : sentiment_summary :=
  match analyzed_comments with
  | [] =>
      {| total_comments := 0;
         positive_count := 0;
         negative_count := 0;
         positive_percentage := f0_0;
         negative_percentage := f0_0 |}
  | _ =>
      let total_comments := length analyzed_comments in
      let positive_count := count_tag (lit "positive") analyzed_comments in
      let negative_count := count_tag (lit "negative") analyzed_comments in
      {| total_comments := total_comments;
         positive_count := positive_count;
         negative_count := negative_count;
         positive_percentage :=
           if (0 <? total_comments)%nat
           then percentage positive_count total_comments else f0_0;
         negative_percentage :=
           if (0 <? total_comments)%nat
           then percentage negative_count total_comments else f0_0 |}
  end.

(** The number an arithmetic expression reads in a field: a float, or an
    integer (below [2^53] in absolute value, so that its conversion is
    exact); [None] is the [TypeError] on any other object. *)
Definition number (v : value) : option float :=
  match v with
  | VFloat x => Some x
  | VInt n => Some (float_of_Z n)
  | _ => None
  end.

(** The key of the sort:
    [x.get('confidence', 0) * 0.7 + (x.get('likes', 0) / 100) * 0.3]. *)
Definition rank (x : dict) : option float :=
  match number (get x "confidence" (VInt 0)),
        number (get x "likes" (VInt 0)) with
  | Some confidence, Some likes =>
      Some (fadd (fmul confidence f0_7)
                 (fmul (fdiv likes (float_of_Z 100)) f0_3))
  | _, _ => None
  end.

(** The keys of the records, computed once each as [sorted] does. *)
Fixpoint ranked (comments : list dict) : option (list (float * dict)) :=
  match comments with
  | [] => Some []
  | x :: rest =>
      match rank x with
      | None => None
      | Some k =>
          match ranked rest with
          | None => None
          | Some ks => Some ((k, x) :: ks)
          end
      end
  end.

(** [sorted(..., reverse=True)] on the keys: a stable sort by decreasing
    key, the keys being compared with [<].  (With a key that is not a
    number the order of the elements depends on the algorithm of the
    library; the elements do not.) *)
Fixpoint insert_by_key (x : float * dict) (sorted : list (float * dict))
  : list (float * dict) :=
  match sorted with
  | [] => [x]
  | y :: rest =>
      if SFltb (fst x) (fst y) then y :: insert_by_key x rest
      else x :: sorted
  end.

Definition sort_by_key (items : list (float * dict)) : list (float * dict) :=
  fold_right insert_by_key [] items.

(** [get_top_comments_by_sentiment] for a limit that is not negative;
    [None] when the computation of a key raises. *)
Definition get_top_comments_by_sentiment (comments : list dict)
                                         (sentiment : str) (limit : nat)
  : option (list dict) :=
  let filtered_comments :=
    List.filter
      (fun comment => equals_str (get_or_none comment "sentiment") sentiment)
      comments in
  match ranked filtered_comments with
  | None => None
  | Some keyed =>
      let sorted_comments := List.map snd (sort_by_key keyed) in
      Some (firstn limit sorted_comments)
  end.


(** The records that [get_top_comments_by_sentiment] selects. *)
Definition selected (sentiment : str) (comments : list dict) : list dict :=
  List.filter
    (fun comment => equals_str (get_or_none comment "sentiment") sentiment)
    comments.





End Report.

(** ** Conditions on the model and its results *)

Module Sentiment_conditions.

Import Sentiment.

(** A score of the model: a binary64 number between [0] and [1]. *)
Definition valid_score (x : float) : Prop :=
  is_binary64 x = true /\ fle f0_0 x = true /\ fle x f1_0 = true.

(** The model gives only valid scores. *)
Definition gives_valid_scores (sentiment_pipeline : pipeline) : Prop :=
  forall batch predictions,
    sentiment_pipeline batch = Some predictions ->
    Forall (fun p => valid_score (score p)) predictions.

(** The model gives one prediction per text. *)
Definition one_prediction_per_text (sentiment_pipeline : pipeline) : Prop :=
  forall batch predictions,
    sentiment_pipeline batch = Some predictions ->
    length predictions = length batch.

(** One of the two tags. *)
Definition is_tag (s : str) : Prop :=
  s = lit "positive" \/ s = lit "negative".

(** The three fields set by the classifier. *)
Definition classifier_field (key : string) : Prop :=
  key = "sentiment"%string \/ key = "confidence"%string
  \/ key = "scores"%string.

(** The record holds one of the two tags. *)
Definition tagged (comment : dict) : Prop :=
  exists s, get_or_none comment "sentiment" = VStr s /\ is_tag s.

End Sentiment_conditions.

(** ** Inputs of the worked examples of the analysis *)

Module Analysis_examples.

Import Examples Sentiment Report.

(** A record whose sentiment is none of the three counted ones. *)
Definition mixed : dict := <["sentiment" := VStr (lit "mixed")]> ∅.

(** A record whose text is too short for the prompt. *)
Definition short_text : dict := <["original_text" := VStr (lit "ok")]> ∅.

(** A model that finds every text positive, with score [1.0]. *)
Definition always_positive : pipeline :=
  fun batch =>
    Some (List.map (fun _ => {| label := lit "POSITIVE"; score := f1_0 |})
                   batch).

(** A model that is built at the first attempt. *)
Definition available : nat -> option pipeline := fun _ => Some always_positive.

Definition praise : result :=
  result_of_prediction {| label := lit "POSITIVE"; score := f1_0 |}.

Definition two_analyzed : list dict :=
  List.map (fun c => update_result c praise) two_comments.

(** A positive record with its confidence and its likes. *)
Definition liked (confidence : float) (likes : Z) : dict :=
  <["sentiment" := VStr (lit "positive")]>
    (<["confidence" := VFloat confidence]>
      (<["likes" := VInt likes]> ∅)).

Definition three_liked : list dict :=
  [liked f0_5 3; liked f1_0 0; liked f0_5 250].

End Analysis_examples.

(** * Properties *)

(** ** Binary64 arithmetic *)

(** The rounding of [SpecFloat] is followed on the integers: a mantissa
    that loses [n] bits becomes the quotient by [2 ^ n], moved up by one
    when the remainder is above the half, or at the half with an odd
    quotient. *)

Module Binary64_facts.

Local Open Scope Z_scope.

Lemma fexp_eq x : fexp 53 1024 x = Z.max (x - 53) (-1074).
Proof. reflexivity. Qed.

Lemma shr_1_nonneg m r s :
  0 <= m -> shr_1 {| shr_m := m; shr_r := r; shr_s := s |}
            = {| shr_m := Z.div2 m; shr_r := Z.odd m; shr_s := r || s |}.
Proof.
  intros H. destruct m as [|p|p]; [reflexivity| |lia].
  destruct p; reflexivity.
Qed.

Lemma iter_pos_nat {A} (f : A -> A) p :
  forall x, SpecFloat.iter_pos f p x = Nat.iter (Pos.to_nat p) f x.
Proof.
  induction p as [p IH|p IH|]; intros x; cbn [SpecFloat.iter_pos].
  - rewrite !IH. rewrite Pos2Nat.inj_xI.
    replace (S (2 * Pos.to_nat p))%nat with (Pos.to_nat p + (Pos.to_nat p + 1))%nat by lia.
    rewrite !Nat.iter_add. reflexivity.
  - rewrite !IH. rewrite Pos2Nat.inj_xO.
    replace (2 * Pos.to_nat p)%nat with (Pos.to_nat p + Pos.to_nat p)%nat by lia.
    rewrite Nat.iter_add. reflexivity.
  - reflexivity.
Qed.

(** The state after [k + 1] shifts to the right of [m0]. *)
Lemma shr_steps m0 (k : nat) :
  0 <= m0 ->
  Nat.iter (S k) shr_1 {| shr_m := m0; shr_r := false; shr_s := false |}
  = {| shr_m := m0 / 2 ^ (Z.of_nat (S k));
       shr_r := Z.odd (m0 / 2 ^ Z.of_nat k);
       shr_s := negb (m0 mod 2 ^ Z.of_nat k =? 0) |}.
Proof.
  intros H0. induction k as [|k IH].
  - change (Nat.iter 1 shr_1 ?x) with (shr_1 x). rewrite shr_1_nonneg by assumption.
    change (2 ^ Z.of_nat 0) with 1. rewrite Z.div_1_r, Z.mod_1_r.
    rewrite Z.div2_div. reflexivity.
  - rewrite Nat.iter_succ, IH.
    assert (Hp : 0 < 2 ^ Z.of_nat k) by (apply Z.pow_pos_nonneg; lia).
    assert (Hp1 : 2 ^ Z.of_nat (S k) = 2 ^ Z.of_nat k * 2).
    { rewrite Nat2Z.inj_succ, Z.pow_succ_r by lia. lia. }
    rewrite shr_1_nonneg by (apply Z.div_pos; lia).
    f_equal.
    + rewrite Z.div2_div, Z.div_div by lia.
      rewrite (Nat2Z.inj_succ (S k)), Z.pow_succ_r by lia. f_equal. lia.
    + rewrite Hp1. rewrite Z.rem_mul_r by lia.
      rewrite Zodd_mod.
      pose proof (Z.mod_pos_bound m0 (2 ^ Z.of_nat k) Hp).
      pose proof (Z.mod_pos_bound (m0 / 2 ^ Z.of_nat k) 2 ltac:(lia)).
      set (a := m0 mod 2 ^ Z.of_nat k) in *.
      set (b := (m0 / 2 ^ Z.of_nat k) mod 2) in *.
      set (P := 2 ^ Z.of_nat k) in *.
      destruct (Z.eqb_spec b 1) as [E1|E1];
      destruct (Z.eqb_spec a 0) as [E2|E2];
      destruct (Z.eqb_spec (a + P * b) 0) as [E3|E3]; simpl;
      try reflexivity; exfalso; nia.
Qed.

Lemma shr_pos m0 e n :
  0 <= m0 -> 0 < n ->
  shr {| shr_m := m0; shr_r := false; shr_s := false |} e n
  = ({| shr_m := m0 / 2 ^ n;
        shr_r := Z.odd (m0 / 2 ^ (n - 1));
        shr_s := negb (m0 mod 2 ^ (n - 1) =? 0) |}, e + n).
Proof.
  intros H0 Hn. destruct n as [|p|p]; try lia.
  unfold shr. rewrite iter_pos_nat.
  destruct (Pos.to_nat p) as [|k] eqn:E; [lia|].
  rewrite shr_steps by assumption.
  replace (Z.of_nat (S k)) with (Z.pos p) by lia.
  replace (Z.of_nat k) with (Z.pos p - 1) by lia.
  reflexivity.
Qed.

Lemma digits2_pos_bounds p :
  2 ^ (Z.pos (digits2_pos p) - 1) <= Z.pos p < 2 ^ Z.pos (digits2_pos p).
Proof.
  induction p as [p IH|p IH|]; cbn [digits2_pos].
  - rewrite Pos2Z.inj_succ.
    replace (Z.succ (Z.pos (digits2_pos p)) - 1)
      with (Z.succ (Z.pos (digits2_pos p) - 1)) by lia.
    rewrite !Z.pow_succ_r by lia. lia.
  - rewrite Pos2Z.inj_succ.
    replace (Z.succ (Z.pos (digits2_pos p)) - 1)
      with (Z.succ (Z.pos (digits2_pos p) - 1)) by lia.
    rewrite !Z.pow_succ_r by lia. lia.
  - simpl. lia.
Qed.

Lemma digits2_pos_unique p k :
  2 ^ (k - 1) <= Z.pos p < 2 ^ k -> Z.pos (digits2_pos p) = k.
Proof.
  intros [Hlo Hhi]. pose proof (digits2_pos_bounds p) as [Dlo Dhi].
  set (d := Z.pos (digits2_pos p)) in *.
  assert (0 < d) by (subst d; lia).
  destruct (Z.lt_trichotomy d k) as [Hlt | [Heq | Hgt]]; [|exact Heq|].
  - assert (2 ^ d <= 2 ^ (k - 1)) by (apply Z.pow_le_mono_r; lia). lia.
  - assert (0 <= k).
    { destruct (Z.le_gt_cases 0 k); [assumption|].
      rewrite Z.pow_neg_r in Hhi by lia. lia. }
    assert (2 ^ k <= 2 ^ (d - 1)) by (apply Z.pow_le_mono_r; lia). lia.
Qed.

Lemma iter_xO m d : Z.pos (Pos.iter xO m d) = Z.pos m * 2 ^ Z.pos d.
Proof.
  induction d as [|d IH] using Pos.peano_ind.
  - simpl. lia.
  - rewrite Pos.iter_succ, Pos2Z.inj_succ, Z.pow_succ_r by lia.
    rewrite Pos2Z.inj_xO, IH. lia.
Qed.

Lemma shl_align_le mx ex ex' :
  ex' <= ex ->
  Z.pos (fst (shl_align mx ex ex')) = Z.pos mx * 2 ^ (ex - ex')
  /\ snd (shl_align mx ex ex') = ex'.
Proof.
  intros H. unfold shl_align.
  destruct (ex' - ex) as [|d|d] eqn:E; try lia.
  - replace (ex - ex') with 0 by lia. simpl. split; lia.
  - simpl. rewrite iter_xO. replace (ex - ex') with (Z.pos d) by lia.
    split; reflexivity.
Qed.

Lemma shl_align_ge mx ex ex' :
  ex <= ex' -> shl_align mx ex ex' = (mx, ex).
Proof.
  intros H. unfold shl_align.
  destruct (ex' - ex) as [|d|d] eqn:E; try lia; reflexivity.
Qed.

(** Rounding to nearest even after a right shift by [n], in terms of the
    quotient and the remainder. *)
Lemma round_after_shift M n q rem :
  0 < n -> M = q * 2 ^ n + rem -> 0 <= rem < 2 ^ n ->
  M / 2 ^ n = q
  /\ round_nearest_even (M / 2 ^ n)
       (loc_of_shr_record
          {| shr_m := M / 2 ^ n;
             shr_r := Z.odd (M / 2 ^ (n - 1));
             shr_s := negb (M mod 2 ^ (n - 1) =? 0) |})
     = if (2 ^ (n - 1) <? rem) || ((rem =? 2 ^ (n - 1)) && Z.odd q)
       then q + 1 else q.
Proof.
  intros Hn HM Hrem.
  set (h := 2 ^ (n - 1)).
  assert (Hh : 0 < h) by (apply Z.pow_pos_nonneg; lia).
  assert (H2 : 2 ^ n = 2 * h).
  { subst h. replace n with (Z.succ (n - 1)) at 1 by lia.
    rewrite Z.pow_succ_r by lia. reflexivity. }
  rewrite H2 in *.
  assert (Hq : M / (2 * h) = q).
  { symmetry. apply (Z.div_unique_pos _ _ _ rem); lia. }
  rewrite Hq. split; [reflexivity|].
  set (b := rem / h). set (low := rem mod h).
  assert (Hlow : 0 <= low < h) by (apply Z.mod_pos_bound; lia).
  assert (Hr : rem = h * b + low) by (apply Z.div_mod; lia).
  assert (Hb : 0 <= b <= 1).
  { split; [apply Z.div_pos; lia|].
    assert (b < 2); [|lia]. apply Z.div_lt_upper_bound; lia. }
  assert (Hdiv : M / h = 2 * q + b).
  { symmetry. apply (Z.div_unique_pos _ _ _ low); [lia|]. nia. }
  assert (Hmod : M mod h = low).
  { symmetry. apply (Z.mod_unique_pos _ _ (2 * q + b)); [lia|]. nia. }
  rewrite Hdiv, Hmod.
  replace (2 * q + b) with (b + 2 * q) by lia. rewrite Z.odd_add_mul_2.
  assert (Hbb : b = 0 \/ b = 1) by lia.
  destruct Hbb as [Hb0 | Hb1].
  - rewrite Hb0. simpl Z.odd.
    assert (Hlt : (h <? rem) = false) by (apply Z.ltb_ge; nia).
    assert (Hne : (rem =? h) = false) by (apply Z.eqb_neq; nia).
    rewrite Hlt, Hne. simpl.
    destruct (low =? 0); reflexivity.
  - rewrite Hb1. simpl Z.odd.
    destruct (Z.eqb_spec low 0) as [E | E]; simpl.
    + assert (Hlt : (h <? rem) = false) by (apply Z.ltb_ge; nia).
      assert (Heq : (rem =? h) = true) by (apply Z.eqb_eq; nia).
      rewrite Hlt, Heq. simpl. rewrite <- Z.negb_odd.
      destruct (Z.odd q); reflexivity.
    + assert (Hlt : (h <? rem) = true) by (apply Z.ltb_lt; nia).
      rewrite Hlt. reflexivity.
Qed.

(** The result of [binary_round] when the mantissa has to lose [n] bits
    and the rounded mantissa has 53 bits, or is [2^53]. *)
Lemma binary_round_shr sx m e n q rem :
  0 < n ->
  fexp 53 1024 (Z.pos (digits2_pos m) + e) = e + n ->
  Z.pos m = q * 2 ^ n + rem -> 0 <= rem < 2 ^ n ->
  let m' := if (2 ^ (n - 1) <? rem) || ((rem =? 2 ^ (n - 1)) && Z.odd q)
            then q + 1 else q in
  (2 ^ 52 <= m' < 2 ^ 53 -> -1074 <= e + n <= 971 ->
   binary_round 53 1024 sx m e = S754_finite sx (Z.to_pos m') (e + n))
  /\ (m' = 2 ^ 53 -> -1075 <= e + n <= 970 ->
      binary_round 53 1024 sx m e
      = S754_finite sx (Z.to_pos (2 ^ 52)) (e + n + 1)).
Proof.
  intros Hn Hfexp HM Hrem m'.
  assert (Hround :
    binary_round 53 1024 sx m e
    = let '(mrs'', e'') := shr_fexp 53 1024 m' (e + n) loc_Exact in
      match shr_m mrs'' with
      | Z0 => S754_zero sx
      | Z.pos m0 =>
          if e'' <=? 1024 - 53 then S754_finite sx m0 e''
          else S754_infinity sx
      | Z.neg _ => S754_nan
      end).
  { unfold binary_round. rewrite shl_align_ge by lia.
    unfold binary_round_aux.
    unfold shr_fexp at 1. cbn [Zdigits2 shr_record_of_loc].
    rewrite Hfexp. replace (e + n - e) with n by lia.
    rewrite shr_pos by lia.
    destruct (round_after_shift (Z.pos m) n q rem Hn HM Hrem) as [Hq Hr].
    cbn [shr_m]. rewrite Hr. reflexivity. }
  rewrite Hround. clear Hround. split.
  - intros Hm' He.
    assert (Hpos : m' = Z.pos (Z.to_pos m')).
    { rewrite Z2Pos.id; [reflexivity|]. lia. }
    unfold shr_fexp. rewrite Hpos at 1 2. cbn [Zdigits2 shr_record_of_loc].
    rewrite (digits2_pos_unique (Z.to_pos m') 53) by (rewrite <- Hpos; simpl Z.sub; lia).
    rewrite fexp_eq. replace (Z.max (53 + (e + n) - 53) (-1074) - (e + n)) with 0 by lia.
    cbn [shr shr_m].
    replace (e + n <=? 1024 - 53) with true by (symmetry; apply Z.leb_le; lia).
    reflexivity.
  - intros Hm' He. rewrite Hm'.
    unfold shr_fexp. change (Zdigits2 (2 ^ 53)) with 54.
    cbn [shr_record_of_loc].
    rewrite fexp_eq. replace (Z.max (54 + (e + n) - 53) (-1074) - (e + n)) with 1 by lia.
    rewrite shr_pos by lia. cbn [shr_m].
    change (2 ^ 53 / 2 ^ 1) with (Z.pos (Z.to_pos (2 ^ 52))).
    replace (e + n + 1 <=? 1024 - 53) with true by (symmetry; apply Z.leb_le; lia).
    reflexivity.
Qed.

(** The result of [binary_round] when no bit is lost: the mantissa is
    shifted to the left by [k] bits. *)
Lemma binary_round_exact sx m e k :
  0 <= k ->
  fexp 53 1024 (Z.pos (digits2_pos m) + e) = e - k ->
  e - k <= 971 ->
  binary_round 53 1024 sx m e
  = S754_finite sx (Z.to_pos (Z.pos m * 2 ^ k)) (e - k).
Proof.
  intros Hk Hfexp He.
  unfold binary_round. rewrite Hfexp.
  destruct (shl_align_le m e (e - k)) as [Hm Hs]; [lia|].
  destruct (shl_align m e (e - k)) as [mz ez]. cbn [fst snd] in Hm, Hs.
  subst ez. replace (e - (e - k)) with k in Hm by lia.
  assert (Hpk : 0 < 2 ^ k) by (apply Z.pow_pos_nonneg; lia).
  assert (Hd : Z.pos (digits2_pos mz) = Z.pos (digits2_pos m) + k).
  { apply digits2_pos_unique. rewrite Hm.
    pose proof (digits2_pos_bounds m) as [Hlo Hhi].
    replace (Z.pos (digits2_pos m) + k - 1)
      with (Z.pos (digits2_pos m) - 1 + k) by lia.
    rewrite !Z.pow_add_r by lia. nia. }
  unfold binary_round_aux.
  unfold shr_fexp at 1. cbn [Zdigits2 shr_record_of_loc].
  rewrite Hd. replace (Z.pos (digits2_pos m) + k + (e - k))
    with (Z.pos (digits2_pos m) + e) by lia.
  rewrite Hfexp, Z.sub_diag. cbn [shr shr_m loc_of_shr_record round_nearest_even].
  unfold shr_fexp. cbn [Zdigits2 shr_record_of_loc].
  rewrite Hd. replace (Z.pos (digits2_pos m) + k + (e - k))
    with (Z.pos (digits2_pos m) + e) by lia.
  rewrite Hfexp, Z.sub_diag. cbn [shr shr_m].
  replace (e - k <=? 1024 - 53) with true by (symmetry; apply Z.leb_le; lia).
  f_equal. rewrite <- Hm. rewrite Pos2Z.id. reflexivity.
Qed.

(** A sum that exceeds [1] by at most a quarter of the last place of
    the floats just below [1] rounds to [1]. *)
Lemma round_to_one_above p delta :
  53 <= p -> 0 <= delta -> delta * 2 ^ 54 <= 2 ^ p ->
  binary_round 53 1024 false (Z.to_pos (2 ^ p + delta)) (- p) = Sentiment.f1_0.
Proof.
  intros Hp Hd Hbound.
  set (h := 2 ^ (p - 53)).
  assert (Hh : 0 < h) by (apply Z.pow_pos_nonneg; lia).
  assert (H2p : 2 ^ p = 2 ^ 53 * h).
  { subst h. rewrite <- Z.pow_add_r by lia. f_equal. lia. }
  assert (Hn : 2 ^ (p - 52) = 2 * h).
  { subst h. replace (p - 52) with (Z.succ (p - 53)) by lia.
    rewrite Z.pow_succ_r by lia. reflexivity. }
  assert (Hdh : 2 * delta <= h).
  { rewrite H2p in Hbound. change (2 ^ 54) with (2 * 2 ^ 53) in Hbound.
    change (2 ^ 53) with 9007199254740992 in *. lia. }
  assert (HM : 0 < 2 ^ p + delta) by lia.
  assert (Hdig : Z.pos (digits2_pos (Z.to_pos (2 ^ p + delta))) = p + 1).
  { apply digits2_pos_unique. rewrite Z2Pos.id by lia.
    replace (p + 1 - 1) with p by lia.
    replace (p + 1) with (Z.succ p) by lia. rewrite Z.pow_succ_r by lia.
    rewrite H2p. change (2 ^ 53) with 9007199254740992 in *. lia. }
  destruct (binary_round_shr false (Z.to_pos (2 ^ p + delta)) (- p) (p - 52)
              (2 ^ 52) delta) as [HA _].
  - lia.
  - rewrite Hdig, fexp_eq. lia.
  - rewrite Z2Pos.id by lia. rewrite Hn, H2p.
    change (2 ^ 53) with (2 ^ 52 * 2). lia.
  - rewrite Hn. lia.
  - replace (p - 52 - 1) with (p - 53) in HA by lia. fold h in HA.
    assert (H1 : (h <? delta) = false) by (apply Z.ltb_ge; lia).
    assert (H2 : (delta =? h) = false) by (apply Z.eqb_neq; lia).
    rewrite H1, H2 in HA. cbn [orb andb] in HA.
    rewrite HA; [|simpl; lia|lia].
    replace (- p + (p - 52)) with (-52) by lia. reflexivity.
Qed.

(** So does a sum that falls short of [1] by at most half of the last
    place of the floats just below [1]: the tie goes to the even
    mantissa, which is that of [1]. *)
Lemma round_to_one_below p a :
  54 <= p -> 0 < a -> a * 2 ^ 54 <= 2 ^ p ->
  binary_round 53 1024 false (Z.to_pos (2 ^ p - a)) (- p) = Sentiment.f1_0.
Proof.
  intros Hp Ha Hbound.
  set (h := 2 ^ (p - 54)).
  assert (Hh : 0 < h) by (apply Z.pow_pos_nonneg; lia).
  assert (H2p : 2 ^ p = 2 ^ 54 * h).
  { subst h. rewrite <- Z.pow_add_r by lia. f_equal. lia. }
  assert (Hn : 2 ^ (p - 53) = 2 * h).
  { subst h. replace (p - 53) with (Z.succ (p - 54)) by lia.
    rewrite Z.pow_succ_r by lia. reflexivity. }
  assert (Hp1 : 2 ^ (p - 1) = 2 ^ 53 * h).
  { subst h. rewrite <- Z.pow_add_r by lia. f_equal. lia. }
  assert (Hah : a <= h).
  { rewrite H2p in Hbound.
    change (2 ^ 54) with 18014398509481984 in *. lia. }
  assert (HM : 0 < 2 ^ p - a).
  { rewrite H2p. change (2 ^ 54) with 18014398509481984 in *. lia. }
  assert (Hdig : Z.pos (digits2_pos (Z.to_pos (2 ^ p - a))) = p).
  { apply digits2_pos_unique. rewrite Z2Pos.id by lia.
    rewrite Hp1, H2p.
    change (2 ^ 53) with 9007199254740992 in *.
    change (2 ^ 54) with 18014398509481984 in *. lia. }
  destruct (binary_round_shr false (Z.to_pos (2 ^ p - a)) (- p) (p - 53)
              (2 ^ 53 - 1) (2 * h - a)) as [_ HB].
  - lia.
  - rewrite Hdig, fexp_eq. lia.
  - rewrite Z2Pos.id by lia. rewrite Hn, H2p.
    change (2 ^ 54) with (2 ^ 53 * 2). lia.
  - rewrite Hn. lia.
  - replace (p - 53 - 1) with (p - 54) in HB by lia. fold h in HB.
    assert (H1 : (h <? 2 * h - a) || ((2 * h - a =? h) && Z.odd (2 ^ 53 - 1))
                 = true).
    { change (Z.odd (2 ^ 53 - 1)) with true. rewrite andb_true_r.
      destruct (Z.ltb_spec h (2 * h - a)); [reflexivity|].
      apply Z.eqb_eq. lia. }
    rewrite H1 in HB.
    rewrite HB; [|lia|lia].
    replace (- p + (p - 53) + 1) with (-52) by lia. reflexivity.
Qed.

Lemma SFadd_finite_comm sx mx ex sy my ey :
  SFadd 53 1024 (S754_finite sx mx ex) (S754_finite sy my ey)
  = SFadd 53 1024 (S754_finite sy my ey) (S754_finite sx mx ex).
Proof.
  unfold SFadd. rewrite (Z.min_comm ey ex). f_equal. apply Z.add_comm.
Qed.

(** A mantissa of a binary64 number has at most 53 bits and its exponent
    is at least [-1074]. *)
Lemma bounded_inv m e :
  bounded 53 1024 m e = true ->
  Z.pos m < 2 ^ 53 /\ -1074 <= e.
Proof.
  unfold bounded, canonical_mantissa. intros H.
  apply andb_true_iff in H. destruct H as [H _].
  apply Z.eqb_eq in H. rewrite fexp_eq in H.
  pose proof (digits2_pos_bounds m) as [_ Hhi].
  split; [|lia].
  assert (2 ^ Z.pos (digits2_pos m) <= 2 ^ 53)
    by (apply Z.pow_le_mono_r; lia).
  lia.
Qed.

(** [1 - s] for a positive [s] below [1]: the difference of the aligned
    mantissas, rounded. *)
Lemma sub_from_one m e :
  e <= -53 -> Z.pos m < 2 ^ 53 ->
  0 < 2 ^ (- e) - Z.pos m
  /\ SFsub 53 1024 Sentiment.f1_0 (S754_finite false m e)
     = binary_round 53 1024 false (Z.to_pos (2 ^ (- e) - Z.pos m)) e.
Proof.
  intros He Hm.
  assert (Hpow : 2 ^ 53 <= 2 ^ (- e)) by (apply Z.pow_le_mono_r; lia).
  split; [lia|].
  unfold SFsub, Sentiment.f1_0. rewrite Z.min_r by lia.
  destruct (shl_align_le 4503599627370496 (-52) e) as [H1 _]; [lia|].
  rewrite (shl_align_ge m e e) by lia.
  cbn [cond_Zopp fst]. rewrite H1.
  change (Z.pos 4503599627370496) with (2 ^ 52).
  rewrite <- Z.pow_add_r by lia.
  replace (52 + (-52 - e)) with (- e) by lia.
  destruct (2 ^ (- e) - Z.pos m) as [|p|p] eqn:E; try lia.
  reflexivity.
Qed.

(** The sum of two positive floats, the first of the lower exponent. *)
Lemma add_aligned m e m2 e2 :
  e <= e2 ->
  SFadd 53 1024 (S754_finite false m e) (S754_finite false m2 e2)
  = binary_round 53 1024 false
      (Z.to_pos (Z.pos m + Z.pos m2 * 2 ^ (e2 - e))) e.
Proof.
  intros He. unfold SFadd. rewrite Z.min_l by lia.
  rewrite (shl_align_ge m e e) by lia.
  destruct (shl_align_le m2 e2 e He) as [H1 _].
  cbn [cond_Zopp fst]. rewrite H1.
  assert (0 < 2 ^ (e2 - e)) by (apply Z.pow_pos_nonneg; lia).
  destruct (Z.pos m + Z.pos m2 * 2 ^ (e2 - e)) as [|p|p] eqn:E; try lia.
  reflexivity.
Qed.

Lemma add_aligned_r m e m2 e2 :
  e2 <= e ->
  SFadd 53 1024 (S754_finite false m e) (S754_finite false m2 e2)
  = binary_round 53 1024 false
      (Z.to_pos (Z.pos m * 2 ^ (e - e2) + Z.pos m2)) e2.
Proof.
  intros He. rewrite SFadd_finite_comm, add_aligned by assumption.
  f_equal. f_equal. lia.
Qed.

(** The heart of the matter: [s + (1 - s)] is [1] for a binary64 number
    [s] with [0 < s < 1]. *)
Lemma add_sub_from_one m e :
  bounded 53 1024 m e = true -> e <= -53 ->
  exists mr er,
    SFsub 53 1024 Sentiment.f1_0 (S754_finite false m e) = S754_finite false mr er
    /\ SFadd 53 1024 (S754_finite false m e) (S754_finite false mr er) = Sentiment.f1_0.
Proof.
  intros Hb He. destruct (bounded_inv m e Hb) as [Hm Hemin].
  destruct (sub_from_one m e He Hm) as [HM1 Hsub]. rewrite Hsub.
  set (M1 := 2 ^ (- e) - Z.pos m) in *.
  destruct (Z.eq_dec e (-53)) as [-> | Hne].
  - (* no bit is lost *)
    change (2 ^ (- -53)) with (2 ^ 53) in M1.
    pose proof (digits2_pos_bounds (Z.to_pos M1)) as [Dlo Dhi].
    rewrite Z2Pos.id in Dlo, Dhi by assumption.
    set (d := Z.pos (digits2_pos (Z.to_pos M1))) in *.
    assert (Hd0 : 0 < d) by (subst d; lia).
    assert (Hd : d <= 53).
    { destruct (Z.le_gt_cases d 53); [assumption|].
      assert (2 ^ 53 <= 2 ^ (d - 1)) by (apply Z.pow_le_mono_r; lia).
      subst M1. lia. }
    eexists. eexists. split.
    + apply (binary_round_exact false (Z.to_pos M1) (-53) (53 - d)).
      * lia.
      * fold d. rewrite fexp_eq. lia.
      * lia.
    + rewrite add_aligned_r by lia.
      rewrite !Z2Pos.id by (try apply Z.mul_pos_pos; try apply Z.pow_pos_nonneg; lia).
      replace (-53 - (-53 - (53 - d))) with (53 - d) by lia.
      replace (Z.pos m * 2 ^ (53 - d) + M1 * 2 ^ (53 - d))
        with (2 ^ (53 + (53 - d)) + 0).
      2:{ rewrite Z.pow_add_r by lia. subst M1. lia. }
      replace (-53 - (53 - d)) with (- (53 + (53 - d))) by lia.
      apply round_to_one_above; [lia | lia|].
      simpl Z.mul. apply Z.pow_nonneg. lia.
  - (* [n] bits are lost *)
    set (n := - e - 53).
    assert (Hn : 0 < n) by (subst n; lia).
    set (h := 2 ^ (n - 1)).
    assert (Hh : 0 < h) by (apply Z.pow_pos_nonneg; lia).
    assert (H2n : 2 ^ n = 2 * h).
    { subst h. replace n with (Z.succ (n - 1)) at 1 by lia.
      rewrite Z.pow_succ_r by lia. reflexivity. }
    assert (H2e : 2 ^ (- e) = 2 ^ 53 * 2 ^ n).
    { rewrite <- Z.pow_add_r by lia. f_equal. lia. }
    assert (H2e54 : 2 ^ (- e) = 2 ^ 54 * h).
    { rewrite H2e, H2n. change (2 ^ 54) with (2 ^ 53 * 2). lia. }
    assert (Hdig : Z.pos (digits2_pos (Z.to_pos M1)) = - e).
    { apply digits2_pos_unique. rewrite Z2Pos.id by assumption.
      replace (- e - 1) with (52 + n) by lia.
      rewrite Z.pow_add_r by lia. subst M1. rewrite H2e.
      change (2 ^ 53) with 9007199254740992 in *.
      change (2 ^ 52) with 4503599627370496 in *. nia. }
    set (q := M1 / 2 ^ n). set (rem := M1 mod 2 ^ n).
    assert (Hrem : 0 <= rem < 2 ^ n)
      by (apply Z.mod_pos_bound, Z.pow_pos_nonneg; lia).
    assert (HM : M1 = q * 2 ^ n + rem).
    { subst q rem. rewrite Z.mul_comm. apply Z.div_mod. lia. }
    assert (Hq : 2 ^ 52 <= q < 2 ^ 53).
    { subst M1. rewrite H2e in HM.
      change (2 ^ 53) with 9007199254740992 in *.
      change (2 ^ 52) with 4503599627370496 in *. nia. }
    destruct (binary_round_shr false (Z.to_pos M1) e n q rem) as [HA HB].
    + exact Hn.
    + rewrite Hdig, fexp_eq. lia.
    + rewrite Z2Pos.id by assumption. exact HM.
    + exact Hrem.
    + fold h in HA, HB.
      set (up := (h <? rem) || ((rem =? h) && Z.odd q)) in *.
      assert (Hup : up = true -> h <= rem).
      { subst up. intros H. apply orb_true_iff in H. destruct H as [H | H].
        - apply Z.ltb_lt in H. lia.
        - apply andb_true_iff in H. destruct H as [H _].
          apply Z.eqb_eq in H. lia. }
      assert (Hdown : up = false -> rem <= h).
      { subst up. intros H. apply orb_false_iff in H. destruct H as [H _].
        apply Z.ltb_ge in H. exact H. }
      set (m' := if up then q + 1 else q) in *.
      assert (Hsum : Z.pos m + m' * 2 ^ n
                     = 2 ^ (- e) + (m' * 2 ^ n - M1)) by (subst M1; lia).
      assert (Hfinal :
        binary_round 53 1024 false (Z.to_pos (Z.pos m + m' * 2 ^ n)) e = Sentiment.f1_0).
      { rewrite Hsum. replace e with (- - e) at 2 by lia.
        destruct up eqn:Eup.
        - specialize (Hup eq_refl). subst m'.
          apply round_to_one_above; [lia | lia|].
          rewrite H2e54. change (2 ^ 54) with 18014398509481984 in *. nia.
        - specialize (Hdown eq_refl). subst m'.
          destruct (Z.eq_dec rem 0) as [E0 | E0].
          + replace (q * 2 ^ n - M1) with 0 by lia.
            apply round_to_one_above; [lia | lia|].
            simpl Z.mul. apply Z.pow_nonneg. lia.
          + replace (2 ^ (- e) + (q * 2 ^ n - M1)) with (2 ^ (- e) - rem) by lia.
            apply round_to_one_below; [lia | lia|].
            rewrite H2e54. change (2 ^ 54) with 18014398509481984 in *. nia. }
      destruct (Z.eq_dec m' (2 ^ 53)) as [E53 | E53].
      * exists (Z.to_pos (2 ^ 52)), (e + n + 1). split.
        -- apply HB; [exact E53 | lia].
        -- rewrite add_aligned by lia.
           rewrite <- Hfinal. f_equal. f_equal. f_equal.
           rewrite E53. replace (e + n + 1 - e) with (Z.succ n) by lia.
           rewrite Z.pow_succ_r by lia.
           change (Z.pos (Z.to_pos (2 ^ 52))) with (2 ^ 52).
           change (2 ^ 53) with (2 ^ 52 * 2). lia.
      * assert (Hm' : 2 ^ 52 <= m' < 2 ^ 53) by (subst m'; destruct up; lia).
        exists (Z.to_pos m'), (e + n). split.
        -- apply HA; [exact Hm' | lia].
        -- rewrite add_aligned by lia.
           rewrite <- Hfinal. f_equal. f_equal. f_equal.
           rewrite Z2Pos.id by lia. f_equal. f_equal. lia.
Qed.

End Binary64_facts.

(** ** Strings *)

Module PyStr_facts.

Import Shape.

Lemma lstrip_no_leading_ws s : no_leading_ws (lstrip s).
Proof.
  induction s as [|c r IH]; simpl; [exact I|].
  destruct (isspace c) eqn:E; [exact IH|]. simpl. exact E.
Qed.

Lemma lstrip_fixed s : no_leading_ws s -> lstrip s = s.
Proof.
  destruct s as [|c r]; simpl; [reflexivity|].
  intros ->. reflexivity.
Qed.

Lemma rstrip_head c r d r' : rstrip (c :: r) = d :: r' -> d = c.
Proof.
  simpl. destruct (rstrip r).
  - destruct (isspace c); congruence.
  - congruence.
Qed.

Lemma rstrip_no_leading_ws s : no_leading_ws s -> no_leading_ws (rstrip s).
Proof.
  destruct s as [|c r]; [intros _; exact I|].
  intros H. destruct (rstrip (c :: r)) as [|d r'] eqn:E; [exact I|].
  apply rstrip_head in E. subst d. exact H.
Qed.

Lemma rstrip_idempotent s : rstrip (rstrip s) = rstrip s.
Proof.
  induction s as [|c r IH]; [reflexivity|].
  simpl. destruct (rstrip r) as [|d r'] eqn:E.
  - destruct (isspace c) eqn:Ec; [reflexivity|].
    simpl. rewrite Ec. reflexivity.
  - change (rstrip (c :: d :: r')) with
      (match rstrip (d :: r') with
       | [] => if isspace c then [] else [c]
       | x :: y => c :: x :: y
       end).
    rewrite IH. reflexivity.
Qed.

Lemma strip_idempotent s : strip (strip s) = strip s.
Proof.
  unfold strip.
  rewrite (lstrip_fixed (rstrip (lstrip s))).
  - apply rstrip_idempotent.
  - apply rstrip_no_leading_ws, lstrip_no_leading_ws.
Qed.

Lemma lstrip_length s : (length (lstrip s) <= length s)%nat.
Proof.
  induction s as [|c r IH]; simpl; [lia|].
  destruct (isspace c); simpl; lia.
Qed.

Lemma rstrip_length s : (length (rstrip s) <= length s)%nat.
Proof.
  induction s as [|c r IH]; simpl; [lia|].
  destruct (rstrip r); [destruct (isspace c)|]; simpl in *; lia.
Qed.

Lemma strip_length s : (len (strip s) <= len s)%nat.
Proof.
  unfold strip, len.
  etransitivity; [apply rstrip_length | apply lstrip_length].
Qed.

Lemma lstrip_Forall (P : char -> Prop) s : Forall P s -> Forall P (lstrip s).
Proof.
  induction 1 as [|c r Hc Hr IH]; simpl; [constructor|].
  destruct (isspace c); [exact IH | constructor; assumption].
Qed.

Lemma rstrip_Forall (P : char -> Prop) s : Forall P s -> Forall P (rstrip s).
Proof.
  induction 1 as [|c r Hc Hr IH]; simpl; [constructor|].
  destruct (rstrip r).
  - destruct (isspace c); repeat constructor; assumption.
  - constructor; assumption.
Qed.

Lemma lstrip_ws_normal s : ws_normal s -> ws_normal (lstrip s).
Proof.
  induction s as [|c r IH]; simpl; [trivial|].
  intros [Hc Hr]. destruct (isspace c) eqn:Ec; [apply IH, Hr|].
  simpl. split; [rewrite Ec; discriminate | exact Hr].
Qed.

Lemma rstrip_ws_normal s : ws_normal s -> ws_normal (rstrip s).
Proof.
  induction s as [|c r IH]; [trivial|].
  intros [Hc Hr]. specialize (IH Hr).
  simpl. destruct (rstrip r) as [|d r'] eqn:E.
  - destruct (isspace c) eqn:Ec; simpl; [trivial|].
    split; [congruence | trivial].
  - simpl. split; [|exact IH].
    intros Hs. destruct (Hc Hs) as [-> Hnext]. split; [reflexivity|].
    destruct r as [|x y]; [discriminate E|].
    apply rstrip_head in E. subst d. exact Hnext.
Qed.

End PyStr_facts.

(** ** The normalizer *)

Module Preprocess_facts.

Import Preprocess Shape PyStr_facts.

Section SpecialCharacters.

Variable isword : char -> bool.

Lemma kept_space : kept isword space = true.
Proof. unfold kept. rewrite orb_true_r. reflexivity. Qed.

Lemma drop_special_kept text :
  Forall (fun c => kept isword c = true) (drop_special isword text).
Proof.
  unfold drop_special. apply List.Forall_forall. intros c Hc.
  apply filter_In in Hc. tauto.
Qed.

Lemma drop_special_fixed text :
  Forall (fun c => kept isword c = true) text ->
  drop_special isword text = text.
Proof.
  unfold drop_special. induction 1 as [|c r Hc Hr IH]; simpl; [reflexivity|].
  rewrite Hc, IH. reflexivity.
Qed.

Lemma collapse_ws_kept b text :
  Forall (fun c => kept isword c = true) text ->
  Forall (fun c => kept isword c = true) (collapse_ws b text).
Proof.
  intros H. revert b. induction H as [|c r Hc Hr IH]; intros b; simpl.
  - constructor.
  - destruct (isspace c).
    + destruct b; [apply IH|]. constructor; [apply kept_space | apply IH].
    + constructor; [exact Hc | apply IH].
Qed.

Lemma collapse_ws_normal text b :
  ws_normal (collapse_ws b text)
  /\ (b = true -> no_leading_ws (collapse_ws b text)).
Proof.
  revert b. induction text as [|c r IH]; intros b; simpl.
  - split; [exact I | intros _; exact I].
  - destruct (isspace c) eqn:Ec.
    + destruct b.
      * apply IH.
      * split; [|discriminate]. simpl. split; [|apply IH].
        intros _. split; [reflexivity|].
        destruct (IH true) as [_ Hhead]. specialize (Hhead eq_refl).
        destruct (collapse_ws true r); [exact I | exact Hhead].
    + split; [|intros _; exact Ec]. simpl. split; [|apply IH].
      rewrite Ec. discriminate.
Qed.

Lemma collapse_ws_fixed text b :
  ws_normal text -> (b = true -> no_leading_ws text) ->
  collapse_ws b text = text.
Proof.
  revert b. induction text as [|c r IH]; intros b; simpl; [reflexivity|].
  intros [Hc Hr] Hb. destruct (isspace c) eqn:Ec.
  - destruct (Hc eq_refl) as [-> Hnext].
    destruct b; [specialize (Hb eq_refl); congruence|].
    f_equal. apply IH; [exact Hr|]. intros _.
    destruct r; [exact I | exact Hnext].
  - f_equal. apply IH; [exact Hr | discriminate].
Qed.

(** C9. The character-stripping step of the normalizer is idempotent:
    for every string, [remove_special_characters] applied to its own
    result gives that result again. *)
Theorem remove_special_characters_idempotent (text : str) :
  remove_special_characters isword (remove_special_characters isword text)
  = remove_special_characters isword text.
Proof.
  unfold remove_special_characters at 1.
  set (u := remove_special_characters isword text).
  assert (Hkept : Forall (fun c => kept isword c = true) u).
  { apply rstrip_Forall, lstrip_Forall, collapse_ws_kept, drop_special_kept. }
  assert (Hnorm : ws_normal u).
  { apply rstrip_ws_normal, lstrip_ws_normal, collapse_ws_normal. }
  rewrite (drop_special_fixed u Hkept).
  rewrite (collapse_ws_fixed u false Hnorm); [|discriminate].
  apply strip_idempotent.
Qed.

End SpecialCharacters.

Section Normalizer.

Variable isword : char -> bool.
Variable lower : str -> str.
Variable stopwords_words : string -> option (list str).
Variable lemmatize : str -> option str.

Local Abbreviation preprocess_comment :=
  (preprocess_comment isword lower stopwords_words lemmatize).
Local Abbreviation processed :=
  (processed isword lower stopwords_words lemmatize).
Local Abbreviation preprocess_comments :=
  (preprocess_comments isword lower stopwords_words lemmatize).

(** The text returned for one comment is already stripped. *)
Lemma preprocess_comment_stripped text flag :
  strip (preprocess_comment text flag) = preprocess_comment text flag.
Proof.
  unfold Preprocess.preprocess_comment.
  destruct text as [|s| | |]; try reflexivity.
  destruct (bool_decide (s = [])); [reflexivity|].
  apply strip_idempotent.
Qed.

Lemma processed_text_field comment flag :
  processed comment flag !! "processed_text"
  = Some (VStr (preprocess_comment (get comment "text" (VStr [])) flag)).
Proof. unfold Preprocess.processed. apply lookup_insert_eq. Qed.

(** The loop keeps the records that pass the test, in order. *)
Lemma preprocess_comments_filter comments flag :
  preprocess_comments comments flag
  = List.map (fun c => processed c flag)
      (List.filter
         (fun c => (3 <? len (preprocess_comment (get c "text" (VStr [])) flag))%nat)
         comments).
Proof.
  induction comments as [|c rest IH]; simpl; [reflexivity|].
  rewrite preprocess_comment_stripped.
  destruct (3 <? _)%nat; simpl; rewrite IH; reflexivity.
Qed.

(** C5. In the result of the normalizer every record has a processed
    text longer than 3; the result consists of the enriched input
    records whose processed text is longer than 3, in order, so that a
    record whose processed text has length at most 3 is absent; and the
    result is not longer than the input. *)
Theorem preprocess_comments_keeps_long_texts (comments : list dict)
                                             (flag : bool) :
  let out := preprocess_comments comments flag in
  Forall (fun c => exists s, c !! "processed_text" = Some (VStr s)
                             /\ (3 < len s)%nat) out
  /\ out = List.map (fun c => processed c flag)
             (List.filter
                (fun c => (3 <? len (preprocess_comment
                                       (get c "text" (VStr [])) flag))%nat)
                comments)
  /\ (forall c, In c comments ->
        (len (preprocess_comment (get c "text" (VStr [])) flag) <= 3)%nat ->
        ~ In (processed c flag) out)
  /\ (length out <= length comments)%nat.
Proof.
  intros out.
  assert (Hlong : Forall (fun c => exists s,
                            c !! "processed_text" = Some (VStr s)
                            /\ (3 < len s)%nat) out).
  { subst out. rewrite preprocess_comments_filter.
    apply List.Forall_forall. intros d Hd.
    apply in_map_iff in Hd. destruct Hd as (c & <- & Hc).
    apply filter_In in Hc. destruct Hc as [_ Hc].
    apply Nat.ltb_lt in Hc.
    eexists. split; [apply processed_text_field | exact Hc]. }
  split; [exact Hlong|].
  split; [apply preprocess_comments_filter|].
  split.
  - intros c _ Hshort Hin.
    rewrite List.Forall_forall in Hlong.
    destruct (Hlong _ Hin) as (s & Hs & Hlen).
    rewrite processed_text_field in Hs. injection Hs as <-. lia.
  - subst out. rewrite preprocess_comments_filter, length_map.
    apply filter_length_le.
Qed.

End Normalizer.

End Preprocess_facts.

(** ** The classifier *)

Module Sentiment_facts.

Import Sentiment.

Lemma tags_differ : lit "positive" <> lit "negative".
Proof. discriminate. Qed.

(** The rule holds for every result built from a prediction, hence for
    every element a batch without failure adds to the results. *)
Lemma classify_one_batch_tags sentiment_pipeline texts i predictions :
  sentiment_pipeline (firstn batch_size (skipn i texts)) = Some predictions ->
  Forall (fun r => sentiment r =
                   if fgt (Scores.positive (result_scores r))
                          (Scores.negative (result_scores r))
                   then lit "positive" else lit "negative")
         (classify_one_batch sentiment_pipeline texts i).
Proof.
  intros H. unfold classify_one_batch. rewrite H.
  apply List.Forall_forall. intros r Hr.
  apply in_map_iff in Hr. destruct Hr as (p & <- & _). reflexivity.
Qed.

(** Hence for every result of [classify_sentiment_batch] when the model
    raises on no batch. *)
Lemma classify_sentiment_batch_tags sentiment_pipeline texts :
  (forall batch, sentiment_pipeline batch <> None) ->
  Forall (fun r => sentiment r =
                   if fgt (Scores.positive (result_scores r))
                          (Scores.negative (result_scores r))
                   then lit "positive" else lit "negative")
         (classify_sentiment_batch texts (Some sentiment_pipeline)).
Proof.
  intros Hok. unfold classify_sentiment_batch.
  apply List.Forall_forall. intros r Hr.
  apply in_flat_map in Hr. destruct Hr as (i & _ & Hr).
  destruct (sentiment_pipeline (firstn batch_size (skipn i texts)))
    as [predictions|] eqn:E; [|exfalso; exact (Hok _ E)].
  pose proof (classify_one_batch_tags _ _ _ _ E) as H.
  rewrite List.Forall_forall in H. apply H, Hr.
Qed.

(** The result given to the texts of a failed batch is not built by the
    rule: it is tagged positive on equal scores. *)
Lemma default_result_on_tie :
  sentiment default_result = lit "positive"
  /\ fgt (Scores.positive (result_scores default_result))
         (Scores.negative (result_scores default_result)) = false.
Proof. split; reflexivity. Qed.

(** C3. The tag computed for a prediction is ['positive'] exactly when
    the positive score is greater than the negative one, and
    ['negative'] otherwise; a raw score of [0.5], under either label,
    gives the scores [0.5] and [0.5] and the tag ['negative']. *)
Theorem tag_follows_scores (p : prediction) :
  let r := result_of_prediction p in
  (sentiment r = lit "positive" <->
   fgt (Scores.positive (result_scores r))
       (Scores.negative (result_scores r)) = true)
  /\ (sentiment r = lit "negative" <->
      fgt (Scores.positive (result_scores r))
          (Scores.negative (result_scores r)) = false)
  /\ (forall l, l = lit "POSITIVE" \/ l = lit "NEGATIVE" ->
      let r := result_of_prediction {| label := l; score := f0_5 |} in
      result_scores r = {| Scores.positive := f0_5; Scores.negative := f0_5 |}
      /\ sentiment r = lit "negative").
Proof.
  cbv zeta. unfold result_of_prediction. cbn [sentiment result_scores].
  split; [|split].
  - destruct (fgt _ _); split; intros H; try reflexivity; try discriminate.
  - destruct (fgt _ _); split; intros H; try reflexivity; try discriminate.
  - intros l [-> | ->]; split; reflexivity.
Qed.

(** C10. When the model cannot be built at any of the three attempts,
    [analyze_sentiment] returns the sequence it was given: no exception,
    the same records in the same order, no field added; on the shared
    records it is the very list that is returned and the store is left
    as it is. *)
Theorem analyze_sentiment_model_unavailable
    (construct : nat -> option pipeline) (comments : list dict)
    (s : gmap Store.loc dict) (refs : list Store.loc) :
  construct 1%nat = None ->
  construct 2%nat = None ->
  construct 3%nat = None ->
  load_sentiment_model construct = None
  /\ analyze_sentiment construct comments = Some comments
  /\ Store.analyze_sentiment construct s refs = Some (s, refs).
Proof.
  intros H1 H2 H3.
  assert (Hload : load_sentiment_model construct = None).
  { unfold load_sentiment_model. simpl. rewrite H1, H2, H3. reflexivity. }
  split; [exact Hload|]. split.
  - unfold analyze_sentiment. rewrite Hload. destruct comments; reflexivity.
  - unfold Store.analyze_sentiment. rewrite Hload. destruct refs; reflexivity.
Qed.

Import Examples.

Lemma analyze_sentiment_model_unavailable_witness :
  load_sentiment_model unavailable = None
  /\ analyze_sentiment unavailable two_comments = Some two_comments
  /\ Store.analyze_sentiment unavailable ∅ [1%positive; 2%positive]
     = Some (∅, [1%positive; 2%positive]).
Proof.
  apply (analyze_sentiment_model_unavailable unavailable two_comments
           ∅ [1%positive; 2%positive]); reflexivity.
Defined.

(** The constants are the binary64 numbers nearest to the decimal
    literals of the source. *)
Lemma literal_values :
  f1_0 = float_of_Z 1
  /\ f0_5 = fdiv (float_of_Z 1) (float_of_Z 2)
  /\ f0_6 = fdiv (float_of_Z 6) (float_of_Z 10)
  /\ f0_4 = fdiv (float_of_Z 4) (float_of_Z 10)
  /\ Summarizer.f0_3 = fdiv (float_of_Z 3) (float_of_Z 10)
  /\ Responder.f0_7 = fdiv (float_of_Z 7) (float_of_Z 10).
Proof. vm_compute. repeat split. Qed.

(** [s + (1 - s)] and [(1 - s) + s] are exactly [1.0] for every
    binary64 number [s] between [0] and [1]. *)
Lemma score_and_complement (s : float) :
  is_binary64 s = true -> fle f0_0 s = true -> fle s f1_0 = true ->
  fadd s (fsub f1_0 s) = f1_0 /\ fadd (fsub f1_0 s) s = f1_0.
Proof.
  intros Hv H0 H1. destruct s as [b | b | | b m e].
  - destruct b; split; reflexivity.
  - destruct b; discriminate.
  - discriminate.
  - destruct b; [discriminate|].
    unfold fle, SFleb, SFcompare, f1_0 in H1.
    destruct (Z.compare_spec e (-52)) as [He | He | He]; [| |discriminate].
    + (* the exponent of [1.0]: the mantissa is that of [1.0] *)
      subst e.
      assert (Hm : m = 4503599627370496%positive).
      { unfold is_binary64, valid_binary, bounded, canonical_mantissa in Hv.
        apply andb_true_iff in Hv. destruct Hv as [Hc _].
        apply Z.eqb_eq in Hc. rewrite Binary64_facts.fexp_eq in Hc.
        pose proof (Binary64_facts.digits2_pos_bounds m) as [Dlo _].
        assert (Hd : Z.pos (digits2_pos m) = 53%Z) by lia.
        rewrite Hd in Dlo.
        change (2 ^ (53 - 1))%Z with 4503599627370496%Z in Dlo.
        assert (Hle : (m <= 4503599627370496)%positive).
        { unfold Pos.le, Pos.compare.
          destruct (Pos.compare_cont Eq m 4503599627370496);
            [discriminate | discriminate | discriminate H1]. }
        apply Pos.le_antisym; [exact Hle | exact Dlo]. }
      subst m. split; reflexivity.
    + destruct (Binary64_facts.add_sub_from_one m e Hv)
        as (mr & er & Hsub & Hadd); [lia|].
      unfold fadd, fsub. rewrite Hsub. split; [exact Hadd|].
      rewrite Binary64_facts.SFadd_finite_comm. exact Hadd.
Qed.

(** The default scores add up to [1.0] as well. *)
Lemma default_scores_sum : fadd f0_6 f0_4 = f1_0.
Proof. reflexivity. Qed.

(** C4. For a raw score [s] that is a binary64 number between [0] and
    [1]: the label [POSITIVE] is mapped to [s] and [1 - s], the label
    [NEGATIVE] to [1 - s] and [s], under both labels the two scores add
    up to exactly [1.0], and any other label is mapped to the fixed
    scores [0.6] and [0.4]. *)
Theorem map_sentiment_label_sums_to_one (s : float) :
  is_binary64 s = true -> fle f0_0 s = true -> fle s f1_0 = true ->
  map_sentiment_label (lit "POSITIVE") s
  = {| Scores.positive := s; Scores.negative := fsub f1_0 s |}
  /\ map_sentiment_label (lit "NEGATIVE") s
     = {| Scores.positive := fsub f1_0 s; Scores.negative := s |}
  /\ (forall l, l = lit "POSITIVE" \/ l = lit "NEGATIVE" ->
      fadd (Scores.positive (map_sentiment_label l s))
           (Scores.negative (map_sentiment_label l s)) = f1_0)
  /\ (forall l, l <> lit "POSITIVE" -> l <> lit "NEGATIVE" ->
      map_sentiment_label l s
      = {| Scores.positive := f0_6; Scores.negative := f0_4 |}).
Proof.
  intros Hv H0 H1.
  destruct (score_and_complement s Hv H0 H1) as [Hpos Hneg].
  split; [reflexivity|]. split; [reflexivity|]. split.
  - intros l [-> | ->]; [exact Hpos | exact Hneg].
  - intros l Hp Hn. unfold map_sentiment_label, PyStr.eqb.
    rewrite !bool_decide_eq_false_2 by assumption. reflexivity.
Qed.

Lemma map_sentiment_label_sums_to_one_witness :
  map_sentiment_label (lit "POSITIVE") f0_6
  = {| Scores.positive := f0_6; Scores.negative := fsub f1_0 f0_6 |}
  /\ map_sentiment_label (lit "NEGATIVE") f0_6
     = {| Scores.positive := fsub f1_0 f0_6; Scores.negative := f0_6 |}
  /\ (forall l, l = lit "POSITIVE" \/ l = lit "NEGATIVE" ->
      fadd (Scores.positive (map_sentiment_label l f0_6))
           (Scores.negative (map_sentiment_label l f0_6)) = f1_0)
  /\ (forall l, l <> lit "POSITIVE" -> l <> lit "NEGATIVE" ->
      map_sentiment_label l f0_6
      = {| Scores.positive := f0_6; Scores.negative := f0_4 |}).
Proof.
  apply (map_sentiment_label_sums_to_one f0_6); reflexivity.
Defined.

End Sentiment_facts.

(** ** The replies *)

Module Responder_facts.

Import Responder.

Lemma startswith_app p q s :
  startswith (p ++ q) s = true -> startswith p s = true.
Proof.
  revert s. induction p as [|a p IH]; intros s; [reflexivity|].
  destruct s as [|b s]; simpl; [discriminate|].
  intros H. apply andb_true_iff in H. destruct H as [Hab H].
  rewrite Hab. simpl. apply IH, H.
Qed.

(** A text that contains a phrase contains every beginning of it. *)
Lemma contains_app p q s :
  contains (p ++ q) s = true -> contains p s = true.
Proof.
  induction s as [|b s IH]; simpl; intros H.
  - apply orb_true_iff in H. destruct H as [H | H]; [|discriminate].
    rewrite (startswith_app _ _ _ H). reflexivity.
  - apply orb_true_iff in H. destruct H as [H | H].
    + rewrite (startswith_app _ _ _ H). reflexivity.
    + rewrite (IH H). apply orb_true_r.
Qed.

(** [random.choice] returns an element of a sequence that is not
    empty. *)
Lemma random_choice_member {A : Type} (pick : nat) (seq : list A) :
  seq <> [] -> exists x, random_choice pick seq = Some x /\ In x seq.
Proof.
  intros Hne. unfold random_choice.
  destruct seq as [|a seq]; [congruence|].
  set (l := a :: seq).
  assert (Hlt : (pick mod length l < length l)%nat).
  { apply Nat.mod_upper_bound. discriminate. }
  destruct (nth_error l (pick mod length l)) as [x|] eqn:E.
  - exists x. split; [reflexivity|]. eapply nth_error_In, E.
  - apply nth_error_None in E. lia.
Qed.

Section Responses.

Variable lower : str -> str.
Variable str_of_object : value -> str.

(** C8. For a comment whose sentiment is ['positive'] and whose
    lowercased original text contains "thank you", the template fallback
    returns one of the four gratitude templates, with the author of the
    comment put in. *)
Theorem fallback_gratitude_bucket (pick : nat) (comment : dict)
                                  (text : str) :
  comment !! "sentiment" = Some (VStr (lit "positive")) ->
  comment !! "original_text" = Some (VStr text) ->
  contains (lit "thank you") (lower text) = true ->
  exists response,
    _generate_fallback_response lower str_of_object pick comment
    = Some response
    /\ In response
         (gratitude_templates
            (format_value str_of_object
               (get comment "author" (VStr (lit "there"))))).
Proof.
  intros Hs Ht Hc.
  unfold _generate_fallback_response, get. rewrite Hs, Ht. simpl default.
  unfold responses_for.
  change (equals_str (VStr (lit "positive")) (lit "positive")) with true.
  cbv iota.
  assert (Hany : any_in ["thank"; "thanks"; "great"; "awesome"; "love";
                         "amazing"]%string (lower text) = true).
  { unfold any_in. simpl existsb.
    change (lit "thank you") with (lit "thank" ++ lit " you") in Hc.
    rewrite (contains_app _ _ _ Hc). reflexivity. }
  rewrite Hany.
  apply random_choice_member. discriminate.
Qed.

(** Without a key every comment whose original text is a string gets a
    reply drawn from the list its branch selects. *)
Lemma respond_to_without_key groq_chat pick comment text :
  comment !! "original_text" = Some (VStr text) ->
  exists r,
    respond_to lower str_of_object groq_chat None pick comment
    = Some (<["response" := VStr r]> comment)
    /\ In r (responses_for
               (format_value str_of_object
                  (get comment "author" (VStr (lit "there"))))
               (get comment "sentiment" (VStr (lit "neutral")))
               (lower text)).
Proof.
  intros Ht.
  assert (Hg : get comment "original_text" (VStr []) = VStr text).
  { unfold get. rewrite Ht. reflexivity. }
  unfold respond_to, _generate_fallback_response. rewrite Hg.
  set (l := responses_for _ _ _).
  destruct (random_choice_member pick l) as (r & Hr & Hin).
  - subst l. unfold responses_for.
    repeat match goal with |- context [if ?b then _ else _] => destruct b end;
      discriminate.
  - exists r. rewrite Hr. split; [reflexivity | exact Hin].
Qed.

End Responses.

Lemma fallback_gratitude_bucket_witness :
  exists response,
    _generate_fallback_response ascii_lower Examples.no_object 0
      Examples.grateful = Some response
    /\ In response (gratitude_templates (lit "Ana")).
Proof.
  apply (fallback_gratitude_bucket ascii_lower Examples.no_object 0
           Examples.grateful (lit "Thank you for this!")); reflexivity.
Defined.

(** The three templates for strong criticism are longer than 30 code
    points, whoever the author is. *)
Lemma criticism_templates_long author :
  Forall (fun r => (30 < len r)%nat) (criticism_templates author).
Proof.
  unfold criticism_templates, len.
  repeat (apply List.Forall_cons; [rewrite !length_app; simpl; lia|]).
  apply List.Forall_nil.
Qed.

Lemma looks_generated_long c r :
  c !! "response" = Some (VStr r) -> (30 < len r)%nat ->
  has_response c = true /\ looks_generated c = Some true.
Proof.
  intros Hr Hlen. unfold has_response, looks_generated, get_or_none, get.
  rewrite Hr. simpl.
  destruct r as [|x r]; [simpl in Hlen; lia|]. simpl.
  split; [reflexivity|]. f_equal. apply Nat.ltb_lt. exact Hlen.
Qed.

(** The report counts every reply longer than 30 code points as made by
    the provider. *)
Lemma count_generated_long comments :
  Forall (fun c => exists r, c !! "response" = Some (VStr r)
                             /\ (30 < len r)%nat) comments ->
  length (List.filter has_response comments) = length comments
  /\ count_generated comments = Some (length comments).
Proof.
  induction 1 as [|c rest (r & Hr & Hlen) _ [IH1 IH2]]; simpl;
    [split; reflexivity|].
  destruct (looks_generated_long c r Hr Hlen) as [-> ->].
  rewrite IH2. simpl. rewrite IH1. split; reflexivity.
Qed.

Import Examples.

(** C1, evaluated on three comments of negative sentiment that say
    "This is bad", without any key: whatever the random draws, the three
    replies come from the templates, and the report counts three
    responses of the provider and no response from a template. *)
Theorem report_counts_templates_as_generated
    (str_of_object : value -> str)
    (groq_chat : Summarizer.chat_request -> option str)
    (picks : nat -> nat) :
  exists comments report,
    generate_comment_responses ascii_lower str_of_object groq_chat picks
      three_critical None = Some comments
    /\ Forall2 (fun c c' => exists r,
                  c' = <["response" := VStr r]> c
                  /\ In r (criticism_templates
                             (format_value str_of_object
                                (get c "author" (VStr (lit "there"))))))
               three_critical comments
    /\ get_response_summary comments = Some report
    /\ report !! "total_responses" = Some 3%nat
    /\ report !! "ai_responses" = Some 3%nat
    /\ report !! "template_responses" = Some 0%nat.
Proof.
  assert (H : forall pick a, exists r,
             respond_to ascii_lower str_of_object groq_chat None pick
               (critical a)
             = Some (<["response" := VStr r]> (critical a))
             /\ In r (criticism_templates (lit a)) /\ (30 < len r)%nat).
  { intros pick a.
    destruct (respond_to_without_key ascii_lower str_of_object groq_chat pick
                (critical a) (lit "This is bad") eq_refl) as (r & Hr & Hin).
    exists r. split; [exact Hr|].
    change (In r (criticism_templates (lit a))) in Hin.
    split; [exact Hin|].
    pose proof (criticism_templates_long (lit a)) as Hl.
    rewrite List.Forall_forall in Hl. apply Hl, Hin. }
  unfold generate_comment_responses, three_critical. simpl respond_from.
  destruct (H (picks 0%nat) "Al"%string) as (r0 & -> & Hin0 & H0).
  destruct (H (picks 1%nat) "Bo"%string) as (r1 & -> & Hin1 & H1).
  destruct (H (picks 2%nat) "Cy"%string) as (r2 & -> & Hin2 & H2).
  eexists. eexists. split; [reflexivity|].
  split.
  { repeat (constructor;
            [eexists; split;
             [reflexivity | first [exact Hin0 | exact Hin1 | exact Hin2]]|]).
    constructor. }
  unfold get_response_summary.
  destruct (count_generated_long
              [<["response" := VStr r0]> (critical "Al");
               <["response" := VStr r1]> (critical "Bo");
               <["response" := VStr r2]> (critical "Cy")]) as [-> ->].
  { repeat (apply List.Forall_cons;
            [eexists; split; [apply lookup_insert_eq | assumption]|]).
    apply List.Forall_nil. }
  split; [reflexivity|]. repeat split.
Qed.

End Responder_facts.

(** ** The summary *)

Module Summarizer_facts.

Import Summarizer.

Lemma render_summary_nonempty total dominant_sentiment percentage topics counts :
  render_summary total dominant_sentiment percentage topics counts <> [].
Proof.
  unfold render_summary. intros H.
  apply app_eq_nil in H. destruct H as [_ H].
  apply app_eq_nil in H. destruct H as [H _]. discriminate H.
Qed.

Section Summary.

Variable lower : str -> str.
Variable groq_client : str -> bool.
Variable groq_chat : chat_request -> option str.
Variable format_percentage : nat -> nat -> str.

(** The local summary is never the empty string, whatever the records
    hold. *)
Lemma summarize_locally_nonempty comments :
  summarize_locally lower format_percentage comments <> [].
Proof.
  unfold summarize_locally.
  destruct (summarize_locally_body lower format_percentage comments)
    as [summary|] eqn:E; [|discriminate].
  unfold summarize_locally_body in E.
  destruct comments as [|c rest]; [injection E as <-; discriminate|].
  destruct (count_sentiments _ _) as [counts|]; [|discriminate].
  destruct (texts_for_topics _) as [texts|]; [|discriminate].
  injection E as <-. apply render_summary_nonempty.
Qed.

Lemma summarize_with_groq_fails comments key :
  provider_call_fails groq_client groq_chat comments key ->
  summarize_with_groq groq_client groq_chat comments key = None
  \/ summarize_with_groq groq_client groq_chat comments key = Some [].
Proof.
  unfold summarize_with_groq.
  intros [-> | (-> & comments_text & Hc & Hne & Hcall)]; [left; reflexivity|].
  rewrite Hc. destruct comments_text as [|l ls]; [congruence|].
  destruct Hcall as [-> | (content & -> & ->)]; [left | right]; reflexivity.
Qed.

(** C7. For a sequence of comments that is not empty and a key that is
    not blank, when the provider raises (at the building of the client
    or at the call) or returns an empty content, [generate_summary]
    returns the local summary, which is a string that is not empty. *)
Theorem generate_summary_falls_back (comments : list dict) (key : str) :
  comments <> [] ->
  strip key <> [] ->
  provider_call_fails groq_client groq_chat comments (strip key) ->
  generate_summary lower groq_client groq_chat format_percentage comments
    (Some key)
  = summarize_locally lower format_percentage comments
  /\ summarize_locally lower format_percentage comments <> [].
Proof.
  intros Hne Hkey Hfail. split; [|apply summarize_locally_nonempty].
  unfold generate_summary. destruct comments as [|c rest]; [congruence|].
  destruct (negb (bool_decide (key = [])) && _); [|reflexivity].
  destruct (summarize_with_groq_fails _ _ Hfail) as [-> | ->]; reflexivity.
Qed.

End Summary.

Import Examples.

Lemma generate_summary_falls_back_witness :
  generate_summary ascii_lower any_client failing_chat any_percentage
    [grateful] (Some (lit " gsk_key "))
  = summarize_locally ascii_lower any_percentage [grateful]
  /\ summarize_locally ascii_lower any_percentage [grateful] <> [].
Proof.
  apply (generate_summary_falls_back ascii_lower any_client failing_chat
           any_percentage [grateful] (lit " gsk_key ")).
  - discriminate.
  - vm_compute. discriminate.
  - right. split; [reflexivity|].
    eexists. split; [reflexivity|]. split; [discriminate|].
    left. reflexivity.
Defined.

End Summarizer_facts.

(** ** The shared records *)
Module Store_facts.

Import Store Examples Responder Responder_facts.

Lemma alloc_fresh (σ : gmap loc dict) d : σ !! (alloc σ d).2 = None.
Proof. unfold alloc. simpl. apply not_elem_of_dom, is_fresh. Qed.

Lemma alloc_lookup (σ : gmap loc dict) d : (alloc σ d).1 !! (alloc σ d).2 = Some d.
Proof. unfold alloc. simpl. apply lookup_insert_eq. Qed.

(** A new record leaves the records that exist as they are. *)
Lemma alloc_frame (σ : gmap loc dict) d l x :
  σ !! l = Some x -> (alloc σ d).1 !! l = Some x.
Proof.
  intros H. pose proof (alloc_fresh σ d) as Hf.
  unfold alloc in *. simpl in *.
  rewrite lookup_insert_ne; [exact H|]. intros E. rewrite E in Hf. congruence.
Qed.

Lemma alloc_all_cons (σ : gmap loc dict) d rest :
  alloc_all σ (d :: rest)
  = ((alloc_all (alloc σ d).1 rest).1,
     (alloc σ d).2 :: (alloc_all (alloc σ d).1 rest).2).
Proof.
  simpl. unfold alloc. simpl. destruct (alloc_all _ rest). reflexivity.
Qed.

Lemma alloc_all_frame ds (σ : gmap loc dict) l x :
  σ !! l = Some x -> (alloc_all σ ds).1 !! l = Some x.
Proof.
  revert σ. induction ds as [|d rest IH]; intros σ H; [exact H|].
  rewrite alloc_all_cons. cbn [fst snd]. apply IH, alloc_frame, H.
Qed.

(** The references returned denote the records that were allocated. *)
Lemma alloc_all_deref ds (σ : gmap loc dict) :
  deref (alloc_all σ ds).1 (alloc_all σ ds).2 = ds.
Proof.
  revert σ. induction ds as [|d rest IH]; intros σ; [reflexivity|].
  rewrite alloc_all_cons. unfold deref in *. cbn [fst snd List.map].
  rewrite IH. f_equal.
  unfold lookup_total, map_lookup_total.
  rewrite (alloc_all_frame rest _ _ d (alloc_lookup σ d)). reflexivity.
Qed.

(** The references returned are new. *)
Lemma alloc_all_new ds (σ : gmap loc dict) :
  Forall (fun l => σ !! l = None) (alloc_all σ ds).2.
Proof.
  revert σ. induction ds as [|d rest IH]; intros σ; [constructor|].
  rewrite alloc_all_cons. cbn [fst snd]. constructor; [apply alloc_fresh|].
  eapply Forall_impl; [apply IH|]. intros l Hl. cbn beta in Hl.
  destruct (σ !! l) as [x|] eqn:E; [|reflexivity].
  rewrite (alloc_frame σ d l x E) in Hl. discriminate.
Qed.

Section Stages.

Variable isword : char -> bool.
Variable lower : str -> str.
Variable stopwords_words : string -> option (list str).
Variable lemmatize : str -> option str.
Variable str_of_object : value -> str.
Variable groq_chat : Summarizer.chat_request -> option str.

(** The normalizer leaves every record of its caller as it is, returns
    new records, and these denote what the loop computes. *)
Lemma preprocess_comments_copies (σ : gmap loc dict) comments flag :
  let '(σ', out) :=
    Store.preprocess_comments isword lower stopwords_words lemmatize
      σ comments flag in
  (forall l x, σ !! l = Some x -> σ' !! l = Some x)
  /\ Forall (fun l => σ !! l = None) out
  /\ deref σ' out
     = Preprocess.preprocess_comments isword lower stopwords_words lemmatize
         (deref σ comments) flag.
Proof.
  unfold Store.preprocess_comments.
  set (ds := Preprocess.preprocess_comments _ _ _ _ _ _).
  pose proof (alloc_all_frame ds σ) as H1.
  pose proof (alloc_all_new ds σ) as H2.
  pose proof (alloc_all_deref ds σ) as H3.
  destruct (alloc_all σ ds) as [σ' out]. auto.
Qed.

(** So does the truncation. *)
Lemma truncate_long_comments_copies (σ σ' : gmap loc dict) comments
      max_length out :
  Store.truncate_long_comments σ comments max_length = Some (σ', out) ->
  (forall l x, σ !! l = Some x -> σ' !! l = Some x)
  /\ Forall (fun l => σ !! l = None) out.
Proof.
  unfold Store.truncate_long_comments.
  destruct (Preprocess.truncate_long_comments _ _) as [ds|]; [|discriminate].
  pose proof (alloc_all_frame ds σ) as H1.
  pose proof (alloc_all_new ds σ) as H2.
  destruct (alloc_all σ ds) as [σ2 out2]. intros [= <- <-]. auto.
Qed.

(** So does the classifier when the model is loaded. *)
Lemma analyze_sentiment_copies construct sentiment_pipeline
      (σ σ' : gmap loc dict) comments out :
  Sentiment.load_sentiment_model construct = Some sentiment_pipeline ->
  Store.analyze_sentiment construct σ comments = Some (σ', out) ->
  (forall l x, σ !! l = Some x -> σ' !! l = Some x)
  /\ Forall (fun l => σ !! l = None) out.
Proof.
  intros Hload. unfold Store.analyze_sentiment. rewrite Hload.
  destruct comments as [|c rest].
  - intros [= <- <-]. split; [auto | constructor].
  - destruct (Sentiment.texts_to_analyze _) as [texts|]; [|discriminate].
    set (ds := Sentiment.combine_results _ _ _).
    pose proof (alloc_all_frame ds σ) as H1.
    pose proof (alloc_all_new ds σ) as H2.
    destruct (alloc_all σ ds) as [σ2 out2]. intros [= <- <-]. auto.
Qed.

End Stages.

(** C2, evaluated on a store whose only record is a comment that
    thanks, without any key: the reply generator returns the list of
    references it was given and the record of the caller now holds a
    [response] field, which it did not hold before the call. *)
Theorem generate_comment_responses_writes_its_input
    (str_of_object : value -> str)
    (groq_chat : Summarizer.chat_request -> option str)
    (picks : nat -> nat) :
  exists σ' r,
    Store.generate_comment_responses ascii_lower str_of_object groq_chat
      picks one_record [1%positive] None = (σ', Some [1%positive])
    /\ one_record !! 1%positive = Some grateful
    /\ grateful !! "response" = None
    /\ σ' !! 1%positive = Some (<["response" := VStr r]> grateful)
    /\ In r (gratitude_templates (lit "Ana")).
Proof.
  destruct (respond_to_without_key ascii_lower str_of_object groq_chat
              (picks 0%nat) grateful (lit "Thank you for this!") eq_refl)
    as (r & Hr & Hin).
  exists (<[1%positive := <["response" := VStr r]> grateful]> one_record), r.
  split.
  - unfold Store.generate_comment_responses, respond_in_place.
    change (one_record !!! 1%positive) with grateful.
    rewrite Hr. reflexivity.
  - split; [reflexivity|]. split; [reflexivity|].
    split; [apply lookup_insert_eq | exact Hin].
Qed.

End Store_facts.

(** ** The fetcher *)

Module Fetcher_facts.

Import Fetcher Shape.

Section Providers.

Variable extract_video_id : str -> option str.
Variable execute : api_request -> option api_response.
Variable get_comments_from_url : str -> nat -> pull.

Hypothesis page_size : honours_page_size execute.
Hypothesis progress : pages_progress execute.

(** The loop over the pages ends within the fuel and never holds more
    than [max_results] records. *)
Lemma api_pages_bound video_id key (max_results : Z) fuel :
  forall request comments,
    (Z.of_nat (length comments) <= max_results)%Z ->
    (maxResults request <= max_results - Z.of_nat (length comments))%Z ->
    (Z.to_nat (max_results - Z.of_nat (length comments)) < fuel)%nat ->
    exists result,
      api_pages execute fuel video_id key max_results request comments
      = Some result
      /\ (Z.of_nat (length result) <= max_results)%Z.
Proof using page_size progress.
  induction fuel as [|fuel IH]; intros request comments Hlen Hreq Hfuel;
    [lia|].
  simpl. destruct (Z.ltb_spec (Z.of_nat (length comments)) max_results)
    as [Hlt | Hge]; [|eauto].
  destruct (execute request) as [response|] eqn:Hex.
  2:{ exists []. split; [reflexivity | simpl; lia]. }
  pose proof (page_size _ _ Hex) as Hsize.
  set (comments' := comments ++ List.map record_of_snippet (items response)).
  assert (Hlen' : Z.of_nat (length comments')
                  = (Z.of_nat (length comments)
                     + Z.of_nat (length (items response)))%Z).
  { subst comments'. rewrite length_app, length_map. lia. }
  destruct (nextPageToken response) as [token|] eqn:Htok.
  - destruct (Z.ltb_spec (Z.of_nat (length comments')) max_results)
      as [Hlt' | Hge'].
    + apply IH.
      * lia.
      * simpl. lia.
      * pose proof (progress _ _ _ Hex Htok) as Hne.
        destruct (items response); [congruence|]. simpl in Hlen'. lia.
    + exists comments'. split; [reflexivity | lia].
  - exists comments'. split; [reflexivity | lia].
Qed.

(** The loop over the stream of the downloader does as well. *)
Lemma downloader_items_bound stream (max_results : Z) fuel :
  forall i comments,
    (Z.of_nat (length comments) <= max_results)%Z ->
    (Z.to_nat (max_results - Z.of_nat (length comments)) < fuel)%nat ->
    exists result,
      downloader_items fuel stream max_results i comments = Some result
      /\ (Z.of_nat (length result) <= max_results)%Z.
Proof.
  induction fuel as [|fuel IH]; intros i comments Hlen Hfuel; [lia|].
  simpl. destruct (stream i) as [comment| |].
  - destruct (Z.leb_spec max_results (Z.of_nat (length comments)))
      as [Hge | Hlt]; [eauto|].
    apply IH; rewrite length_app; simpl; lia.
  - eauto.
  - exists []. split; [reflexivity | simpl; lia].
Qed.

(** C6. For every identifier and every [max_results] that is not
    negative, with a provider that returns at most the page size it is
    asked for: the path of the structured API, the path of the
    downloader and [fetch_comments] itself each return a sequence of at
    most [max_results] records. *)
Theorem fetch_comments_at_most_max (fuel : nat) (video_url video_id : str)
                                   (key : str) (api_key : option str)
                                   (max_results : Z) :
  (0 <= max_results)%Z ->
  (Z.to_nat max_results < fuel)%nat ->
  (exists comments,
     fetch_comments_api execute fuel video_id key max_results = Some comments
     /\ (Z.of_nat (length comments) <= max_results)%Z)
  /\ (exists comments,
        fetch_comments_downloader get_comments_from_url fuel video_id
          max_results = Some comments
        /\ (Z.of_nat (length comments) <= max_results)%Z)
  /\ (exists comments,
        fetch_comments extract_video_id execute get_comments_from_url
          fuel video_url api_key max_results = Some comments
        /\ (Z.of_nat (length comments) <= max_results)%Z).
Proof using page_size progress.
  intros Hmax Hfuel.
  assert (Hapi : forall video_id key, exists comments,
             fetch_comments_api execute fuel video_id key max_results
             = Some comments
             /\ (Z.of_nat (length comments) <= max_results)%Z).
  { intros v k. unfold fetch_comments_api.
    apply api_pages_bound; simpl; lia. }
  assert (Hdl : forall video_id, exists comments,
             fetch_comments_downloader get_comments_from_url fuel video_id
               max_results = Some comments
             /\ (Z.of_nat (length comments) <= max_results)%Z).
  { intros v. unfold fetch_comments_downloader.
    apply downloader_items_bound; simpl; lia. }
  split; [apply Hapi|]. split; [apply Hdl|].
  unfold fetch_comments.
  destruct (extract_video_id video_url) as [v|].
  2:{ exists []. split; [reflexivity | simpl; lia]. }
  destruct api_key as [k|]; [|apply Hdl].
  destruct (negb (bool_decide (k = [])) && _); [|apply Hdl].
  destruct (Hapi v (strip k)) as (comments & -> & Hlen).
  destruct comments as [|c rest]; [apply Hdl|].
  eauto.
Qed.

End Providers.

Import Examples.

Lemma two_pages_honours_page_size : honours_page_size two_pages.
Proof.
  intros request response. unfold two_pages.
  destruct (pageToken request); intros [= <-]; simpl;
    rewrite length_take; simpl; lia.
Qed.

Lemma two_pages_progress : pages_progress two_pages.
Proof.
  intros request response token. unfold two_pages.
  destruct (pageToken request); intros [= <-]; simpl; [discriminate|].
  destruct (Z.ltb_spec 0 (maxResults request)) as [Hpos|]; [|discriminate].
  intros _. destruct (Z.to_nat (maxResults request)) eqn:E; [lia|].
  discriminate.
Qed.

Lemma fetch_comments_at_most_max_witness :
  (exists comments,
     fetch_comments_api two_pages 4 (lit "ABC123") (lit "key") 3
     = Some comments
     /\ (Z.of_nat (length comments) <= 3)%Z)
  /\ (exists comments,
        fetch_comments_downloader five_items 4 (lit "ABC123") 3
        = Some comments
        /\ (Z.of_nat (length comments) <= 3)%Z)
  /\ (exists comments,
        fetch_comments any_video two_pages five_items 4
          (lit "https://youtu.be/ABC123") (Some (lit "key")) 3
        = Some comments
        /\ (Z.of_nat (length comments) <= 3)%Z).
Proof.
  apply (fetch_comments_at_most_max any_video two_pages five_items
           two_pages_honours_page_size two_pages_progress
           4 (lit "https://youtu.be/ABC123") (lit "ABC123") (lit "key")
           (Some (lit "key")) 3); [lia | simpl; lia].
Defined.

End Fetcher_facts.

(** ** Further properties of the replies *)

Module Responder_more.

Import Responder Responder_facts Examples Conditions More_examples.

Lemma startswith_self_app a y : startswith a (a ++ y) = true.
Proof.
  induction a as [|c a IH]; simpl; [reflexivity|].
  rewrite N.eqb_refl. exact IH.
Qed.

Lemma contains_unfold p s :
  contains p s
  = startswith p s || match s with [] => false | _ :: r => contains p r end.
Proof. destruct s; reflexivity. Qed.

(** A text contains each of its segments. *)
Lemma contains_infix a x y : contains a (x ++ a ++ y) = true.
Proof.
  induction x as [|c x IH].
  - rewrite contains_unfold. simpl app. rewrite startswith_self_app.
    reflexivity.
  - rewrite contains_unfold. simpl. rewrite IH. apply orb_true_r.
Qed.

Lemma random_choice_In {A : Type} (pick : nat) (seq : list A) x :
  random_choice pick seq = Some x -> In x seq.
Proof.
  unfold random_choice. destruct seq as [|a seq]; [discriminate|].
  apply nth_error_In.
Qed.

Lemma lit_app_nonempty (head : string) (rest : str) :
  lit head <> [] -> lit head ++ rest <> [].
Proof. intros Hne H. apply app_eq_nil in H. destruct H as [H _]. auto. Qed.

(** Each template of each list holds the author and is not empty. *)
Lemma responses_mention_author author sentiment original_text :
  Forall (fun r => r <> [] /\ contains author r = true)
         (responses_for author sentiment original_text).
Proof.
  unfold responses_for.
  repeat match goal with |- context [if ?b then _ else _] => destruct b end;
    repeat (apply List.Forall_cons;
            [split; [apply lit_app_nonempty; discriminate
                    | apply contains_infix]|]);
    apply List.Forall_nil.
Qed.

Section Responses.

Variable lower : str -> str.
Variable str_of_object : value -> str.
Variable groq_chat : Summarizer.chat_request -> option str.

Local Abbreviation author_of comment :=
  (format_value str_of_object (get comment "author" (VStr (lit "there")))).

(** X1. Every reply of the template fallback is a string that is not
    empty and that contains the author of the comment (["there"] when the
    comment has no author), whatever the sentiment, the text and the
    random draw. *)
Theorem fallback_response_mentions_author (pick : nat) (comment : dict)
                                          (response : str) :
  _generate_fallback_response lower str_of_object pick comment
  = Some response ->
  response <> [] /\ contains (author_of comment) response = true.
Proof.
  unfold _generate_fallback_response.
  destruct (get comment "original_text" (VStr [])) as [|text| | |];
    try discriminate.
  intros H. apply random_choice_In in H.
  pose proof (responses_mention_author (author_of comment)
                (get comment "sentiment" (VStr (lit "neutral")))
                (lower text)) as Hall.
  rewrite List.Forall_forall in Hall. apply Hall, H.
Qed.

Lemma fallback_defined pick comment text :
  get comment "original_text" (VStr []) = VStr text ->
  exists r,
    _generate_fallback_response lower str_of_object pick comment = Some r
    /\ In r (responses_for (author_of comment)
               (get comment "sentiment" (VStr (lit "neutral")))
               (lower text)).
Proof.
  intros Hg. unfold _generate_fallback_response. rewrite Hg.
  apply random_choice_member.
  pose proof (responses_mention_author (author_of comment)
                (get comment "sentiment" (VStr (lit "neutral")))
                (lower text)) as Hall.
  intros E. unfold responses_for in E.
  repeat match type of E with context [if ?b then _ else _] => destruct b end;
    discriminate.
Qed.

Lemma fallback_raises pick comment :
  (forall text, get comment "original_text" (VStr []) <> VStr text) ->
  _generate_fallback_response lower str_of_object pick comment = None.
Proof.
  intros H. unfold _generate_fallback_response.
  destruct (get comment "original_text" (VStr [])) as [|text| | |];
    try reflexivity.
  exfalso. exact (H text eq_refl).
Qed.

Lemma respond_to_no_key groq_api_key pick comment :
  no_key groq_api_key ->
  respond_to lower str_of_object groq_chat groq_api_key pick comment
  = match _generate_fallback_response lower str_of_object pick comment with
    | Some response => Some (<["response" := VStr response]> comment)
    | None => None
    end.
Proof.
  intros [-> | ->]; unfold respond_to; simpl;
    destruct (_generate_fallback_response _ _ _ _); reflexivity.
Qed.

Lemma respond_from_no_key groq_api_key picks comments :
  no_key groq_api_key ->
  Forall (fun c => exists text, get c "original_text" (VStr []) = VStr text)
         comments ->
  forall i, exists out,
    respond_from lower str_of_object groq_chat groq_api_key picks i comments
    = Some out
    /\ Forall2 (fun c c' => exists r,
                  c' = <["response" := VStr r]> c
                  /\ r <> []
                  /\ In r (responses_for (author_of c)
                             (get c "sentiment" (VStr (lit "neutral")))
                             (lower (text_of c))))
               comments out.
Proof.
  intros Hkey Hall. induction Hall as [|c rest (text & Hc) _ IH]; intros i.
  - exists []. split; [reflexivity | constructor].
  - destruct (fallback_defined (picks i) c text Hc) as (r & Hr & Hin).
    destruct (IH (S i)) as (out & Hout & Hrel).
    exists (<["response" := VStr r]> c :: out). split.
    + simpl. rewrite (respond_to_no_key _ _ _ Hkey), Hr, Hout. reflexivity.
    + constructor; [|exact Hrel]. exists r. split; [reflexivity|].
      split.
      * apply (fallback_response_mentions_author (picks i) c r Hr).
      * unfold text_of. rewrite Hc. exact Hin.
Qed.

(** X2. Without a key (none, or the empty string), when the original
    text of every comment is a string (or is absent): the call returns
    one record per comment, in order, each being the input record with
    only its [response] field set, to a template of the list selected
    by the sentiment and the lowercased text of that comment; the
    provider is not consulted. *)
Theorem responses_without_key (picks : nat -> nat) (comments : list dict)
                              (groq_api_key : option str) :
  no_key groq_api_key ->
  Forall (fun c => exists text, get c "original_text" (VStr []) = VStr text)
         comments ->
  exists out,
    generate_comment_responses lower str_of_object groq_chat picks comments
      groq_api_key = Some out
    /\ Forall2 (fun c c' => exists r,
                  c' = <["response" := VStr r]> c
                  /\ r <> []
                  /\ In r (responses_for (author_of c)
                             (get c "sentiment" (VStr (lit "neutral")))
                             (lower (text_of c))))
               comments out.
Proof.
  intros Hkey Hall. apply respond_from_no_key; assumption.
Qed.

Lemma respond_from_raises groq_api_key picks comments comment :
  no_key groq_api_key ->
  In comment comments ->
  (forall text, get comment "original_text" (VStr []) <> VStr text) ->
  forall i,
    respond_from lower str_of_object groq_chat groq_api_key picks i comments
    = None.
Proof.
  intros Hkey Hin Hbad. induction comments as [|c rest IH]; intros i;
    [contradiction|].
  simpl. rewrite (respond_to_no_key _ _ _ Hkey).
  destruct Hin as [-> | Hin].
  - rewrite (fallback_raises _ _ Hbad). reflexivity.
  - destruct (_generate_fallback_response _ _ _ c); [|reflexivity].
    rewrite (IH Hin). reflexivity.
Qed.

(** X3. Without a key, a comment whose [original_text] is not a string
    makes the whole call raise: the handler of the loop calls the same
    fallback, which raises again, so no list is returned. *)
Theorem responses_raise_on_text_that_is_no_string
    (picks : nat -> nat) (comments : list dict) (groq_api_key : option str)
    (comment : dict) :
  no_key groq_api_key ->
  In comment comments ->
  (forall text, get comment "original_text" (VStr []) <> VStr text) ->
  generate_comment_responses lower str_of_object groq_chat picks comments
    groq_api_key = None.
Proof.
  intros Hkey Hin Hbad. apply respond_from_raises with comment; assumption.
Qed.

Lemma respond_from_answers key (answer : dict -> str) picks comments :
  key <> [] ->
  Forall (fun c => groq_chat (response_request str_of_object key c)
                   = Some (answer c)) comments ->
  forall i,
    respond_from lower str_of_object groq_chat (Some key) picks i comments
    = Some (List.map (fun c => <["response" := VStr (strip (answer c))]> c)
                     comments).
Proof.
  intros Hkey Hall. induction Hall as [|c rest Hc _ IH]; intros i;
    [reflexivity|].
  simpl. unfold respond_to, _generate_ai_response.
  rewrite bool_decide_eq_false_2 by assumption. simpl negb. cbv iota.
  rewrite Hc, IH. reflexivity.
Qed.

(** X4. With a key, when the provider answers every request, each
    record gets the stripped content as its response, with no check
    that it is not empty: a content made of whitespace gives the empty
    response, and the record is then not counted as answered by the
    report. *)
Theorem responses_of_the_provider (picks : nat -> nat)
                                  (comments : list dict) (key : str)
                                  (answer : dict -> str) :
  key <> [] ->
  Forall (fun c => groq_chat (response_request str_of_object key c)
                   = Some (answer c)) comments ->
  generate_comment_responses lower str_of_object groq_chat picks comments
    (Some key)
  = Some (List.map (fun c => <["response" := VStr (strip (answer c))]> c)
                   comments)
  /\ (forall c, In c comments -> strip (answer c) = [] ->
      has_response (<["response" := VStr (strip (answer c))]> c) = false).
Proof.
  intros Hkey Hall. split.
  - apply respond_from_answers; assumption.
  - intros c _ Hblank. unfold has_response, get_or_none, get.
    rewrite lookup_insert_eq, Hblank. reflexivity.
Qed.

Lemma respond_to_with_key key pick comment text :
  key <> [] ->
  get comment "original_text" (VStr []) = VStr text ->
  exists r,
    respond_to lower str_of_object groq_chat (Some key) pick comment
    = Some (<["response" := VStr r]> comment)
    /\ ((exists content,
           groq_chat (response_request str_of_object key comment)
           = Some content /\ r = strip content)
        \/ (groq_chat (response_request str_of_object key comment) = None
            /\ r <> []
            /\ In r (responses_for (author_of comment)
                       (get comment "sentiment" (VStr (lit "neutral")))
                       (lower text)))).
Proof.
  intros Hkey Hg. unfold respond_to, _generate_ai_response.
  rewrite bool_decide_eq_false_2 by assumption. simpl negb. cbv iota.
  destruct (groq_chat _) as [content|] eqn:E.
  - exists (strip content). split; [reflexivity|]. left. eauto.
  - destruct (fallback_defined pick comment text Hg) as (r & Hr & Hin).
    rewrite Hr. exists r. split; [reflexivity|]. right.
    split; [reflexivity|]. split; [|exact Hin].
    apply (fallback_response_mentions_author pick comment r Hr).
Qed.

Lemma respond_from_with_key key picks comments :
  key <> [] ->
  Forall (fun c => exists text, get c "original_text" (VStr []) = VStr text)
         comments ->
  forall i, exists out,
    respond_from lower str_of_object groq_chat (Some key) picks i comments
    = Some out
    /\ Forall2 (fun c c' => exists r,
         c' = <["response" := VStr r]> c
         /\ ((exists content,
                groq_chat (response_request str_of_object key c)
                = Some content /\ r = strip content)
             \/ (groq_chat (response_request str_of_object key c) = None
                 /\ r <> []
                 /\ In r (responses_for (author_of c)
                            (get c "sentiment" (VStr (lit "neutral")))
                            (lower (text_of c))))))
       comments out.
Proof.
  intros Hkey Hall. induction Hall as [|c rest (text & Hc) _ IH]; intros i.
  - exists []. split; [reflexivity | constructor].
  - destruct (respond_to_with_key key (picks i) c text Hkey Hc)
      as (r & Hr & Hcase).
    destruct (IH (S i)) as (out & Hout & Hrel).
    exists (<["response" := VStr r]> c :: out). split.
    + simpl. rewrite Hr, Hout. reflexivity.
    + constructor; [|exact Hrel]. exists r. split; [reflexivity|].
      unfold text_of. rewrite Hc. exact Hcase.
Qed.

(** X5. With a key, whatever the provider does, when the original
    text of every comment is a string: no exception reaches the caller,
    one record is returned per comment, in order, with only its
    [response] field set, to the stripped content when the call for
    that comment succeeded, and to a template that is not empty when
    the call raised. *)
Theorem responses_with_key (picks : nat -> nat) (comments : list dict)
                           (key : str) :
  key <> [] ->
  Forall (fun c => exists text, get c "original_text" (VStr []) = VStr text)
         comments ->
  exists out,
    generate_comment_responses lower str_of_object groq_chat picks comments
      (Some key) = Some out
    /\ Forall2 (fun c c' => exists r,
         c' = <["response" := VStr r]> c
         /\ ((exists content,
                groq_chat (response_request str_of_object key c)
                = Some content /\ r = strip content)
             \/ (groq_chat (response_request str_of_object key c) = None
                 /\ r <> []
                 /\ In r (responses_for (author_of c)
                            (get c "sentiment" (VStr (lit "neutral")))
                            (lower (text_of c))))))
       comments out.
Proof.
  intros Hkey Hall. apply respond_from_with_key; assumption.
Qed.

End Responses.

(** A comment counted as answered by the provider is counted as
    answered. *)
Lemma looks_generated_has_response c :
  looks_generated c = Some true -> has_response c = true.
Proof.
  unfold looks_generated, has_response.
  destruct (truthy (get_or_none c "response")); [reflexivity | discriminate].
Qed.

Lemma count_generated_le comments n :
  count_generated comments = Some n ->
  (n <= length (List.filter has_response comments))%nat.
Proof.
  revert n. induction comments as [|c rest IH]; intros n; simpl.
  - intros [= <-]. lia.
  - destruct (looks_generated c) as [b|] eqn:Eb; [|discriminate].
    destruct (count_generated rest) as [m|]; [|discriminate].
    specialize (IH m eq_refl). intros [= <-].
    destruct b.
    + rewrite (looks_generated_has_response c Eb). simpl. lia.
    + destruct (has_response c); simpl; lia.
Qed.

(** X6. The report of [get_response_summary] is the empty dictionary
    for an empty sequence; otherwise its three counts are such that
    [total_responses] is the number of records with a truthy response,
    [ai_responses + template_responses = total_responses], and
    [total_responses] is at most the number of records. *)
Theorem response_summary_adds_up (comments : list dict)
                                 (report : gmap string nat) :
  get_response_summary comments = Some report ->
  (comments = [] /\ report = ∅)
  \/ (exists total ai template,
        report !! "total_responses" = Some total
        /\ report !! "ai_responses" = Some ai
        /\ report !! "template_responses" = Some template
        /\ total = length (List.filter has_response comments)
        /\ (ai + template = total)%nat
        /\ (total <= length comments)%nat).
Proof.
  unfold get_response_summary. destruct comments as [|c rest].
  - intros [= <-]. left. split; reflexivity.
  - set (comments := c :: rest).
    destruct (count_generated comments) as [ai|] eqn:E; [|discriminate].
    intros [= <-]. right.
    pose proof (count_generated_le comments ai E) as Hle.
    exists (length (List.filter has_response comments)), ai,
           (length (List.filter has_response comments) - ai)%nat.
    repeat split; try reflexivity; [lia|].
    apply filter_length_le.
Qed.

Lemma count_generated_strings comments :
  Forall (fun c => exists r, c !! "response" = Some (VStr r)) comments ->
  exists n, count_generated comments = Some n.
Proof.
  induction 1 as [|c rest (r & Hr) _ (n & IH)]; simpl; [eauto|].
  unfold looks_generated, get_or_none, get. rewrite Hr. simpl.
  rewrite IH. destruct (negb (bool_decide (r = []))); eauto.
Qed.

Lemma filter_has_response_all comments :
  Forall (fun c => exists r, c !! "response" = Some (VStr r) /\ r <> [])
         comments ->
  List.filter has_response comments = comments.
Proof.
  induction 1 as [|c rest (r & Hr & Hne) _ IH]; simpl; [reflexivity|].
  unfold has_response at 1, get_or_none, get. rewrite Hr. simpl.
  rewrite bool_decide_eq_false_2 by assumption. simpl. rewrite IH.
  reflexivity.
Qed.

(** X7. Composition of the two operations: after a run without a key on
    a sequence that is not empty (original texts being strings), the
    report counts one response per comment, and its two other counts
    add up to the number of comments. *)
Theorem summary_of_responses_without_key
    (lower : str -> str) (str_of_object : value -> str)
    (groq_chat : Summarizer.chat_request -> option str)
    (picks : nat -> nat) (comments : list dict)
    (groq_api_key : option str) :
  no_key groq_api_key ->
  comments <> [] ->
  Forall (fun c => exists text, get c "original_text" (VStr []) = VStr text)
         comments ->
  exists out report ai template,
    generate_comment_responses lower str_of_object groq_chat picks comments
      groq_api_key = Some out
    /\ get_response_summary out = Some report
    /\ report !! "total_responses" = Some (length comments)
    /\ report !! "ai_responses" = Some ai
    /\ report !! "template_responses" = Some template
    /\ (ai + template = length comments)%nat.
Proof.
  intros Hkey Hne Hall.
  destruct (responses_without_key lower str_of_object groq_chat picks
              comments groq_api_key Hkey Hall) as (out & Hout & Hrel).
  assert (Hresp : Forall (fun c => exists r, c !! "response" = Some (VStr r)
                                             /\ r <> []) out).
  { clear Hout Hne Hall.
    induction Hrel as [|c c' cs cs' (r & -> & Hr & _) _ IH];
      constructor; [|exact IH].
    exists r. split; [apply lookup_insert_eq | exact Hr]. }
  assert (Hlen : length out = length comments).
  { symmetry. eapply Forall2_length, Hrel. }
  destruct (count_generated_strings out) as (ai & Hai).
  { eapply Forall_impl; [exact Hresp|]. intros c (r & Hr & _). eauto. }
  pose proof (count_generated_le out ai Hai) as Hle.
  rewrite (filter_has_response_all out Hresp) in Hle.
  exists out, (<["total_responses" := length out]>
                (<["ai_responses" := ai]>
                  (<["template_responses" := (length out - ai)%nat]> ∅))),
         ai, (length out - ai)%nat.
  split; [exact Hout|]. split.
  - unfold get_response_summary. destruct out as [|c rest].
    + destruct comments; [congruence | discriminate Hlen].
    + rewrite Hai, (filter_has_response_all _ Hresp). reflexivity.
  - rewrite <- Hlen. repeat split; try reflexivity. lia.
Qed.

Lemma fallback_response_mentions_author_witness :
  first_gratitude_reply <> []
  /\ contains (lit "Ana") first_gratitude_reply = true.
Proof.
  apply (fallback_response_mentions_author ascii_lower no_object 0 grateful
           first_gratitude_reply).
  reflexivity.
Defined.

Lemma responses_without_key_witness :
  exists out,
    generate_comment_responses ascii_lower no_object failing_chat
      (fun i => i) three_critical None = Some out
    /\ Forall2 (fun c c' => exists r,
                  c' = <["response" := VStr r]> c
                  /\ r <> []
                  /\ In r (responses_for
                             (format_value no_object
                                (get c "author" (VStr (lit "there"))))
                             (get c "sentiment" (VStr (lit "neutral")))
                             (ascii_lower (text_of c))))
               three_critical out.
Proof.
  apply (responses_without_key ascii_lower no_object failing_chat
           (fun i => i) three_critical None).
  - left. reflexivity.
  - repeat (apply List.Forall_cons; [eexists; reflexivity|]).
    apply List.Forall_nil.
Defined.

Lemma responses_raise_on_text_that_is_no_string_witness :
  generate_comment_responses ascii_lower no_object failing_chat
    (fun i => i) [grateful; numbered] None = None.
Proof.
  apply (responses_raise_on_text_that_is_no_string ascii_lower no_object
           failing_chat (fun i => i) [grateful; numbered] None numbered).
  - left. reflexivity.
  - simpl. right. left. reflexivity.
  - intros text. vm_compute. discriminate.
Defined.

Lemma responses_of_the_provider_witness :
  generate_comment_responses ascii_lower no_object blank_chat
    (fun i => i) [grateful] (Some (lit "gsk_key"))
  = Some (List.map
            (fun c => <["response" := VStr (strip (blank_answer c))]> c)
            [grateful])
  /\ (forall c, In c [grateful] -> strip (blank_answer c) = [] ->
      has_response (<["response" := VStr (strip (blank_answer c))]> c)
      = false).
Proof.
  apply (responses_of_the_provider ascii_lower no_object blank_chat
           (fun i => i) [grateful] (lit "gsk_key") blank_answer).
  - discriminate.
  - apply List.Forall_cons; [reflexivity | apply List.Forall_nil].
Defined.

Lemma responses_with_key_witness :
  exists out,
    generate_comment_responses ascii_lower no_object failing_chat
      (fun i => i) three_critical (Some (lit "gsk_key")) = Some out
    /\ Forall2 (fun c c' => exists r,
         c' = <["response" := VStr r]> c
         /\ ((exists content,
                failing_chat (response_request no_object (lit "gsk_key") c)
                = Some content /\ r = strip content)
             \/ (failing_chat (response_request no_object (lit "gsk_key") c)
                 = None
                 /\ r <> []
                 /\ In r (responses_for
                            (format_value no_object
                               (get c "author" (VStr (lit "there"))))
                            (get c "sentiment" (VStr (lit "neutral")))
                            (ascii_lower (text_of c))))))
       three_critical out.
Proof.
  apply (responses_with_key ascii_lower no_object failing_chat
           (fun i => i) three_critical (lit "gsk_key")).
  - discriminate.
  - repeat (apply List.Forall_cons; [eexists; reflexivity|]).
    apply List.Forall_nil.
Defined.

Lemma response_summary_adds_up_witness :
  (answered = [] /\ answered_report = ∅)
  \/ (exists total ai template,
        answered_report !! "total_responses" = Some total
        /\ answered_report !! "ai_responses" = Some ai
        /\ answered_report !! "template_responses" = Some template
        /\ total = length (List.filter has_response answered)
        /\ (ai + template = total)%nat
        /\ (total <= length answered)%nat).
Proof.
  apply (response_summary_adds_up answered answered_report).
  reflexivity.
Defined.

Lemma summary_of_responses_without_key_witness :
  exists out report ai template,
    generate_comment_responses ascii_lower no_object failing_chat
      (fun i => i) three_critical None = Some out
    /\ get_response_summary out = Some report
    /\ report !! "total_responses" = Some (length three_critical)
    /\ report !! "ai_responses" = Some ai
    /\ report !! "template_responses" = Some template
    /\ (ai + template = length three_critical)%nat.
Proof.
  apply (summary_of_responses_without_key ascii_lower no_object failing_chat
           (fun i => i) three_critical None).
  - left. reflexivity.
  - discriminate.
  - repeat (apply List.Forall_cons; [eexists; reflexivity|]).
    apply List.Forall_nil.
Defined.

End Responder_more.

Module Summarizer_more.

Import Summarizer Summarizer_facts Examples Summary_conditions.

Section Summary.

Variable lower : str -> str.
Variable groq_client : str -> bool.
Variable groq_chat : chat_request -> option str.
Variable format_percentage : nat -> nat -> str.

(** X8. [generate_summary] never returns the empty string, whatever
    the comments, the key and the provider: the summary of the provider
    is returned only when it is not empty, and every other path gives
    the fixed message of the empty sequence or the local summary, which
    is not empty either. *)
Theorem generate_summary_never_empty (comments : list dict)
                                     (groq_api_key : option str) :
  generate_summary lower groq_client groq_chat format_percentage comments
    groq_api_key <> [].
Proof.
  unfold generate_summary. destruct comments as [|c rest]; [discriminate|].
  pose proof (summarize_locally_nonempty lower format_percentage (c :: rest))
    as Hlocal.
  destruct groq_api_key as [key|]; [|exact Hlocal].
  destruct (negb (bool_decide (key = [])) && _); [|exact Hlocal].
  destruct (summarize_with_groq _ _ _ _) as [groq_summary|]; [|exact Hlocal].
  destruct (bool_decide (groq_summary = [])) eqn:E; simpl; [exact Hlocal|].
  apply bool_decide_eq_false in E. exact E.
Qed.

Lemma count_sentiment_unknown counts comment :
  ~ known_sentiment comment ->
  count_sentiment counts (get comment "sentiment" (VStr (lit "neutral")))
  = None.
Proof.
  unfold known_sentiment, count_sentiment, PyStr.eqb. intros H.
  destruct (get comment "sentiment" _) as [|s| | |]; try reflexivity.
  repeat case_bool_decide; subst; try reflexivity; exfalso; apply H; auto.
Qed.

Lemma count_sentiments_unknown comments comment :
  In comment comments -> ~ known_sentiment comment ->
  forall counts, count_sentiments counts comments = None.
Proof.
  intros Hin Hbad. induction comments as [|c rest IH]; intros counts;
    [contradiction|].
  simpl. destruct Hin as [-> | Hin].
  - rewrite (count_sentiment_unknown _ _ Hbad). reflexivity.
  - destruct (count_sentiment _ _); [apply IH, Hin | reflexivity].
Qed.

(** X9. One record whose sentiment is not ['positive'], ['negative']
    or ['neutral'] (a record without sentiment counting as neutral)
    makes [summarize_locally] give up the whole summary: the increment
    of [sentiment_counts] raises, and the handler returns the fixed
    message of the processing error, wherever the record is in the
    sequence. *)
Theorem summarize_locally_unknown_sentiment (comments : list dict)
                                            (comment : dict) :
  In comment comments -> ~ known_sentiment comment ->
  summarize_locally lower format_percentage comments
  = lit "Unable to generate summary due to processing error.".
Proof.
  intros Hin Hbad. unfold summarize_locally, summarize_locally_body.
  destruct comments as [|c rest]; [contradiction|].
  rewrite (count_sentiments_unknown _ _ Hin Hbad). reflexivity.
Qed.

Lemma count_sentiment_known counts comment :
  known_sentiment comment ->
  let v := get comment "sentiment" (VStr (lit "neutral")) in
  count_sentiment counts v
  = Some {| n_positive := n_positive counts
                          + (if equals_str v (lit "positive") then 1 else 0);
            n_negative := n_negative counts
                          + (if equals_str v (lit "negative") then 1 else 0);
            n_neutral := n_neutral counts
                         + (if equals_str v (lit "neutral") then 1 else 0) |}.
Proof.
  unfold known_sentiment. intros [-> | [-> | ->]]; cbv zeta;
    unfold count_sentiment; simpl; f_equal; f_equal; lia.
Qed.

Lemma count_sentiments_tally comments :
  Forall known_sentiment comments ->
  forall counts,
    count_sentiments counts comments
    = Some {| n_positive := n_positive counts + tally (lit "positive") comments;
              n_negative := n_negative counts + tally (lit "negative") comments;
              n_neutral := n_neutral counts + tally (lit "neutral") comments |}.
Proof.
  induction 1 as [|c rest Hc _ IH]; intros counts.
  - simpl. unfold tally. simpl. destruct counts. simpl.
    rewrite !Nat.add_0_r. reflexivity.
  - simpl. rewrite (count_sentiment_known counts c Hc). cbv zeta.
    rewrite IH. unfold tally. simpl.
    set (v := get c "sentiment" (VStr (lit "neutral"))).
    destruct (equals_str v (lit "positive"));
      destruct (equals_str v (lit "negative"));
      destruct (equals_str v (lit "neutral")); simpl; f_equal; f_equal; lia.
Qed.

Lemma tally_sum comments :
  Forall known_sentiment comments ->
  (tally (lit "positive") comments + tally (lit "negative") comments
   + tally (lit "neutral") comments = length comments)%nat.
Proof.
  unfold tally. induction 1 as [|c rest Hc _ IH]; simpl; [reflexivity|].
  destruct Hc as [-> | [-> | ->]]; simpl; lia.
Qed.

Lemma texts_for_topics_strings comments :
  Forall topic_text_is_string comments ->
  exists texts, texts_for_topics comments = Some texts.
Proof.
  induction 1 as [|c rest (text & Hc) _ (texts & IH)]; simpl; [eauto|].
  rewrite Hc, IH. eauto.
Qed.

(** X10. For a sequence that is not empty, whose sentiments are among
    the three counted ones and whose first 30 records hold a string as
    the text for the topics, [summarize_locally] renders: the number of
    comments, the first sentiment of greatest count with its
    percentage, the common topics of the first 30 texts, and the three
    counts of the whole sequence; these three counts add up to the
    number of comments. *)
Theorem summarize_locally_reports_the_tallies (comments : list dict) :
  comments <> [] ->
  Forall known_sentiment comments ->
  Forall topic_text_is_string (firstn 30 comments) ->
  (exists texts,
     texts_for_topics (firstn 30 comments) = Some texts
     /\ summarize_locally lower format_percentage comments
        = render_summary (length comments)
            (fst (dominant (tallies comments)))
            (format_percentage (snd (dominant (tallies comments)))
               (length comments))
            (common_topics lower texts)
            (tallies comments))
  /\ (n_positive (tallies comments) + n_negative (tallies comments)
      + n_neutral (tallies comments) = length comments)%nat.
Proof.
  intros Hne Hknown Htexts. split; [|apply tally_sum, Hknown].
  destruct (texts_for_topics_strings _ Htexts) as (texts & Ht).
  exists texts. split; [exact Ht|].
  unfold summarize_locally, summarize_locally_body.
  destruct comments as [|c rest]; [congruence|].
  rewrite (count_sentiments_tally _ Hknown), Ht. reflexivity.
Qed.

End Summary.

Import Analysis_examples.

Lemma summarize_locally_unknown_sentiment_witness :
  summarize_locally ascii_lower any_percentage [grateful; mixed]
  = lit "Unable to generate summary due to processing error.".
Proof.
  apply (summarize_locally_unknown_sentiment ascii_lower any_percentage
           [grateful; mixed] mixed).
  - right. left. reflexivity.
  - intros [H | [H | H]]; vm_compute in H; discriminate H.
Defined.

Lemma summarize_locally_reports_the_tallies_witness :
  (exists texts,
     texts_for_topics (firstn 30 two_comments) = Some texts
     /\ summarize_locally ascii_lower any_percentage two_comments
        = render_summary (length two_comments)
            (fst (dominant (tallies two_comments)))
            (any_percentage (snd (dominant (tallies two_comments)))
               (length two_comments))
            (common_topics ascii_lower texts)
            (tallies two_comments))
  /\ (n_positive (tallies two_comments) + n_negative (tallies two_comments)
      + n_neutral (tallies two_comments) = length two_comments)%nat.
Proof.
  apply (summarize_locally_reports_the_tallies ascii_lower any_percentage
           two_comments).
  - discriminate.
  - repeat (apply List.Forall_cons; [right; right; reflexivity|]).
    apply List.Forall_nil.
  - change (firstn 30 two_comments) with two_comments.
    repeat (apply List.Forall_cons; [eexists; reflexivity|]).
    apply List.Forall_nil.
Defined.

End Summarizer_more.

Module Topics_facts.

Import Summarizer Summary_conditions.

Lemma eqb_refl (w : str) : PyStr.eqb w w = true.
Proof. unfold PyStr.eqb. apply bool_decide_eq_true_2. reflexivity. Qed.

Lemma eqb_eq (v w : str) : PyStr.eqb v w = true -> v = w.
Proof. unfold PyStr.eqb. apply bool_decide_eq_true_1. Qed.

Lemma eqb_sym (v w : str) : PyStr.eqb v w = PyStr.eqb w v.
Proof.
  unfold PyStr.eqb. destruct (bool_decide (w = v)) eqn:E.
  - apply bool_decide_eq_true in E. subst. apply bool_decide_eq_true_2.
    reflexivity.
  - apply bool_decide_eq_false in E. apply bool_decide_eq_false_2.
    congruence.
Qed.

Lemma occurrences_app w xs ys :
  occurrences w (xs ++ ys) = (occurrences w xs + occurrences w ys)%nat.
Proof. unfold occurrences. rewrite List.filter_app, length_app. reflexivity. Qed.

(** The count of [w] after [word_freq[word] = word_freq.get(word, 0) + 1]. *)
Lemma freq_of_bump w word word_freq :
  freq_of w (bump word word_freq)
  = (freq_of w word_freq + if PyStr.eqb w word then 1 else 0)%nat.
Proof.
  induction word_freq as [|[v n] rest IH].
  - unfold freq_of. simpl. rewrite (eqb_sym word w).
    destruct (PyStr.eqb w word); reflexivity.
  - simpl bump. destruct (PyStr.eqb v word) eqn:Ev.
    + apply eqb_eq in Ev. subst v. unfold freq_of. simpl.
      rewrite (eqb_sym word w). destruct (PyStr.eqb w word); simpl; lia.
    + unfold freq_of in *. simpl. destruct (PyStr.eqb v w) eqn:Evw.
      * apply eqb_eq in Evw. subst v. rewrite Ev. simpl. lia.
      * exact IH.
Qed.

Lemma bump_keys w word word_freq :
  In w (List.map fst (bump word word_freq))
  <-> w = word \/ In w (List.map fst word_freq).
Proof.
  induction word_freq as [|[v n] rest IH]; simpl.
  - intuition.
  - destruct (PyStr.eqb v word) eqn:Ev; simpl.
    + apply eqb_eq in Ev. subst v. intuition.
    + rewrite IH. intuition.
Qed.

Lemma bump_NoDup word word_freq :
  List.NoDup (List.map fst word_freq) ->
  List.NoDup (List.map fst (bump word word_freq)).
Proof.
  induction word_freq as [|[v n] rest IH]; simpl; intros H.
  - constructor; [intros [] | constructor].
  - apply List.NoDup_cons_iff in H. destruct H as [Hv Hrest].
    destruct (PyStr.eqb v word) eqn:Ev; simpl.
    + apply List.NoDup_cons_iff. split; assumption.
    + apply List.NoDup_cons_iff. split; [|apply IH, Hrest].
      rewrite bump_keys. intros [-> | Hin]; [|contradiction].
      rewrite eqb_refl in Ev. discriminate.
Qed.

Lemma bump_positive word word_freq :
  Forall (fun wn => (0 < snd wn)%nat) word_freq ->
  Forall (fun wn => (0 < snd wn)%nat) (bump word word_freq).
Proof.
  induction 1 as [|[v n] rest Hn Hrest IH]; simpl.
  - repeat constructor.
  - destruct (PyStr.eqb v word); constructor; simpl in *;
      first [lia | assumption].
Qed.

Lemma freq_of_entry w n word_freq :
  List.NoDup (List.map fst word_freq) -> In (w, n) word_freq ->
  freq_of w word_freq = n.
Proof.
  induction word_freq as [|[v m] rest IH]; simpl; intros Hnd Hin;
    [contradiction|].
  apply List.NoDup_cons_iff in Hnd. destruct Hnd as [Hv Hrest].
  unfold freq_of in *. simpl. destruct Hin as [[= -> ->] | Hin].
  - rewrite eqb_refl. reflexivity.
  - destruct (PyStr.eqb v w) eqn:E; [|apply IH; assumption].
    apply eqb_eq in E. subst v. exfalso. apply Hv.
    apply (in_map fst) in Hin. exact Hin.
Qed.

(** The dictionary [word_freq] after the loop over the words [seen]. *)
Lemma count_words_invariant words :
  forall acc seen,
    List.NoDup (List.map fst acc) ->
    Forall (fun wn => (0 < snd wn)%nat) acc ->
    (forall w, freq_of w acc
               = if (3 <? len w)%nat then occurrences w seen else 0%nat) ->
    let word_freq :=
      fold_left (fun word_freq word =>
                   if (3 <? len word)%nat then bump word word_freq
                   else word_freq) words acc in
    List.NoDup (List.map fst word_freq)
    /\ Forall (fun wn => (0 < snd wn)%nat) word_freq
    /\ (forall w, freq_of w word_freq
                  = if (3 <? len w)%nat then occurrences w (seen ++ words)
                    else 0%nat).
Proof.
  induction words as [|x rest IH]; intros acc seen Hnd Hpos Hfreq; cbv zeta.
  - simpl. rewrite app_nil_r. auto.
  - simpl fold_left.
    replace (seen ++ x :: rest) with ((seen ++ [x]) ++ rest)
      by (rewrite <- app_assoc; reflexivity).
    apply IH.
    + destruct (3 <? len x)%nat; [apply bump_NoDup|]; assumption.
    + destruct (3 <? len x)%nat; [apply bump_positive|]; assumption.
    + intros w. rewrite occurrences_app. unfold occurrences at 2. simpl.
      destruct (3 <? len x)%nat eqn:Ex.
      * rewrite freq_of_bump, Hfreq.
        destruct (PyStr.eqb w x) eqn:Ewx.
        -- apply eqb_eq in Ewx. subst w. rewrite Ex. simpl. reflexivity.
        -- destruct (3 <? len w)%nat; simpl; lia.
      * rewrite Hfreq. destruct (PyStr.eqb w x) eqn:Ewx.
        -- apply eqb_eq in Ewx. subst w. rewrite Ex. reflexivity.
        -- destruct (3 <? len w)%nat; simpl; lia.
Qed.

(** Every entry of [word_freq] is a word of more than 3 code points with
    the number of its occurrences. *)
Lemma count_words_entries words w n :
  In (w, n) (count_words words) ->
  (3 < len w)%nat /\ (0 < n)%nat /\ n = occurrences w words.
Proof.
  intros Hin. unfold count_words in Hin.
  destruct (count_words_invariant words [] []) as (Hnd & Hpos & Hfreq).
  - constructor.
  - constructor.
  - intros v. unfold freq_of, occurrences. simpl.
    destruct (3 <? len v)%nat; reflexivity.
  - cbv zeta in Hnd, Hpos, Hfreq. simpl app in Hfreq.
    pose proof (freq_of_entry w n _ Hnd Hin) as Hn.
    rewrite List.Forall_forall in Hpos. specialize (Hpos _ Hin). simpl in Hpos.
    rewrite Hfreq in Hn.
    destruct (Nat.ltb_spec 3 (len w)); [|lia]. auto.
Qed.

Lemma insert_desc_In x y sorted :
  In x (insert_desc y sorted) -> x = y \/ In x sorted.
Proof.
  induction sorted as [|z rest IH]; simpl.
  - intuition.
  - destruct (snd z <=? snd y)%nat; simpl; intuition.
Qed.

Lemma sort_desc_In x items : In x (sort_desc items) -> In x items.
Proof.
  induction items as [|y rest IH]; simpl; [auto|].
  intros H. apply insert_desc_In in H. intuition.
Qed.

Lemma firstn_In {A} (x : A) n l : In x (firstn n l) -> In x l.
Proof.
  intros H. rewrite <- (firstn_skipn n l). apply in_or_app. left. exact H.
Qed.

(** X11. The common topics of the local summary: at most 10 words,
    each longer than 3 code points and occurring at least 3 times among
    the whitespace-separated words of the lowercased texts. *)
Theorem common_topics_are_frequent_words (lower : str -> str)
                                         (texts : list str) :
  let words := split (lower (join [space] texts)) in
  (length (common_topics lower texts) <= 10)%nat
  /\ Forall (fun topic => (3 < len topic)%nat
                          /\ (3 <= occurrences topic words)%nat)
            (common_topics lower texts).
Proof.
  cbv zeta. unfold common_topics. split.
  - rewrite length_map.
    etransitivity; [apply filter_length_le|]. rewrite length_firstn. lia.
  - apply List.Forall_forall. intros topic Hin.
    apply in_map_iff in Hin. destruct Hin as ([w n] & <- & Hin).
    apply filter_In in Hin. destruct Hin as [Hin Hn].
    apply firstn_In, sort_desc_In, count_words_entries in Hin.
    apply Nat.ltb_lt in Hn. simpl in *. destruct Hin as (Hlen & _ & ->).
    split; [exact Hlen | lia].
Qed.

End Topics_facts.

Module Topics_order.

Import Summarizer Summary_conditions Topics_facts.

Local Abbreviation by_count :=
  (fun a b : str * nat => (snd b <= snd a)%nat).

Lemma insert_desc_sorted x sorted :
  StronglySorted by_count sorted ->
  StronglySorted by_count (insert_desc x sorted).
Proof.
  induction 1 as [|z rest Hrest IH Hz]; simpl.
  - repeat constructor.
  - destruct (Nat.leb_spec (snd z) (snd x)) as [Hle | Hlt].
    + constructor; [constructor; assumption|].
      constructor; [exact Hle|].
      eapply Forall_impl; [exact Hz|]. simpl. intros y Hy. lia.
    + constructor; [exact IH|].
      apply List.Forall_forall. intros y Hy.
      apply insert_desc_In in Hy. destruct Hy as [-> | Hy]; [simpl; lia|].
      rewrite List.Forall_forall in Hz. apply Hz, Hy.
Qed.

Lemma sort_desc_sorted items : StronglySorted by_count (sort_desc items).
Proof.
  induction items as [|x rest IH]; simpl; [constructor|].
  apply insert_desc_sorted, IH.
Qed.

Lemma firstn_sorted {A} (R : A -> A -> Prop) n l :
  StronglySorted R l -> StronglySorted R (firstn n l).
Proof.
  intros H. revert n. induction H as [|x l Hl IH Hx]; intros n.
  - rewrite firstn_nil. constructor.
  - destruct n; simpl; constructor; [apply IH|].
    apply List.Forall_forall. intros y Hy. apply firstn_In in Hy.
    rewrite List.Forall_forall in Hx. apply Hx, Hy.
Qed.

Lemma filter_sorted {A} (R : A -> A -> Prop) f l :
  StronglySorted R l -> StronglySorted R (List.filter f l).
Proof.
  induction 1 as [|x l Hl IH Hx]; simpl; [constructor|].
  destruct (f x); [|exact IH]. constructor; [exact IH|].
  apply List.Forall_forall. intros y Hy. apply filter_In in Hy.
  rewrite List.Forall_forall in Hx. apply Hx, Hy.
Qed.

Lemma map_sorted {A B} (R : A -> A -> Prop) (R' : B -> B -> Prop)
      (f : A -> B) (Q : A -> Prop) l :
  (forall x y, Q x -> Q y -> R x y -> R' (f x) (f y)) ->
  Forall Q l -> StronglySorted R l -> StronglySorted R' (List.map f l).
Proof.
  intros HR HQ H. induction H as [|x l Hl IH Hx]; simpl; [constructor|].
  apply List.Forall_cons_iff in HQ. destruct HQ as [Qx Ql].
  constructor; [apply IH, Ql|].
  apply List.Forall_forall. intros y Hy. apply in_map_iff in Hy.
  destruct Hy as (z & <- & Hz).
  rewrite List.Forall_forall in Hx, Ql. apply HR; auto.
Qed.

(** X12. The common topics of the local summary come by decreasing
    number of occurrences among the words of the lowercased texts: a
    topic never occurs less often than a topic listed after it. *)
Theorem common_topics_by_decreasing_frequency (lower : str -> str)
                                              (texts : list str) :
  let words := split (lower (join [space] texts)) in
  StronglySorted
    (fun a b => (occurrences b words <= occurrences a words)%nat)
    (common_topics lower texts).
Proof.
  cbv zeta. unfold common_topics.
  set (words := split (lower (join [space] texts))).
  apply (map_sorted by_count _ fst
           (fun wn => snd wn = occurrences (fst wn) words)).
  - intros [a n] [b m]. simpl. intros -> ->. auto.
  - apply List.Forall_forall. intros [w n] Hin. simpl.
    apply filter_In in Hin. destruct Hin as [Hin _].
    apply firstn_In, sort_desc_In, count_words_entries in Hin.
    tauto.
  - apply filter_sorted, firstn_sorted, sort_desc_sorted.
Qed.

End Topics_order.

Module Prompt_facts.

Import Summarizer Summarizer_facts Summary_conditions.

Lemma meaningful_text_line comment line :
  meaningful_text comment = Some (Some line) ->
  (len line <= 202)%nat /\ startswith (lit "- ") line = true.
Proof.
  unfold meaningful_text.
  destruct (get comment "original_text" _) as [|text|n|x|sc];
    try (destruct (truthy _); discriminate).
  destruct (negb (bool_decide (text = [])) && _); [|discriminate].
  intros H.
  assert (Hline : line = lit "- " ++ slice_to 200 text) by congruence.
  rewrite Hline. split; [|reflexivity].
  unfold len, slice_to. rewrite length_app, length_firstn.
  change (length (lit "- ")) with 2%nat. lia.
Qed.

(** The lines built for the prompt. *)
Lemma collect_comments_text_lines comments :
  forall lines,
    collect_comments_text comments = Some lines ->
    (length lines <= length comments)%nat
    /\ Forall (fun line => (len line <= 202)%nat
                           /\ startswith (lit "- ") line = true) lines.
Proof.
  induction comments as [|c rest IH]; simpl; intros lines.
  - intros [= <-]. split; [simpl; lia | constructor].
  - destruct (meaningful_text c) as [line|] eqn:E; [|discriminate].
    destruct (collect_comments_text rest) as [ls|]; [|discriminate].
    destruct (IH ls eq_refl) as [Hlen Hall].
    destruct line as [l|]; intros H;
      [assert (Hl : lines = l :: ls) by congruence
      |assert (Hl : lines = ls) by congruence]; rewrite Hl.
    + split; [simpl; lia|]. constructor; [|exact Hall].
      apply (meaningful_text_line c), E.
    + split; [simpl; lia | exact Hall].
Qed.

Lemma join_length (sep : char) (bound : nat) parts :
  Forall (fun p => (len p <= bound)%nat) parts ->
  (len (join [sep] parts) <= length parts * (bound + 1))%nat.
Proof.
  unfold len. induction 1 as [|p rest Hp Hrest IH]; [simpl; lia|].
  destruct rest as [|q rest'].
  - simpl. unfold len in Hp. lia.
  - change (join [sep] (p :: q :: rest'))
      with (p ++ [sep] ++ join [sep] (q :: rest')).
    rewrite !length_app. unfold len in Hp.
    change (length (p :: q :: rest')) with (S (length (q :: rest'))).
    change (length [sep]) with 1%nat. lia.
Qed.

Lemma summary_prompt_length comments_text :
  len (summary_prompt comments_text)
  = (495 + len (join [newline] (firstn 30 comments_text)))%nat.
Proof.
  unfold summary_prompt, len. rewrite !length_app. simpl. lia.
Qed.

Section Summary.

Variable lower : str -> str.
Variable groq_client : str -> bool.
Variable groq_chat : chat_request -> option str.
Variable format_percentage : nat -> nat -> str.

(** X13. Whatever the comments, the prompt sent by
    [summarize_with_groq] is bounded: at most 50 lines are collected,
    each is ["- "] followed by at most 200 code points of a comment, and
    the prompt (which holds the first 30 lines) has at most 6585 code
    points. *)
Theorem summary_prompt_is_bounded (comments : list dict) (key : str)
                                  (comments_text : list str) :
  collect_comments_text (firstn 50 comments) = Some comments_text ->
  (length comments_text <= 50)%nat
  /\ Forall (fun line => (len line <= 202)%nat
                         /\ startswith (lit "- ") line = true) comments_text
  /\ (Z.of_nat (len (prompt (summary_request key comments_text)))
      <= 6585)%Z.
Proof.
  intros H. apply collect_comments_text_lines in H. destruct H as [Hlen Hall].
  rewrite length_firstn in Hlen.
  split; [lia|]. split; [exact Hall|].
  unfold summary_request. cbn [prompt]. rewrite summary_prompt_length.
  assert (Hj : (len (join [newline] (firstn 30 comments_text))
                <= length (firstn 30 comments_text) * (202 + 1))%nat).
  { apply join_length. apply List.Forall_forall. intros l Hl.
    apply Topics_facts.firstn_In in Hl.
    rewrite List.Forall_forall in Hall. apply Hall, Hl. }
  rewrite length_firstn in Hj. lia.
Qed.

Lemma collect_not_meaningful comments :
  Forall not_meaningful comments ->
  collect_comments_text comments = Some [].
Proof.
  induction 1 as [|c rest Hc _ IH]; simpl; [reflexivity|].
  unfold not_meaningful in Hc. rewrite Hc, IH. reflexivity.
Qed.

(** X14. With a usable key (not blank, the client is built), when none
    of the first 50 comments has a text of more than 10 code points
    once stripped, [generate_summary] returns
    ["No meaningful comments found to summarize."], without a call to
    the provider and instead of the local summary. *)
Theorem generate_summary_without_meaningful_comment
    (comments : list dict) (key : str) :
  comments <> [] ->
  strip key <> [] ->
  groq_client (strip key) = true ->
  Forall not_meaningful (firstn 50 comments) ->
  generate_summary lower groq_client groq_chat format_percentage comments
    (Some key)
  = lit "No meaningful comments found to summarize.".
Proof.
  intros Hne Hkey Hclient Hall.
  unfold generate_summary. destruct comments as [|c rest]; [congruence|].
  assert (Hk : key <> []) by (intros ->; apply Hkey; reflexivity).
  rewrite !bool_decide_eq_false_2 by assumption. simpl andb. cbv iota.
  unfold summarize_with_groq.
  rewrite Hclient, (collect_not_meaningful _ Hall). reflexivity.
Qed.

End Summary.

Import Examples Analysis_examples.

Lemma summary_prompt_is_bounded_witness :
  (length [lit "- Thank you for this!"] <= 50)%nat
  /\ Forall (fun line => (len line <= 202)%nat
                         /\ startswith (lit "- ") line = true)
            [lit "- Thank you for this!"]
  /\ (Z.of_nat (len (prompt (summary_request (lit "gsk_key")
                               [lit "- Thank you for this!"])))
      <= 6585)%Z.
Proof.
  apply (summary_prompt_is_bounded [grateful] (lit "gsk_key")
           [lit "- Thank you for this!"]).
  reflexivity.
Defined.

Lemma generate_summary_without_meaningful_comment_witness :
  generate_summary ascii_lower any_client failing_chat any_percentage
    [short_text] (Some (lit "gsk_key"))
  = lit "No meaningful comments found to summarize.".
Proof.
  apply (generate_summary_without_meaningful_comment ascii_lower any_client
           failing_chat any_percentage [short_text] (lit "gsk_key")).
  - discriminate.
  - vm_compute. discriminate.
  - reflexivity.
  - change (firstn 50 [short_text]) with [short_text].
    apply List.Forall_cons; [reflexivity | apply List.Forall_nil].
Defined.

End Prompt_facts.

Module Sentiment_more.

Import Sentiment Sentiment_facts Sentiment_conditions.

(** X15. The text that [analyze_sentiment] gives to the model for a
    record is never empty and has at most 512 code points: a missing,
    empty or blank text is replaced by ["okay comment"], a long one is
    cut. *)
Theorem text_to_analyze_bounds (comment : dict) (text : str) :
  text_to_analyze comment = Some text ->
  text <> [] /\ (len text <= 512)%nat.
Proof.
  unfold text_to_analyze.
  destruct (get comment "processed_text" _) as [|t|n|x|sc].
  - intros [= <-]. split; [discriminate | vm_compute; lia].
  - destruct (bool_decide (t = [])) eqn:Et; cbn [negb andb].
    + intros [= <-]. split; [discriminate | vm_compute; lia].
    + apply bool_decide_eq_false in Et.
      destruct (0 <? len (strip t))%nat.
      * destruct (Nat.ltb_spec 512 (len t)) as [Hlong | Hshort]; intros H;
          cbv iota in H.
        -- assert (Ht : text = slice_to 512 t) by congruence.
           rewrite Ht. split.
           ++ unfold slice_to. destruct t; [congruence | discriminate].
           ++ unfold len, slice_to. rewrite length_firstn. lia.
        -- assert (Ht : text = t) by congruence.
           rewrite Ht. split; [exact Et | exact Hshort].
      * intros [= <-]. split; [discriminate | vm_compute; lia].
  - destruct (n =? 0)%Z; [|discriminate].
    intros [= <-]. split; [discriminate | vm_compute; lia].
  - destruct (truthy (VFloat x)); [discriminate|].
    intros [= <-]. split; [discriminate | vm_compute; lia].
  - discriminate.
Qed.

(** X16. [load_sentiment_model] makes at most three attempts: it
    returns [None] exactly when building the model raises at the
    attempts 1, 2 and 3, and otherwise the model of the first attempt
    that does not raise. *)
Theorem load_sentiment_model_attempts (construct : nat -> option pipeline) :
  (load_sentiment_model construct = None
   <-> construct 1%nat = None /\ construct 2%nat = None
       /\ construct 3%nat = None)
  /\ (forall sentiment_pipeline,
        load_sentiment_model construct = Some sentiment_pipeline ->
        exists attempt,
          (1 <= attempt <= 3)%nat
          /\ construct attempt = Some sentiment_pipeline
          /\ forall earlier, (1 <= earlier < attempt)%nat ->
                             construct earlier = None).
Proof.
  unfold load_sentiment_model. simpl.
  destruct (construct 1%nat) as [p1|] eqn:E1;
    [|destruct (construct 2%nat) as [p2|] eqn:E2;
      [|destruct (construct 3%nat) as [p3|] eqn:E3]].
  - split; [split; [discriminate | intros (H & _); discriminate]|].
    intros p [= <-]. exists 1%nat. repeat split; try lia; try assumption.
  - split; [split; [discriminate | intros (_ & H & _); discriminate]|].
    intros p [= <-]. exists 2%nat. repeat split; try lia; try assumption.
    intros earlier H. replace earlier with 1%nat by lia. assumption.
  - split; [split; [discriminate | intros (_ & _ & H); discriminate]|].
    intros p [= <-]. exists 3%nat. repeat split; try lia; try assumption.
    intros earlier H.
    assert (earlier = 1 \/ earlier = 2)%nat as [-> | ->] by lia; assumption.
  - split; [split; auto|]. intros p H. discriminate.
Qed.

Lemma classify_one_batch_length sentiment_pipeline texts i :
  one_prediction_per_text sentiment_pipeline ->
  length (classify_one_batch sentiment_pipeline texts i)
  = length (firstn batch_size (skipn i texts)).
Proof.
  intros H. unfold classify_one_batch.
  destruct (sentiment_pipeline _) as [predictions|] eqn:E;
    rewrite length_map; [apply (H _ _ E) | reflexivity].
Qed.

Lemma batches_length sentiment_pipeline texts k :
  one_prediction_per_text sentiment_pipeline ->
  length (flat_map (classify_one_batch sentiment_pipeline texts)
            (List.map (fun j => j * batch_size)%nat (seq 0 k)))
  = Nat.min (k * batch_size) (length texts).
Proof.
  intros H. induction k as [|k IH]; [reflexivity|].
  rewrite seq_S, List.map_app, flat_map_app, length_app, IH.
  simpl flat_map. rewrite app_nil_r, classify_one_batch_length by assumption.
  rewrite length_firstn, length_skipn. unfold batch_size. lia.
Qed.

(** X17. With a model that gives one prediction per text,
    [classify_sentiment_batch] returns exactly one result per text,
    whatever the number of texts (the batches of 32 cover the list,
    the last one being shorter), and also when the model raises on some
    batches. *)
Theorem classify_sentiment_batch_length (sentiment_pipeline : pipeline)
                                        (texts : list str) :
  one_prediction_per_text sentiment_pipeline ->
  length (classify_sentiment_batch texts (Some sentiment_pipeline))
  = length texts.
Proof.
  intros H. unfold classify_sentiment_batch, range_step.
  rewrite batches_length by assumption.
  unfold batch_size.
  pose proof (Nat.div_mod_eq (length texts + 32 - 1) 32) as Hd.
  pose proof (Nat.mod_upper_bound (length texts + 32 - 1) 32) as Hm.
  lia.
Qed.

Lemma map_sentiment_label_sum label s :
  valid_score s ->
  fadd (Scores.positive (map_sentiment_label label s))
       (Scores.negative (map_sentiment_label label s)) = f1_0.
Proof.
  intros (Hv & H0 & H1).
  destruct (score_and_complement s Hv H0 H1) as [Hpos Hneg].
  unfold map_sentiment_label.
  destruct (PyStr.eqb label (lit "POSITIVE")); [exact Hpos|].
  destruct (PyStr.eqb label (lit "NEGATIVE")); [exact Hneg|].
  reflexivity.
Qed.

Lemma result_of_prediction_tag p : is_tag (sentiment (result_of_prediction p)).
Proof.
  unfold result_of_prediction, is_tag. simpl.
  destruct (fgt _ _); [left | right]; reflexivity.
Qed.

(** X18. With a model whose scores are binary64 numbers between 0 and
    1, every result of [classify_sentiment_batch] (also the default of
    a batch on which the model raised) has one of the two tags, two
    scores whose floating-point sum is exactly [1.0], and a confidence
    between 0 and 1. *)
Theorem classifier_results_are_distributions (sentiment_pipeline : pipeline)
                                             (texts : list str) :
  gives_valid_scores sentiment_pipeline ->
  Forall (fun r =>
            is_tag (sentiment r)
            /\ fadd (Scores.positive (result_scores r))
                    (Scores.negative (result_scores r)) = f1_0
            /\ valid_score (confidence r))
         (classify_sentiment_batch texts (Some sentiment_pipeline)).
Proof.
  intros Hvalid. unfold classify_sentiment_batch.
  apply List.Forall_forall. intros r Hr.
  apply in_flat_map in Hr. destruct Hr as (i & _ & Hr).
  unfold classify_one_batch in Hr.
  destruct (sentiment_pipeline _) as [predictions|] eqn:E;
    apply in_map_iff in Hr; destruct Hr as (x & <- & Hx).
  - pose proof (Hvalid _ _ E) as Hall.
    rewrite List.Forall_forall in Hall. specialize (Hall _ Hx).
    split; [apply result_of_prediction_tag|].
    split; [apply map_sentiment_label_sum, Hall | exact Hall].
  - split; [left; reflexivity|].
    split; [reflexivity | repeat split].
Qed.

Import Examples Analysis_examples.

Lemma text_to_analyze_bounds_witness :
  lit "Thank you for this!" <> []
  /\ (len (lit "Thank you for this!") <= 512)%nat.
Proof.
  apply (text_to_analyze_bounds grateful (lit "Thank you for this!")).
  reflexivity.
Defined.

Lemma classify_sentiment_batch_length_witness :
  length (classify_sentiment_batch [lit "great video"; lit "awful sound"]
            (Some always_positive))
  = length [lit "great video"; lit "awful sound"].
Proof.
  apply (classify_sentiment_batch_length always_positive
           [lit "great video"; lit "awful sound"]).
  intros batch predictions H. unfold always_positive in H.
  injection H as <-. apply length_map.
Defined.

Lemma classifier_results_are_distributions_witness :
  Forall (fun r =>
            is_tag (sentiment r)
            /\ fadd (Scores.positive (result_scores r))
                    (Scores.negative (result_scores r)) = f1_0
            /\ valid_score (confidence r))
         (classify_sentiment_batch [lit "great video"; lit "awful sound"]
            (Some always_positive)).
Proof.
  apply (classifier_results_are_distributions always_positive
           [lit "great video"; lit "awful sound"]).
  intros batch predictions H. unfold always_positive in H.
  injection H as <-. apply List.Forall_forall. intros p Hp.
  apply in_map_iff in Hp. destruct Hp as (t & <- & _).
  repeat split.
Defined.

End Sentiment_more.

Module Analysis_more.

Import Sentiment Sentiment_facts Sentiment_conditions Sentiment_more Report.

Lemma classify_sentiment_batch_tagged sentiment_pipeline texts :
  Forall (fun r => is_tag (sentiment r))
         (classify_sentiment_batch texts (Some sentiment_pipeline)).
Proof.
  unfold classify_sentiment_batch.
  apply List.Forall_forall. intros r Hr.
  apply in_flat_map in Hr. destruct Hr as (i & _ & Hr).
  unfold classify_one_batch in Hr.
  destruct (sentiment_pipeline _) as [predictions|];
    apply in_map_iff in Hr; destruct Hr as (x & <- & Hx).
  - apply result_of_prediction_tag.
  - left. reflexivity.
Qed.

(** The fields of a record other than the three set by the classifier
    are those of the record it was built from. *)
Lemma update_result_frame comment r key :
  ~ classifier_field key ->
  update_result comment r !! key = comment !! key.
Proof.
  unfold classifier_field, update_result. intros H.
  rewrite !lookup_insert_ne; [reflexivity| | |]; intros <-; tauto.
Qed.

Lemma update_result_fields comment r :
  update_result comment r !! "sentiment" = Some (VStr (sentiment r))
  /\ update_result comment r !! "confidence" = Some (VFloat (confidence r))
  /\ update_result comment r !! "scores" = Some (VScores (result_scores r)).
Proof.
  unfold update_result. repeat split.
  - rewrite !lookup_insert_ne by discriminate. apply lookup_insert_eq.
  - rewrite lookup_insert_ne by discriminate. apply lookup_insert_eq.
  - apply lookup_insert_eq.
Qed.

Lemma combine_results_enriches sentiment_results comments :
  Forall (fun r => is_tag (sentiment r)) sentiment_results ->
  forall i,
    Forall2 (fun c c' => exists r,
               c' = update_result c r /\ is_tag (sentiment r))
            comments (combine_results sentiment_results i comments).
Proof.
  intros Hall. induction comments as [|c rest IH]; intros i; simpl;
    constructor; [|apply IH].
  destruct (nth_error sentiment_results i) as [r|] eqn:E.
  - exists r. split; [reflexivity|].
    rewrite List.Forall_forall in Hall. eapply Hall, nth_error_In, E.
  - exists default_result. split; [reflexivity | left; reflexivity].
Qed.

Lemma analyze_sentiment_shape construct comments out :
  load_sentiment_model construct <> None ->
  analyze_sentiment construct comments = Some out ->
  Forall2 (fun c c' => exists r,
             c' = update_result c r /\ is_tag (sentiment r))
          comments out.
Proof.
  unfold analyze_sentiment. intros Hload. destruct comments as [|c rest].
  - intros [= <-]. constructor.
  - destruct (load_sentiment_model construct) as [p|]; [|congruence].
    destruct (texts_to_analyze (c :: rest)) as [texts|]; [|discriminate].
    intros [= <-].
    exact (combine_results_enriches _ (c :: rest)
             (classify_sentiment_batch_tagged p texts) 0%nat).
Qed.

(** X19. When the model is available, [analyze_sentiment] returns one
    record per comment, in order; each is the comment with its three
    fields ['sentiment'] (one of the two tags), ['confidence'] and
    ['scores'] set from one result, every other field being that of the
    comment. *)
Theorem analyze_sentiment_enriches (construct : nat -> option pipeline)
                                   (comments out : list dict) :
  load_sentiment_model construct <> None ->
  analyze_sentiment construct comments = Some out ->
  Forall2 (fun c c' => exists r,
             is_tag (sentiment r)
             /\ c' !! "sentiment" = Some (VStr (sentiment r))
             /\ c' !! "confidence" = Some (VFloat (confidence r))
             /\ c' !! "scores" = Some (VScores (result_scores r))
             /\ forall key, ~ classifier_field key -> c' !! key = c !! key)
          comments out.
Proof.
  intros Hload Hout.
  eapply Forall2_impl; [exact (analyze_sentiment_shape _ _ _ Hload Hout)|].
  intros c c' (r & -> & Htag). exists r.
  destruct (update_result_fields c r) as (Hs & Hc & Hsc).
  repeat (split; [assumption|]).
  intros key Hkey. apply update_result_frame, Hkey.
Qed.

Lemma count_one_tag c :
  let n := ((if equals_str (get_or_none c "sentiment") (lit "positive")
             then 1 else 0)
            + (if equals_str (get_or_none c "sentiment") (lit "negative")
               then 1 else 0))%nat in
  (tagged c /\ n = 1%nat) \/ (~ tagged c /\ n = 0%nat).
Proof.
  cbv zeta. unfold tagged, is_tag.
  destruct (get_or_none c "sentiment") as [|s|n|x|sc] eqn:E; simpl;
    try (right; split; [intros (s' & Hs & _); discriminate | reflexivity]).
  unfold PyStr.eqb.
  destruct (decide (s = lit "positive")) as [-> | Hp].
  - left. split; [eauto | reflexivity].
  - rewrite (bool_decide_eq_false_2 _ Hp).
    destruct (decide (s = lit "negative")) as [-> | Hn].
    + left. split; [eauto | reflexivity].
    + rewrite (bool_decide_eq_false_2 _ Hn). right.
      split; [|reflexivity].
      intros (s' & [= <-] & [? | ?]); contradiction.
Qed.

Lemma filter_cons_length {A} (f : A -> bool) x l :
  length (List.filter f (x :: l))
  = ((if f x then 1 else 0) + length (List.filter f l))%nat.
Proof. simpl. destruct (f x); reflexivity. Qed.

Lemma count_tags comments :
  let n := (count_tag (lit "positive") comments
            + count_tag (lit "negative") comments)%nat in
  (n <= length comments)%nat
  /\ (n = length comments <-> Forall tagged comments).
Proof.
  cbv zeta. unfold count_tag.
  induction comments as [|c rest (IHle & IHeq)].
  - simpl. split; [lia | split; [constructor | reflexivity]].
  - rewrite !filter_cons_length. cbn [length].
    destruct (count_one_tag c) as [(Ht & Hn) | (Ht & Hn)]; cbv zeta in Hn.
    + split; [lia|]. split.
      * intros H. constructor; [exact Ht | apply IHeq; lia].
      * intros H. apply Forall_cons_1 in H. destruct H as [_ H].
        apply IHeq in H. lia.
    + split; [lia|]. split.
      * intros H. exfalso. lia.
      * intros H. apply Forall_cons_1 in H. tauto.
Qed.

(** X20. In the statistics of [get_sentiment_summary] the total is
    the number of records, the two counts never exceed it together,
    and they add up to it exactly when every record holds one of the
    two tags: a record without tag, or with another one, is counted in
    the total only. *)
Theorem sentiment_summary_counts (comments : list dict) :
  let summary := get_sentiment_summary comments in
  total_comments summary = length comments
  /\ (positive_count summary + negative_count summary
      <= total_comments summary)%nat
  /\ ((positive_count summary + negative_count summary
       = total_comments summary)%nat
      <-> Forall tagged comments).
Proof.
  cbv zeta. destruct (count_tags comments) as [Hle Heq]. cbv zeta in Hle, Heq.
  destruct comments as [|c rest].
  - simpl. split; [reflexivity|]. split; [lia|].
    split; [constructor | reflexivity].
  - cbn [get_sentiment_summary total_comments positive_count negative_count].
    split; [reflexivity|]. split; assumption.
Qed.

(** X21. Composition of the two operations: when the model is
    available, the statistics of the analyzed comments count every
    comment, as positive or as negative. *)
Theorem sentiment_summary_after_analysis
    (construct : nat -> option pipeline) (comments out : list dict) :
  load_sentiment_model construct <> None ->
  analyze_sentiment construct comments = Some out ->
  let summary := get_sentiment_summary out in
  total_comments summary = length comments
  /\ (positive_count summary + negative_count summary
      = length comments)%nat.
Proof.
  intros Hload Hout. cbv zeta.
  pose proof (analyze_sentiment_shape _ _ _ Hload Hout) as Hrel.
  assert (Hlen : length out = length comments).
  { symmetry. eapply Forall2_length, Hrel. }
  assert (Hall : Forall tagged out).
  { clear - Hrel.
    induction Hrel as [|c c' cs cs' (r & -> & Htag) _ IH];
      constructor; [|exact IH].
    exists (sentiment r). split; [|exact Htag].
    unfold get_or_none, get.
    destruct (update_result_fields c r) as (-> & _). reflexivity. }
  destruct (count_tags out) as [_ Heq]. cbv zeta in Heq.
  apply Heq in Hall. rewrite <- Hlen.
  destruct out as [|c rest]; [split; reflexivity|].
  cbn [get_sentiment_summary total_comments positive_count negative_count].
  split; [reflexivity | exact Hall].
Qed.

Import Examples Analysis_examples.

Lemma analyze_sentiment_enriches_witness :
  Forall2 (fun c c' => exists r,
             is_tag (sentiment r)
             /\ c' !! "sentiment" = Some (VStr (sentiment r))
             /\ c' !! "confidence" = Some (VFloat (confidence r))
             /\ c' !! "scores" = Some (VScores (result_scores r))
             /\ forall key, ~ classifier_field key -> c' !! key = c !! key)
          two_comments two_analyzed.
Proof.
  apply (analyze_sentiment_enriches available two_comments two_analyzed).
  - discriminate.
  - reflexivity.
Defined.

Lemma sentiment_summary_after_analysis_witness :
  total_comments (get_sentiment_summary two_analyzed) = length two_comments
  /\ (positive_count (get_sentiment_summary two_analyzed)
      + negative_count (get_sentiment_summary two_analyzed)
      = length two_comments)%nat.
Proof.
  apply (sentiment_summary_after_analysis available two_comments
           two_analyzed).
  - discriminate.
  - reflexivity.
Defined.

End Analysis_more.

Module Report_facts.

Import Sentiment Report.





Lemma firstn_In_list {A} (x : A) n l : In x (firstn n l) -> In x l.
Proof.
  revert l. induction n as [|n IH]; intros [|y l]; simpl; try tauto.
  intros [-> | H]; [left; reflexivity | right; apply IH, H].
Qed.

Lemma insert_by_key_perm x l : Permutation (insert_by_key x l) (x :: l).
Proof.
  induction l as [|y rest IH]; simpl; [reflexivity|].
  destruct (SFltb (fst x) (fst y)); [|reflexivity].
  rewrite IH. apply perm_swap.
Qed.

Lemma sort_by_key_perm l : Permutation (sort_by_key l) l.
Proof.
  induction l as [|x rest IH]; simpl; [reflexivity|].
  unfold sort_by_key in *. simpl. rewrite insert_by_key_perm, IH. reflexivity.
Qed.

Lemma ranked_snd comments keyed :
  ranked comments = Some keyed -> List.map snd keyed = comments.
Proof.
  revert keyed. induction comments as [|x rest IH]; intros keyed; simpl.
  - intros [= <-]. reflexivity.
  - destruct (rank x) as [k|]; [|discriminate].
    destruct (ranked rest) as [ks|]; [|discriminate].
    intros [= <-]. simpl. rewrite (IH ks eq_refl). reflexivity.
Qed.



Lemma selected_spec sentiment comments c :
  In c (selected sentiment comments)
  <-> In c comments /\ get_or_none c "sentiment" = VStr sentiment.
Proof.
  unfold selected. rewrite filter_In. apply and_iff_compat_l.
  unfold equals_str, PyStr.eqb.
  destruct (get_or_none c "sentiment") as [|s| | |];
    try (split; [discriminate | intros H; discriminate H]).
  rewrite bool_decide_eq_true. split; [intros -> | intros [= ->]]; reflexivity.
Qed.

(** X22. What [get_top_comments_by_sentiment] returns: records of the
    input whose sentiment is the one asked for, as many as the limit
    allows (the smaller of the limit and the number of such records),
    each taken as often as it occurs at most: with the records left
    out, they are a rearrangement of the selected records. *)
Theorem top_comments_are_selected (comments : list dict) (sentiment : str)
                                  (limit : nat) (top : list dict) :
  get_top_comments_by_sentiment comments sentiment limit = Some top ->
  length top = Nat.min limit (length (selected sentiment comments))
  /\ Forall (fun c => In c comments
                      /\ get_or_none c "sentiment" = VStr sentiment) top
  /\ exists others, Permutation (top ++ others) (selected sentiment comments).
Proof.
  unfold get_top_comments_by_sentiment. fold (selected sentiment comments).
  destruct (ranked (selected sentiment comments)) as [keyed|] eqn:E;
    [|discriminate].
  intros [= <-].
  assert (Hperm : Permutation (List.map snd (sort_by_key keyed))
                              (selected sentiment comments)).
  { rewrite (sort_by_key_perm keyed). rewrite (ranked_snd _ _ E).
    reflexivity. }
  split; [|split].
  - rewrite length_firstn, (Permutation_length Hperm). reflexivity.
  - apply List.Forall_forall. intros c Hc.
    apply selected_spec. eapply Permutation_in; [exact Hperm|].
    eapply firstn_In_list; exact Hc.
  - exists (skipn limit (List.map snd (sort_by_key keyed))).
    rewrite firstn_skipn. exact Hperm.
Qed.







Import Analysis_examples.

Lemma top_comments_are_selected_witness :
  length [liked f0_5 250; liked f1_0 0]
  = Nat.min 2 (length (selected (lit "positive") three_liked))
  /\ Forall (fun c => In c three_liked
                      /\ get_or_none c "sentiment" = VStr (lit "positive"))
            [liked f0_5 250; liked f1_0 0]
  /\ exists others,
       Permutation ([liked f0_5 250; liked f1_0 0] ++ others)
                   (selected (lit "positive") three_liked).
Proof.
  apply (top_comments_are_selected three_liked (lit "positive") 2
           [liked f0_5 250; liked f1_0 0]).
  vm_compute. reflexivity.
Defined.


End Report_facts.
